(** * Task-bounty backend: lifecycle and claim-authorization protocol

    A shallow embedding of the Express/Mongoose backend:

    - [models/Task.js], [models/User.js], [models/Participant.js]:
      the three document collections;
    - [services/contractService.js]: the reward-ledger client, the
      Snapchain identity client and the sponsored-gas negotiator;
    - [routes/auth.js], [routes/tasks.js], [routes/participants.js]:
      the request handlers that move tasks and participants through
      their lifecycles.

    Every handler is an [async] function that reads and writes the
    collections, awaits external services and answers with
    [res.status(c).json(b)].  It is embedded as a function from the
    collections and the answers of the external services to a response
    and the new collections: the handler as it runs when no other
    request is served between its first and its last access to the
    collections. *)

From stdpp Require Import gmap strings list fin_maps.
From Stdlib Require Import ZArith Ascii DecimalString DecimalZ DecimalPos.

Open Scope Z_scope.

(** ** JavaScript values *)

(** Mongoose [ObjectId]s.  A new document gets an id that no document
    of its collection carries. *)
Abbreviation ObjectId := nat.

(** What is thrown.  The handlers report an error as [error.message];
    the wording of a message of the engine or of Mongoose is theirs
    and is not modelled, what is kept is which error it is:
    - [TypeError p]: [p] was read from [null] or [undefined];
    - [SyntaxError]: [BigInt] of a string that is no integer literal;
    - [ValidationError m]: [save()] of a document of model [m] that
      fails a validator of its schema, or a cast;
    - [Failure msg]: an error of a library or of a remote call, with
      its message. *)
Inductive Error :=
| TypeError (property : string)
| SyntaxError
| ValidationError (model : string)
| Failure (message : string).

Coercion Failure : string >-> Error.

(** The result of awaiting a call that may reject: the value, or the
    error thrown. *)
Inductive Outcome (A : Type) : Type :=
| Returns (a : A)
| Throws (e : Error).
Arguments Returns {A} a.
Arguments Throws {A} e.

(** A JavaScript string is held as the bytes of its UTF-8 encoding (a
    lone surrogate as the three bytes of its code point). *)
Module JsString.
Definition bytes (s : string) : list nat :=
  nat_of_ascii <$> String.list_ascii_of_string s.

Definition of_bytes (l : list nat) : string :=
  String.string_of_list_ascii (ascii_of_nat <$> l).

(** The code points that [trim] strips, WhiteSpace and LineTerminator
    of ECMAScript, each as its bytes: U+0009 to U+000D, U+0020,
    U+00A0, U+1680, U+2000 to U+200A, U+2028, U+2029, U+202F, U+205F,
    U+3000, U+FEFF. *)
Definition white_space : list (list nat) :=
  [ [9]; [10]; [11]; [12]; [13]; [32]; [194; 160]; [225; 154; 128];
    [226; 128; 128]; [226; 128; 129]; [226; 128; 130]; [226; 128; 131];
    [226; 128; 132]; [226; 128; 133]; [226; 128; 134]; [226; 128; 135];
    [226; 128; 136]; [226; 128; 137]; [226; 128; 138];
    [226; 128; 168]; [226; 128; 169]; [226; 128; 175]; [226; 129; 159];
    [227; 128; 128]; [239; 187; 191] ]%nat.

Fixpoint strip_prefix (p l : list nat) : option (list nat) :=
  match p, l with
  | [], _ => Some l
  | a :: p', b :: l' => if (a =? b)%nat then strip_prefix p' l' else None
  | _ :: _, [] => None
  end.

(** [l] without the white-space code points that it starts with; each
    round strips one code point, and [fuel] rounds are made. *)
Fixpoint strip (fuel : nat) (ws : list (list nat)) (l : list nat) : list nat :=
  match fuel with
  | O => l
  | S fuel' =>
      match head (omap (λ p, strip_prefix p l) ws) with
      | Some l' => strip fuel' ws l'
      | None => l
      end
  end.

Definition trimStart (l : list nat) : list nat :=
  strip (List.length l) white_space l.

Definition trimEnd (l : list nat) : list nat :=
  reverse (strip (List.length l) (reverse <$> white_space) (reverse l)).

(** [s.trim()] *)
Definition trim (s : string) : string :=
  of_bytes (trimEnd (trimStart (bytes s))).

(** The UTF-16 code units that the sequence opened by a byte stands
    for: one for an ASCII byte and for the first byte of a two- or
    three-byte sequence, the two of a surrogate pair for the first
    byte of a four-byte sequence, none for a continuation byte. *)
Definition units (b : nat) : nat :=
  if (b <? 128)%nat then 1%nat
  else if (b <? 192)%nat then 0%nat
  else if (b <? 240)%nat then 1%nat
  else 2%nat.

(** [s.length] *)
Definition length (s : string) : nat :=
  foldr (λ b n, (units b + n)%nat) 0%nat (bytes s).
End JsString.

(** What the engine takes from its Unicode tables:
    [String.prototype.toLowerCase]. *)
Record Engine := {
  toLowerCase : string → string
}.

(** [parseInt(n.toString())] for a [bigint] [n]: the Number nearest to
    [n], with 53 significant bits and ties going to the even
    significand.  Integers up to [2^53] in magnitude are kept. *)
Definition parseInt (n : Z) : Z :=
  let a := Z.abs n in
  let e := Z.log2 a - 52 in
  if e <=? 0 then n
  else
    let q := Z.shiftr a e in
    let r := Z.land a (Z.ones e) in
    let half := Z.shiftl 1 (e - 1) in
    let q' := if (half <? r) || ((r =? half) && Z.odd q) then q + 1 else q in
    Z.sgn n * Z.shiftl q' e.

(** Truthiness of a possibly missing string: [undefined], [null] and
    the empty string are falsy. *)
Definition truthy (o : option string) : bool :=
  match o with
  | Some s => negb (String.eqb s "")
  | None => false
  end.

(** [o || d] *)
Definition or_default (o : option string) (d : string) : string :=
  if truthy o then default d o else d.

(** [a || b] on two possibly missing strings. *)
Definition or_else (a b : option string) : option string :=
  if truthy a then a else b.

(** [BigInt(s)] and [n.toString()] on decimal literals.  [BigInt] of the
    empty string is [0n]; a string that is not a decimal literal raises
    a [SyntaxError] ([None]).  Hexadecimal literals, a leading [+] and
    surrounding blanks, which [BigInt] also reads, do not occur in the
    stored amounts and are left out. *)
Module BigInt.
Definition parse (s : string) : option Z :=
  if String.eqb s "" then Some 0
  else Z.of_int <$> NilZero.int_of_string s.

Definition toString (z : Z) : string :=
  NilZero.string_of_int (Z.to_int z).
End BigInt.

(** ** models/Task.js *)

Inductive TaskType := FOLLOW_USER | LIKE_CAST | RECAST_CAST | JOIN_CHANNEL.

Inductive TaskStatus := DRAFT | ACTIVE | COMPLETED | CANCELLED.

Inductive ParticipantStatus := PENDING | VERIFIED | CLAIMED | REJECTED.

Global Instance TaskType_eq_dec : EqDecision TaskType.
Proof. solve_decision. Defined.
Global Instance TaskStatus_eq_dec : EqDecision TaskStatus.
Proof. solve_decision. Defined.
Global Instance ParticipantStatus_eq_dec : EqDecision ParticipantStatus.
Proof. solve_decision. Defined.

Record TargetData := {
  userToFollow : option string;
  castHashToLike : option string;
  castHashToRecast : option string;
  channelToJoin : option string
}.

Record Requirements := {
  minimumFollowers : Z;
  mustBeVerified : bool
}.

(** An element of the [participants] array embedded in a task document. *)
Record TaskParticipant := {
  tp_user : ObjectId;
  tp_status : ParticipantStatus
}.

Record Task := {
  creator : ObjectId;
  title : string;
  description : string;
  taskType : TaskType;
  targetData : TargetData;
  rewardPerParticipant : string;
  maxParticipants : Z;
  currentParticipants : Z;
  totalFunding : string;
  contractTaskId : option Z;
  t_status : TaskStatus;
  expiresAt : Z;
  tags : list string;
  requirements : Requirements;
  participants : list TaskParticipant;
  t_transactionHash : option string
}.

(** ** models/User.js (the password and the profile fields play no part
    in the lifecycle and are not kept; of [bio] the registration route
    checks the length) *)

Record User := {
  warpcastUsername : string;
  fid : Z;
  walletAddress : string;
  email : string;
  isVerified : bool;
  totalTasksCreated : Z;
  totalTasksCompleted : Z;
  totalRewardsEarned : string;
  reputation : Z
}.

(** ** models/Participant.js *)

Record ProofData := {
  screenshotUrl : option string;
  pd_transactionHash : option string;
  warpcastUrl : option string;
  additionalNotes : option string
}.

Record Participant := {
  p_id : ObjectId;
  p_user : ObjectId;
  p_task : ObjectId;
  p_status : ParticipantStatus;
  proofSubmitted : bool;
  proofData : option ProofData;
  verificationNotes : option string;
  rewardAmount : string;
  claimSignature : option string;
  claimedAt : option Z;
  p_transactionHash : option string
}.

(** ** The persistent store

    A stored document has passed the validators of its schema when it
    was saved; a later [save()] is modelled with the validators of the
    fields that a request can set. *)

Record Store := {
  Tasks : gmap nat Task;
  Users : gmap nat User;
  Participants : list Participant
}.

Definition empty_store : Store :=
  {| Tasks := ∅; Users := ∅; Participants := [] |}.

(** [Participant.findOne({ user, task })] *)
Definition Participant_findOne (u t : ObjectId) (l : list Participant)
  : option Participant :=
  List.find (λ p, bool_decide (p_user p = u) && bool_decide (p_task p = t)) l.

(** [Participant.findById(id)] *)
Definition Participant_findById (i : ObjectId) (l : list Participant)
  : option Participant :=
  List.find (λ p, bool_decide (p_id p = i)) l.

(** [participant.save()] on a document read from the collection: the
    stored document with the same [_id] is replaced. *)
Definition Participant_save (p : Participant) (l : list Participant)
  : list Participant :=
  (λ q, if bool_decide (p_id q = p_id p) then p else q) <$> l.

(** ** External collaborators

    What the outside world answers while one request is handled.  The
    answers may differ from one request to the next, so every handler
    takes the [World] it runs in. *)

(** [response.data.user] of the Snapchain API; [fc_bio] is
    [profile?.bio?.text]. *)
Record FarcasterUser := {
  fc_fid : Z;
  follower_count : Z;
  fc_bio : option string
}.

(** The unsigned operation sent to the paymaster, and what the
    paymaster's result may carry: any field of a JSON object may be
    missing. *)
Record UserOperation := {
  sender : string;
  nonce : string;
  initCode : string;
  callData : string;
  callGasLimit : option string;
  verificationGasLimit : option string;
  preVerificationGas : option string;
  maxFeePerGas : option string;
  maxPriorityFeePerGas : option string;
  paymasterAndData : option string;
  uo_signature : string
}.

Record PaymasterData := {
  pm_callGasLimit : option string;
  pm_verificationGasLimit : option string;
  pm_preVerificationGas : option string;
  pm_maxFeePerGas : option string;
  pm_maxPriorityFeePerGas : option string;
  pm_paymasterAndData : option string
}.

(** [response.data] of the paymaster's JSON-RPC endpoint: [rpc_error]
    is [Some] when [data.error] is truthy, [rpc_result] is [None] when
    [data.result] is missing, [null] or otherwise falsy. *)
Record RpcReply := {
  rpc_error : option string;
  rpc_result : option PaymasterData
}.

(** What [createTaskOnChain] resolves to.  [cr_taskId] is the [uint256]
    argument of the [TaskCreated] event, which the method hands on as
    its decimal string. *)
Record ContractResult := {
  cr_taskId : Z;
  cr_transactionHash : string
}.

Record World := {
  (** [new Date()] *)
  now : Z;
  (** Snapchain HTTP endpoints; [Throws] when axios rejects.  The lists
      carry the [fid] of each entry; an entry of [cast/likes] or
      [cast/recasts] is [None] when it has no [user] object. *)
  api_user_by_username : string → Outcome (option FarcasterUser);
  api_user : Z → Outcome (option FarcasterUser);
  api_cast : string → Outcome bool;
  api_cast_likes : string → Outcome (option (list (option Z)));
  api_cast_recasts : string → Outcome (option (list (option Z)));
  api_user_following : Z → Outcome (option (list Z));
  api_channel_members : string → Outcome (option (list Z));
  api_channel_followers : string → Outcome (option (list Z));
  (** The reward contract: [contract.hasDevClaimed], and the whole of
      [createTaskOnChain] (balance check, gas estimate, transaction,
      receipt, [TaskCreated] event), which throws on every failure. *)
  chain_hasDevClaimed : option Z → string → Outcome bool;
  chain_createTaskOnChain : Z → string → Outcome ContractResult;
  (** [axios.post(paymasterUrl, ...)] *)
  paymaster_post : UserOperation → Outcome RpcReply
}.

(** The ethers library under the backend's private key.  The wallet is
    built once in the constructor and ECDSA signing in ethers is
    deterministic, so a signature is a function of the signed digest. *)
Record Ethers := {
  solidityPackedKeccak256 : option Z → string → string → Outcome string;
  wallet_signMessage : string → Outcome string;
  (** [iface.encodeFunctionData("claimReward", [taskId, rewardAmount, signature])] *)
  encodeFunctionData_claimReward : option Z → string → string → Outcome string
}.

(** [process.env] *)
Record Env := {
  CONTRACT_ADDRESS : option string;
  ENABLE_SPONSORED_GAS : option string;
  PAYMASTER_URL : option string;
  ENTRY_POINT_ADDRESS : option string
}.

(** ** Responses *)

Record SponsoredData := {
  sponsored : bool;
  sd_message : option string;
  sd_error : option Error;
  sd_userOperation : option UserOperation;
  sd_entryPoint : option string
}.

(** [response.sponsoredGas] of the claim route. *)
Inductive SponsoredGas :=
| GasEnabled (userOperation : option UserOperation)
             (entryPoint : option string) (message : string)
| GasDisabled (message : string) (fallback : string).

Inductive Body :=
| ErrorBody (error : string)
| ErrorMessage (error : Error)
| ValidationErrors
| MessageBody (message : string)
| UserBody (message : string) (id : ObjectId) (u : User)
| TaskBody (t : Task)
| CreatedBody (message : string) (t : option Task) (r : ContractResult)
| ParticipantBody (message : string) (p : option Participant)
| ProofBody (message : string) (p : Participant) (autoVerified : bool)
| ReVerifyBody (message : string) (verified : bool) (p : Participant)
| ClaimBody (message : string) (signature : string) (taskId : option Z)
            (rewardAmount : string) (contractAddress : option string)
            (sponsoredGas : SponsoredGas).

Record Response := {
  code : nat;
  body : Body
}.

Definition json (c : nat) (b : Body) : Response := {| code := c; body := b |}.

(** ** Handlers

    A handler body runs against the store.  At each step it goes on
    with a value, answers the request ([return res.status(c).json(b)]),
    or throws.  Writes made before an answer or a throw stay. *)

Inductive Step (A : Type) : Type :=
| Next (a : A)
| Reply (r : Response)
| Raise (e : Error).
Arguments Next {A} a.
Arguments Reply {A} r.
Arguments Raise {A} e.

Definition Route (A : Type) : Type := Store → Step A * Store.

Global Instance Route_ret : MRet Route := λ A a s, (Next a, s).

Global Instance Route_bind : MBind Route := λ A B k m s,
  match m s with
  | (Next a, s') => k a s'
  | (Reply r, s') => (Reply r, s')
  | (Raise e, s') => (Raise e, s')
  end.

Definition reply {A} (c : nat) (b : Body) : Route A := λ s, (Reply (json c b), s).

Definition throw {A} (e : Error) : Route A := λ s, (Raise e, s).

(** [if (c) return res.status(code).json(b)] *)
Definition reply_if (c : bool) (code : nat) (b : Body) : Route unit :=
  if c then reply code b else mret tt.

Definition await {A} (o : Outcome A) : Route A :=
  match o with
  | Returns a => mret a
  | Throws e => throw e
  end.

(** [o.property], the first read of [o]: a [TypeError] when [o] is
    [null] or [undefined]. *)
Definition deref {A} (property : string) (o : option A) : Route A :=
  match o with
  | Some a => mret a
  | None => throw (TypeError property)
  end.

Definition get : Route Store := λ s, (Next s, s).

Definition modify (f : Store → Store) : Route unit := λ s, (Next tt, f s).

(** [try { m } catch (e) { h e }] *)
Definition try_catch {A} (m : Route A) (h : Error → Route A) : Route A :=
  λ s, match m s with
       | (Raise e, s') => h e s'
       | r => r
       end.

(** The outermost [try { ... } catch (error) { res.status(500).json({ error: error.message }) }]
    of every handler. *)
Definition handle (m : Route Response) (s : Store) : Response * Store :=
  match m s with
  | (Next r, s') => (r, s')
  | (Reply r, s') => (r, s')
  | (Raise e, s') => (json 500 (ErrorMessage e), s')
  end.

(** Writes to the collections. *)
Definition with_Tasks (f : gmap nat Task → gmap nat Task) (s : Store) : Store :=
  {| Tasks := f (Tasks s); Users := Users s; Participants := Participants s |}.

Definition with_Users (f : gmap nat User → gmap nat User) (s : Store) : Store :=
  {| Tasks := Tasks s; Users := f (Users s); Participants := Participants s |}.

Definition with_Participants (f : list Participant → list Participant)
    (s : Store) : Store :=
  {| Tasks := Tasks s; Users := Users s; Participants := f (Participants s) |}.

Definition set_Tasks (f : gmap nat Task → gmap nat Task) : Route unit :=
  modify (with_Tasks f).

Definition set_Users (f : gmap nat User → gmap nat User) : Route unit :=
  modify (with_Users f).

Definition set_Participants (f : list Participant → list Participant)
  : Route unit :=
  modify (with_Participants f).

(** Field updates ([doc.field = v]). *)
Definition Task_with_currentParticipants (n : Z) (t : Task) : Task :=
  {| creator := creator t; title := title t; description := description t;
     taskType := taskType t; targetData := targetData t;
     rewardPerParticipant := rewardPerParticipant t;
     maxParticipants := maxParticipants t; currentParticipants := n;
     totalFunding := totalFunding t; contractTaskId := contractTaskId t;
     t_status := t_status t; expiresAt := expiresAt t; tags := tags t;
     requirements := requirements t; participants := participants t;
     t_transactionHash := t_transactionHash t |}.

Definition Task_with_status (st : TaskStatus) (t : Task) : Task :=
  {| creator := creator t; title := title t; description := description t;
     taskType := taskType t; targetData := targetData t;
     rewardPerParticipant := rewardPerParticipant t;
     maxParticipants := maxParticipants t;
     currentParticipants := currentParticipants t;
     totalFunding := totalFunding t; contractTaskId := contractTaskId t;
     t_status := st; expiresAt := expiresAt t; tags := tags t;
     requirements := requirements t; participants := participants t;
     t_transactionHash := t_transactionHash t |}.

(** [task.contractTaskId = parseInt(contractResult.taskId);
     task.transactionHash = contractResult.transactionHash] *)
Definition Task_with_contract (r : ContractResult) (t : Task) : Task :=
  {| creator := creator t; title := title t; description := description t;
     taskType := taskType t; targetData := targetData t;
     rewardPerParticipant := rewardPerParticipant t;
     maxParticipants := maxParticipants t;
     currentParticipants := currentParticipants t;
     totalFunding := totalFunding t;
     contractTaskId := Some (parseInt (cr_taskId r));
     t_status := t_status t; expiresAt := expiresAt t; tags := tags t;
     requirements := requirements t; participants := participants t;
     t_transactionHash := Some (cr_transactionHash r) |}.

Definition Task_with_details (ti de : string) (ex : Z) (tg : list string)
    (rq : Requirements) (t : Task) : Task :=
  {| creator := creator t; title := ti; description := de;
     taskType := taskType t; targetData := targetData t;
     rewardPerParticipant := rewardPerParticipant t;
     maxParticipants := maxParticipants t;
     currentParticipants := currentParticipants t;
     totalFunding := totalFunding t; contractTaskId := contractTaskId t;
     t_status := t_status t; expiresAt := ex; tags := tg;
     requirements := rq; participants := participants t;
     t_transactionHash := t_transactionHash t |}.

Definition Participant_with_proof (pd : ProofData) (p : Participant) : Participant :=
  {| p_id := p_id p; p_user := p_user p; p_task := p_task p;
     p_status := p_status p; proofSubmitted := true; proofData := Some pd;
     verificationNotes := verificationNotes p; rewardAmount := rewardAmount p;
     claimSignature := claimSignature p; claimedAt := claimedAt p;
     p_transactionHash := p_transactionHash p |}.

Definition Participant_with_status (st : ParticipantStatus) (notes : string)
    (p : Participant) : Participant :=
  {| p_id := p_id p; p_user := p_user p; p_task := p_task p;
     p_status := st; proofSubmitted := proofSubmitted p;
     proofData := proofData p; verificationNotes := Some notes;
     rewardAmount := rewardAmount p; claimSignature := claimSignature p;
     claimedAt := claimedAt p; p_transactionHash := p_transactionHash p |}.

Definition Participant_with_signature (sig amount : string) (p : Participant)
  : Participant :=
  {| p_id := p_id p; p_user := p_user p; p_task := p_task p;
     p_status := p_status p; proofSubmitted := proofSubmitted p;
     proofData := proofData p; verificationNotes := verificationNotes p;
     rewardAmount := amount; claimSignature := Some sig;
     claimedAt := claimedAt p; p_transactionHash := p_transactionHash p |}.

Definition Participant_with_claimed (date : Z) (tx : option string)
    (p : Participant) : Participant :=
  {| p_id := p_id p; p_user := p_user p; p_task := p_task p;
     p_status := CLAIMED; proofSubmitted := proofSubmitted p;
     proofData := proofData p; verificationNotes := verificationNotes p;
     rewardAmount := rewardAmount p; claimSignature := claimSignature p;
     claimedAt := Some date; p_transactionHash := tx |}.

(** [{ $inc: { totalTasksCreated: 1 } }] *)
Definition User_inc_created (u : User) : User :=
  {| warpcastUsername := warpcastUsername u; fid := fid u;
     walletAddress := walletAddress u; email := email u;
     isVerified := isVerified u;
     totalTasksCreated := totalTasksCreated u + 1;
     totalTasksCompleted := totalTasksCompleted u;
     totalRewardsEarned := totalRewardsEarned u;
     reputation := reputation u |}.

(** [{ $inc: { totalTasksCompleted: 1, reputation: 10 },
       $set: { totalRewardsEarned: total } }] *)
Definition User_completed (total : string) (u : User) : User :=
  {| warpcastUsername := warpcastUsername u; fid := fid u;
     walletAddress := walletAddress u; email := email u;
     isVerified := isVerified u;
     totalTasksCreated := totalTasksCreated u;
     totalTasksCompleted := totalTasksCompleted u + 1;
     totalRewardsEarned := total;
     reputation := reputation u + 10 |}.

(** ** services/contractService.js *)

Section Services.
Variable eth : Ethers.
Variable env : Env.

(** *** class SnapchainService

    Every query method catches the rejection of its HTTP call and
    answers [null], or the empty list, instead. *)

Definition getUserByUsername (w : World) (username : string)
  : option FarcasterUser :=
  match api_user_by_username w username with
  | Returns u => u
  | Throws _ => None
  end.

Definition getUserByFid (w : World) (f : Z) : option FarcasterUser :=
  match api_user w f with
  | Returns u => u
  | Throws _ => None
  end.

Definition getCast (w : World) (hash : string) : bool :=
  match api_cast w hash with
  | Returns c => c
  | Throws _ => false
  end.

(** [return response.data.xs || []], and [[]] in the [catch]. *)
Definition or_empty {A} (o : Outcome (option (list A))) : list A :=
  match o with
  | Returns (Some l) => l
  | Returns None => []
  | Throws _ => []
  end.

Definition getCastLikes (w : World) (hash : string) : list (option Z) :=
  or_empty (api_cast_likes w hash).

Definition getCastRecasts (w : World) (hash : string) : list (option Z) :=
  or_empty (api_cast_recasts w hash).

Definition getUserFollowing (w : World) (f : Z) : list Z :=
  or_empty (api_user_following w f).

Definition getChannelMembers (w : World) (channelId : string) : list Z :=
  or_empty (api_channel_members w channelId).

Definition getChannelFollowers (w : World) (channelId : string) : list Z :=
  or_empty (api_channel_followers w channelId).

(** [l.some(e => e.user.fid === userFid)]: entries are visited in
    order up to the first hit; reading [fid] of a missing [user]
    throws. *)
Fixpoint some_user_fid (userFid : Z) (l : list (option Z)) : Outcome bool :=
  match l with
  | [] => Returns false
  | None :: _ => Throws (TypeError "fid")
  | Some f :: l' =>
      if f =? userFid then Returns true else some_user_fid userFid l'
  end.

(** [try { return body } catch (error) { return false }] *)
Definition false_on_error (o : Outcome bool) : bool :=
  match o with
  | Returns b => b
  | Throws _ => false
  end.

Definition verifyUserFollowsUser (w : World) (userFid : Z)
    (targetUsername : string) : bool :=
  false_on_error
    match getUserByUsername w targetUsername with
    | None => Returns false
    | Some targetUser =>
        let following := getUserFollowing w userFid in
        Returns (existsb (λ f, f =? fc_fid targetUser) following)
    end.

Definition verifyCastLike (w : World) (userFid : Z) (castHash : string)
  : bool :=
  false_on_error (some_user_fid userFid (getCastLikes w castHash)).

Definition verifyCastRecast (w : World) (userFid : Z) (castHash : string)
  : bool :=
  false_on_error (some_user_fid userFid (getCastRecasts w castHash)).

Definition verifyChannelMembership (w : World) (userFid : Z)
    (channelId : string) : bool :=
  false_on_error
    (let isMember := existsb (λ f, f =? userFid) (getChannelMembers w channelId) in
     let isFollower := existsb (λ f, f =? userFid) (getChannelFollowers w channelId) in
     Returns (isMember || isFollower)).

(** *** class ContractService *)

(** The method logs and rethrows whatever fails.  The caller hands it
    the funding in ETH, [parseFloat(totalFunding) / 1e18]; here the
    contract is handed the wei string that this number is made from. *)
Definition createTaskOnChain (w : World) (maxParticipants : Z)
    (totalFunding : string) : Outcome ContractResult :=
  chain_createTaskOnChain w maxParticipants totalFunding.

Definition generateClaimSignature (taskId : option Z)
    (developerAddress rewardAmount : string) : Outcome string :=
  match solidityPackedKeccak256 eth taskId developerAddress rewardAmount with
  | Returns messageHash => wallet_signMessage eth messageHash
  | Throws e => Throws e
  end.

(** [try { return await this.contract.hasDevClaimed(..) } catch (error) { throw error }] *)
Definition hasUserClaimed (w : World) (taskId : option Z)
    (userAddress : string) : Outcome bool :=
  chain_hasDevClaimed w taskId userAddress.

(** *** class SponsoredGasService *)

Definition enabled : bool :=
  bool_decide (ENABLE_SPONSORED_GAS env = Some "true").

Definition entryPointAddress : string :=
  or_default (ENTRY_POINT_ADDRESS env)
             "0x5ff137d4b0fdcd49dca30c7cf57e578a026d2789".

Definition getPaymasterAndData (w : World) (userOp : UserOperation)
  : option PaymasterData :=
  if negb enabled then None
  else
    match paymaster_post w userOp with
    | Returns data =>
        if bool_decide (is_Some (rpc_error data)) then None
        else rpc_result data
    | Throws _ => None
    end.

Definition createUserOperation (sender callData : string) : UserOperation :=
  {| sender := sender;
     nonce := "0x0";
     initCode := "0x";
     callData := callData;
     callGasLimit := Some "0x0";
     verificationGasLimit := Some "0x0";
     preVerificationGas := Some "0x0";
     maxFeePerGas := Some "0x0";
     maxPriorityFeePerGas := Some "0x0";
     paymasterAndData := Some "0x";
     uo_signature := "0x0000000000000000000000000000000000000000000000000000000000000020000000000000000000000000000000000000000000000000000000000000000000000000000000000000000000000000000000000000000000000000000000400000000000000000000000000000000000000000000000000000000000000041fffffffffffffffffffffffffffffff0000000000000000000000000000000007aaaaaaaaaaaaaaaaaaaaaaaaaaaaaaaaaaaaaaaaaaaaaaaaaaaaaaaaaaaaaaa1c00000000000000000000000000000000000000000000000000000000000000" |}.

Definition not_sponsored (message : option string) (error : option Error)
  : SponsoredData :=
  {| sponsored := false; sd_message := message; sd_error := error;
     sd_userOperation := None; sd_entryPoint := None |}.

Definition prepareSponsoredClaim (w : World) (contractAddress : option string)
    (taskId : option Z) (rewardAmount signature userAddress : string)
  : SponsoredData :=
  if negb enabled then
    not_sponsored (Some "Sponsored gas not enabled") None
  else
    match encodeFunctionData_claimReward eth taskId rewardAmount signature with
    | Throws e => not_sponsored None (Some e)
    | Returns callData =>
        let userOp := createUserOperation userAddress callData in
        match getPaymasterAndData w userOp with
        | Some paymasterData =>
            {| sponsored := true;
               sd_message := None;
               sd_error := None;
               sd_userOperation := Some
                 {| sender := sender userOp;
                    nonce := nonce userOp;
                    initCode := initCode userOp;
                    callData := callData;
                    callGasLimit := pm_callGasLimit paymasterData;
                    verificationGasLimit := pm_verificationGasLimit paymasterData;
                    preVerificationGas := pm_preVerificationGas paymasterData;
                    maxFeePerGas := pm_maxFeePerGas paymasterData;
                    maxPriorityFeePerGas := pm_maxPriorityFeePerGas paymasterData;
                    paymasterAndData := pm_paymasterAndData paymasterData;
                    uo_signature := uo_signature userOp |};
               sd_entryPoint := Some entryPointAddress |}
        | None =>
            not_sponsored (Some "Paymaster not available for this transaction") None
        end
    end.
End Services.

(** ** Request handlers

    [userId] is [req.user.userId], the id that the [auth] middleware
    read from the bearer token. *)

Section Routes.
Variable js : Engine.
Variable eth : Ethers.
Variable env : Env.

(** *** routes/auth.js *)

(** The body of a registration request.  [r_format_ok] is the verdict
    of the [isEthereumAddress], [isEmail] and [isLength] validators. *)
Record RegisterReq := {
  r_warpcastUsername : option string;
  r_walletAddress : string;
  r_email : string;
  r_bio : option string;
  r_format_ok : bool
}.

(** The validators that [user.save()] runs on the document as the
    setters left it: [required] on the three strings, [maxlength] on
    [bio].  The [minlength] of the password holds of every password
    that [isLength({ min: 6 })] let through. *)
Definition User_validate (user : User) (bio : option string) : Outcome unit :=
  if negb (String.eqb (warpcastUsername user) "")
     && negb (String.eqb (walletAddress user) "")
     && negb (String.eqb (email user) "")
     && (JsString.length (default "" bio) <=? 500)%nat
  then Returns tt
  else Throws (ValidationError "User").

(** The schema trims [warpcastUsername] and trims and lower-cases
    [email], in the filter of [User.findOne] as in the document of
    [new User]; the identity provider is asked for the name as the
    body has it. *)
Definition register (w : World) (req : RegisterReq) : Route Response :=
  reply_if (negb (truthy (r_warpcastUsername req) && r_format_ok req))
           400 ValidationErrors;;
  let warpcastUsername' := default "" (r_warpcastUsername req) in
  match getUserByUsername w warpcastUsername' with
  | None => reply 400 (ErrorBody "Warpcast username not found")
  | Some farcasterUser =>
      let username := JsString.trim warpcastUsername' in
      let mail := toLowerCase js (JsString.trim (r_email req)) in
      s ← get;
      let taken (u : User) :=
        bool_decide (email u = mail)
        || bool_decide (warpcastUsername u = username)
        || bool_decide (walletAddress u = r_walletAddress req)
        || (fid u =? fc_fid farcasterUser) in
      reply_if (existsb (λ iu, taken iu.2) (map_to_list (Users s)))
               400 (ErrorBody "User already exists");;
      let user :=
        {| warpcastUsername := username; fid := fc_fid farcasterUser;
           walletAddress := r_walletAddress req; email := mail;
           isVerified := false; totalTasksCreated := 0;
           totalTasksCompleted := 0; totalRewardsEarned := "0";
           reputation := 0 |} in
      await (User_validate user (or_else (r_bio req) (fc_bio farcasterUser)));;
      let id := fresh (dom (Users s)) in
      set_Users (<[id := user]>);;
      mret (json 201 (UserBody "User registered successfully" id user))
  end.

(** *** routes/tasks.js *)

(** The body of a task-creation request.  A field is [None] when it is
    missing or, for [c_taskType], [c_maxParticipants] and
    [c_expiresAt], when it is not one of the four types, not an
    integer literal, not a string that [isISO8601] accepts.
    [c_expiresAt] is [Some d] for an accepted string, [d] being
    [new Date(expiresAt)]: its time value, or [None] when it is an
    Invalid Date.  [c_rewardPerParticipant] is whatever reward the
    caller put in the body. *)
Record CreateReq := {
  c_title : option string;
  c_description : option string;
  c_taskType : option TaskType;
  c_targetData : option TargetData;
  c_maxParticipants : option Z;
  c_expiresAt : option (option Z);
  c_tags : option (list string);
  c_requirements : option Requirements;
  c_rewardPerParticipant : option string
}.

(** The express-validator chain; the values it let through. *)
Definition create_validated (req : CreateReq)
  : option (string * string * TaskType * Z * option Z) :=
  if truthy (c_title req) && truthy (c_description req) then
    match c_taskType req, c_maxParticipants req, c_expiresAt req with
    | Some ty, Some n, Some ex =>
        if (1 <=? n) && (n <=? 1000) then
          Some (default "" (c_title req), default "" (c_description req), ty, n, ex)
        else None
    | _, _, _ => None
    end
  else None.

(** The [switch (taskType)] that sets [validationError]. *)
Definition target_validation (w : World) (ty : TaskType) (td : TargetData)
  : option string :=
  match ty with
  | FOLLOW_USER =>
      if negb (truthy (userToFollow td)) then Some "User to follow is required"
      else if negb (bool_decide (is_Some (getUserByUsername w (default "" (userToFollow td)))))
           then Some "Target user not found on Farcaster"
           else None
  | LIKE_CAST =>
      if negb (truthy (castHashToLike td)) then Some "Cast hash to like is required"
      else if negb (getCast w (default "" (castHashToLike td)))
           then Some "Cast not found"
           else None
  | RECAST_CAST =>
      if negb (truthy (castHashToRecast td)) then Some "Cast hash to recast is required"
      else if negb (getCast w (default "" (castHashToRecast td)))
           then Some "Cast not found"
           else None
  | JOIN_CHANNEL =>
      if negb (truthy (channelToJoin td)) then Some "Channel to join is required"
      else None
  end.

(** [(BigInt(a) * BigInt(n)).toString()] *)
Definition BigInt_mul_toString (a : string) (n : Z) : Outcome string :=
  match BigInt.parse a with
  | Some x => Returns (BigInt.toString (x * n))
  | None => Throws SyntaxError
  end.

(** The property of [targetData] that the [case] of a task type reads
    first. *)
Definition target_property (ty : TaskType) : string :=
  match ty with
  | FOLLOW_USER => "userToFollow"
  | LIKE_CAST => "castHashToLike"
  | RECAST_CAST => "castHashToRecast"
  | JOIN_CHANNEL => "channelToJoin"
  end.

(** What [task.save()] checks of the fields that a request sets, on
    the document as the setters left it: [required] and [maxlength]
    on [title] and on [description], and the cast of [expiresAt],
    which fails on an Invalid Date.  The date is handed on. *)
Definition Task_validate (title description : string) (expiresAt : option Z)
  : Outcome Z :=
  match expiresAt with
  | Some date =>
      if negb (String.eqb title "") && (JsString.length title <=? 100)%nat
         && negb (String.eqb description "")
         && (JsString.length description <=? 500)%nat
      then Returns date
      else Throws (ValidationError "Task")
  | None => Throws (ValidationError "Task")
  end.

Definition create_task (w : World) (userId : ObjectId) (req : CreateReq)
  : Route Response :=
  match create_validated req with
  | None => reply 400 ValidationErrors
  | Some (title, description, taskType, maxParticipants, expiresAt) =>
      targetData ← deref (target_property taskType) (c_targetData req);
      match target_validation w taskType targetData with
      | Some validationError => reply 400 (ErrorBody validationError)
      | None =>
          let rewardPerParticipant := "1000000000000000" in
          totalFunding ← await (BigInt_mul_toString rewardPerParticipant maxParticipants);
          let title := JsString.trim title in
          expiresAt ← await (Task_validate title description expiresAt);
          let task :=
            {| creator := userId; title := title; description := description;
               taskType := taskType; targetData := targetData;
               rewardPerParticipant := rewardPerParticipant;
               maxParticipants := maxParticipants;
               currentParticipants := 0;
               totalFunding := totalFunding;
               contractTaskId := None;
               t_status := DRAFT;
               expiresAt := expiresAt;
               tags := JsString.trim <$> default [] (c_tags req);
               requirements :=
                 default {| minimumFollowers := 0; mustBeVerified := false |}
                         (c_requirements req);
               participants := [];
               t_transactionHash := None |} in
          s ← get;
          let id := fresh (dom (Tasks s)) in
          set_Tasks (<[id := task]>);;
          try_catch
            (contractResult ← await (createTaskOnChain w maxParticipants totalFunding);
             let task := Task_with_status ACTIVE (Task_with_contract contractResult task) in
             set_Tasks (<[id := task]>);;
             set_Users (alter User_inc_created userId);;
             s' ← get;
             mret (json 201 (CreatedBody "Task created successfully on Base Sepolia"
                                         (Tasks s' !! id) contractResult)))
            (λ contractError,
               set_Tasks (delete id);;
               mret (json 500 (ErrorBody "Failed to create task on blockchain")))
      end
  end.

(** The body of an update request.  A field is [None] when it is
    missing or falsy; [u_expiresAt] is [Some d] otherwise, [d] being
    [new Date(expiresAt)] as in [CreateReq]. *)
Record UpdateReq := {
  u_title : option string;
  u_description : option string;
  u_expiresAt : option (option Z);
  u_tags : option (list string);
  u_requirements : option Requirements
}.

Definition update_task (userId id : ObjectId) (req : UpdateReq)
  : Route Response :=
  s ← get;
  match Tasks s !! id with
  | None => reply 404 (ErrorBody "Task not found")
  | Some task =>
      reply_if (negb (bool_decide (creator task = userId)))
               403 (ErrorBody "Not authorized");;
      reply_if (negb (bool_decide (t_status task = DRAFT)))
               400 (ErrorBody "Cannot update active task");;
      let title :=
        if truthy (u_title req) then JsString.trim (default "" (u_title req))
        else title task in
      let description :=
        if truthy (u_description req) then default "" (u_description req)
        else description task in
      expiresAt ← await (Task_validate title description
                           (default (Some (expiresAt task)) (u_expiresAt req)));
      let task :=
        Task_with_details title description expiresAt
          match u_tags req with
          | Some tags => JsString.trim <$> tags
          | None => tags task
          end
          (default (requirements task) (u_requirements req))
          task in
      set_Tasks (<[id := task]>);;
      mret (json 200 (TaskBody task))
  end.

(** [router.delete('/:id')]: cancel a task. *)
Definition cancel_task (userId id : ObjectId) : Route Response :=
  s ← get;
  match Tasks s !! id with
  | None => reply 404 (ErrorBody "Task not found")
  | Some task =>
      reply_if (negb (bool_decide (creator task = userId)))
               403 (ErrorBody "Not authorized");;
      reply_if (existsb (λ p, bool_decide (tp_status p = CLAIMED)) (participants task))
               400 (ErrorBody "Cannot cancel task with claimed rewards");;
      set_Tasks (<[id := Task_with_status CANCELLED task]>);;
      mret (json 200 (MessageBody "Task cancelled successfully"))
  end.

(** *** routes/participants.js *)

Definition new_participant (id userId taskId : ObjectId) : Participant :=
  {| p_id := id; p_user := userId; p_task := taskId; p_status := PENDING;
     proofSubmitted := false; proofData := None; verificationNotes := None;
     rewardAmount := "0"; claimSignature := None; claimedAt := None;
     p_transactionHash := None |}.

Definition join (w : World) (userId taskId : ObjectId) : Route Response :=
  s ← get;
  match Tasks s !! taskId with
  | None => reply 404 (ErrorBody "Task not found")
  | Some task =>
      reply_if (negb (bool_decide (t_status task = ACTIVE)))
               400 (ErrorBody "Task is not active");;
      reply_if (maxParticipants task <=? currentParticipants task)
               400 (ErrorBody "Task is full");;
      reply_if (expiresAt task <? now w)
               400 (ErrorBody "Task has expired");;
      let existingParticipant := Participant_findOne userId taskId (Participants s) in
      reply_if (bool_decide (is_Some existingParticipant))
               400 (ErrorBody "Already joined this task");;
      let user := Users s !! userId in
      (if mustBeVerified (requirements task) then
         user ← deref "isVerified" user;
         reply_if (negb (isVerified user))
                  400 (ErrorBody "Must be verified to join this task")
       else mret tt);;
      (if 0 <? minimumFollowers (requirements task) then
         user ← deref "fid" user;
         let too_few :=
           ErrorBody ("Must have at least "
                      +:+ BigInt.toString (minimumFollowers (requirements task))
                      +:+ " followers") in
         match getUserByFid w (fid user) with
         | None => reply 400 too_few
         | Some farcasterUser =>
             reply_if (follower_count farcasterUser
                       <? minimumFollowers (requirements task))
                      400 too_few
         end
       else mret tt);;
      let participant :=
        new_participant (fresh (p_id <$> Participants s)) userId taskId in
      set_Participants (λ l, l ++ [participant]);;
      set_Tasks (<[taskId := Task_with_currentParticipants
                               (currentParticipants task + 1) task]>);;
      s' ← get;
      mret (json 201 (ParticipantBody "Successfully joined task"
              (Participant_findById (p_id participant) (Participants s'))))
  end.

(** [autoVerifyTask(participant)]: [task] is the populated
    [participant.task], [null] when the task document is gone, and
    [user] is what [User.findById(participant.user)] finds. *)
Definition autoVerifyTask_try (w : World) (task : option Task)
    (user : option User) : Outcome bool :=
  match task with
  | None => Throws (TypeError "taskType")
  | Some task =>
      let with_fid (k : Z → bool) : Outcome bool :=
        match user with
        | Some user => Returns (k (fid user))
        | None => Throws (TypeError "fid")
        end in
      let td := targetData task in
      match taskType task with
      | FOLLOW_USER =>
          if truthy (userToFollow td) then
            with_fid (λ f, verifyUserFollowsUser w f (default "" (userToFollow td)))
          else Returns false
      | LIKE_CAST =>
          if truthy (castHashToLike td) then
            with_fid (λ f, verifyCastLike w f (default "" (castHashToLike td)))
          else Returns false
      | RECAST_CAST =>
          if truthy (castHashToRecast td) then
            with_fid (λ f, verifyCastRecast w f (default "" (castHashToRecast td)))
          else Returns false
      | JOIN_CHANNEL =>
          if truthy (channelToJoin td) then
            with_fid (λ f, verifyChannelMembership w f (default "" (channelToJoin td)))
          else Returns false
      end
  end.

Definition autoVerifyTask (w : World) (s : Store) (participant : Participant)
  : bool :=
  false_on_error
    (autoVerifyTask_try w (Tasks s !! p_task participant)
                          (Users s !! p_user participant)).

Definition submit_proof (w : World) (userId taskId : ObjectId)
    (proofData : option ProofData) : Route Response :=
  match proofData with
  | None => reply 400 ValidationErrors
  | Some proofData =>
      s ← get;
      match Participant_findOne userId taskId (Participants s) with
      | None => reply 404 (ErrorBody "Participant not found")
      | Some participant =>
          reply_if (negb (bool_decide (p_status participant = PENDING)))
                   400 (ErrorBody "Cannot submit proof for this participant status");;
          let participant := Participant_with_proof proofData participant in
          set_Participants (Participant_save participant);;
          s' ← get;
          if autoVerifyTask w s' participant then
            let participant :=
              Participant_with_status VERIFIED "Auto-verified via Snapchain API"
                                      participant in
            set_Participants (Participant_save participant);;
            mret (json 200 (ProofBody "Proof submitted successfully" participant true))
          else
            mret (json 200 (ProofBody "Proof submitted successfully" participant false))
      end
  end.

(** [response.sponsoredGas]; the emoji that opens the first message is
    left out. *)
Definition sponsoredGas_of (sponsoredData : SponsoredData) : SponsoredGas :=
  if sponsored sponsoredData then
    GasEnabled (sd_userOperation sponsoredData) (sd_entryPoint sponsoredData)
               "Gas fees sponsored! No ETH needed for this transaction."
  else
    GasDisabled (or_default (sd_message sponsoredData) "Regular gas payment required")
                "You will need ETH for gas fees".

(** [router.post('/claim/:taskId')]: request the claim signature. *)
Definition claim (w : World) (userId taskId : ObjectId) : Route Response :=
  s ← get;
  match Participant_findOne userId taskId (Participants s) with
  | None => reply 404 (ErrorBody "Participant not found")
  | Some participant =>
      reply_if (negb (bool_decide (p_status participant = VERIFIED)))
               400 (ErrorBody "Task not verified yet");;
      reply_if (bool_decide (is_Some (claimedAt participant)))
               400 (ErrorBody "Reward already claimed");;
      let task := Tasks s !! p_task participant in
      let user := Users s !! p_user participant in
      task ← deref "contractTaskId" task;
      user ← deref "walletAddress" user;
      hasClaimed ← await (hasUserClaimed w (contractTaskId task) (walletAddress user));
      reply_if hasClaimed 400 (ErrorBody "Reward already claimed on blockchain");;
      signature ← await (generateClaimSignature eth (contractTaskId task)
                           (walletAddress user) (rewardPerParticipant task));
      let sponsoredData :=
        prepareSponsoredClaim eth env w (CONTRACT_ADDRESS env)
          (contractTaskId task) (rewardPerParticipant task) signature
          (walletAddress user) in
      let participant :=
        Participant_with_signature signature (rewardPerParticipant task)
                                   participant in
      set_Participants (Participant_save participant);;
      mret (json 200 (ClaimBody "Claim signature generated" signature
                        (contractTaskId task) (rewardPerParticipant task)
                        (CONTRACT_ADDRESS env) (sponsoredGas_of sponsoredData)))
  end.

(** [router.post('/confirm-claim/:taskId')].  The handler declares a
    [notEmpty] validator for [transactionHash] but never reads
    [validationResult], so a missing hash goes through. *)
Definition confirm_claim (w : World) (userId taskId : ObjectId)
    (transactionHash : option string) : Route Response :=
  s ← get;
  match Participant_findOne userId taskId (Participants s) with
  | None => reply 404 (ErrorBody "Participant not found")
  | Some participant =>
      let user := Users s !! userId in
      let participant := Participant_with_claimed (now w) transactionHash participant in
      set_Participants (Participant_save participant);;
      user ← deref "totalRewardsEarned" user;
      match BigInt.parse (or_default (Some (totalRewardsEarned user)) "0"),
            BigInt.parse (rewardAmount participant) with
      | Some earned, Some amount =>
          set_Users (alter (User_completed (BigInt.toString (earned + amount))) userId);;
          mret (json 200 (ParticipantBody "Claim confirmed successfully" (Some participant)))
      | _, _ => throw SyntaxError
      end
  end.

(** [router.post('/verify/:participantId')]: the creator's decision.
    [approved] is the truthiness of the body field: here too the
    declared validators are never consulted. *)
Definition verify (userId participantId : ObjectId) (approved : bool)
    (notes : option string) : Route Response :=
  s ← get;
  match Participant_findById participantId (Participants s) with
  | None => reply 404 (ErrorBody "Participant not found")
  | Some participant =>
      task ← deref "creator" (Tasks s !! p_task participant);
      reply_if (negb (bool_decide (creator task = userId)))
               403 (ErrorBody "Not authorized");;
      reply_if (negb (bool_decide (p_status participant = PENDING)))
               400 (ErrorBody "Participant not in pending status");;
      let participant :=
        Participant_with_status (if approved then VERIFIED else REJECTED)
                                (or_default notes "") participant in
      set_Participants (Participant_save participant);;
      mret (json 200 (ParticipantBody
              (if approved then "Participant approved successfully"
               else "Participant rejected successfully")
              (Some participant)))
  end.

(** [router.post('/re-verify/:participantId')] *)
Definition re_verify (w : World) (userId participantId : ObjectId)
  : Route Response :=
  s ← get;
  match Participant_findById participantId (Participants s) with
  | None => reply 404 (ErrorBody "Participant not found")
  | Some participant =>
      task ← deref "creator" (Tasks s !! p_task participant);
      reply_if (negb (bool_decide (creator task = userId)))
               403 (ErrorBody "Not authorized");;
      if autoVerifyTask w s participant then
        let participant :=
          Participant_with_status VERIFIED "Re-verified via Snapchain API"
                                  participant in
        set_Participants (Participant_save participant);;
        mret (json 200 (ReVerifyBody "Re-verification completed" true participant))
      else
        mret (json 200 (ReVerifyBody "Re-verification completed" false participant))
  end.

(** ** The backend as a transition system *)

Inductive Op :=
| OpRegister (req : RegisterReq)
| OpCreate (userId : ObjectId) (req : CreateReq)
| OpUpdate (userId id : ObjectId) (req : UpdateReq)
| OpCancel (userId id : ObjectId)
| OpJoin (userId taskId : ObjectId)
| OpSubmitProof (userId taskId : ObjectId) (proofData : option ProofData)
| OpClaim (userId taskId : ObjectId)
| OpConfirmClaim (userId taskId : ObjectId) (transactionHash : option string)
| OpVerify (userId participantId : ObjectId) (approved : bool) (notes : option string)
| OpReVerify (userId participantId : ObjectId).

Definition route (w : World) (op : Op) : Route Response :=
  match op with
  | OpRegister req => register w req
  | OpCreate userId req => create_task w userId req
  | OpUpdate userId id req => update_task userId id req
  | OpCancel userId id => cancel_task userId id
  | OpJoin userId taskId => join w userId taskId
  | OpSubmitProof userId taskId proofData => submit_proof w userId taskId proofData
  | OpClaim userId taskId => claim w userId taskId
  | OpConfirmClaim userId taskId tx => confirm_claim w userId taskId tx
  | OpVerify userId pid approved notes => verify userId pid approved notes
  | OpReVerify userId pid => re_verify w userId pid
  end.

(** One request, served to the end with no other request in between. *)
Definition exec (w : World) (op : Op) (s : Store) : Response * Store :=
  handle (route w op) s.

(** Requests served one after the other, each in its own world: the
    schedule of a server on which no two requests overlap.  On the
    running server the handlers are [async] and give way to one
    another at every [await]; what is proved of [run] and of
    [reachable] is proved of this schedule. *)
Fixpoint run (l : list (World * Op)) (s : Store) : Store :=
  match l with
  | [] => s
  | (w, op) :: l' => run l' (exec w op s).2
  end.

(** The stores between two requests of such a schedule. *)
Definition reachable (s : Store) : Prop :=
  ∃ l, s = run l empty_store.
End Routes.

(** ** Writes and invariants of the store *)

Section Writes.
Variable eth : Ethers.

(** What no request changes in a task once it is stored. *)
Definition task_frozen (t t' : Task) : Prop :=
  contractTaskId t' = contractTaskId t
  ∧ rewardPerParticipant t' = rewardPerParticipant t
  ∧ maxParticipants t' = maxParticipants t
  ∧ currentParticipants t' = currentParticipants t
  ∧ participants t' = participants t.

(** [sig] is the claim signature of the triple that [p] stands for in [s]. *)
Definition signed_for (s : Store) (p : Participant) (sig : string) : Prop :=
  ∃ task user,
    Tasks s !! p_task p = Some task
    ∧ Users s !! p_user p = Some user
    ∧ generateClaimSignature eth (contractTaskId task) (walletAddress user)
        (rewardPerParticipant task) = Returns sig.

(** The single writes that the handlers are made of. *)
Inductive write (s : Store) : Store → Prop :=
| write_user_new id u :
    Users s !! id = None →
    write s (with_Users (<[id := u]>) s)
| write_user_stats id f :
    (∀ u, walletAddress (f u) = walletAddress u) →
    write s (with_Users (alter f id) s)
| write_task_new id t :
    Tasks s !! id = None →
    currentParticipants t = 0 →
    1 ≤ maxParticipants t →
    participants t = [] →
    write s (with_Tasks (<[id := t]>) s)
| write_task_details id t t' :
    Tasks s !! id = Some t →
    task_frozen t t' →
    write s (with_Tasks (<[id := t']>) s)
| write_task_joined id t :
    Tasks s !! id = Some t →
    currentParticipants t < maxParticipants t →
    write s (with_Tasks
               (<[id := Task_with_currentParticipants (currentParticipants t + 1) t]>) s)
| write_participant_new p :
    claimSignature p = None →
    write s (with_Participants (λ l, l ++ [p]) s)
| write_participant p p' :
    p ∈ Participants s →
    p_user p' = p_user p →
    p_task p' = p_task p →
    (claimSignature p' = claimSignature p
     ∨ ∃ sig, signed_for s p sig ∧ claimSignature p' = Some sig) →
    write s (with_Participants (Participant_save p') s).

(** [currentParticipants ≤ maxParticipants] for every task. *)
Definition capacity_ok (s : Store) : Prop :=
  ∀ id t, Tasks s !! id = Some t → currentParticipants t ≤ maxParticipants t.

(** The array embedded in every task document is empty. *)
Definition embedded_empty (s : Store) : Prop :=
  ∀ id t, Tasks s !! id = Some t → participants t = [].

(** Every stored claim signature is the signature of the triple of
    its participant. *)
Definition signatures_ok (s : Store) : Prop :=
  ∀ p sig, p ∈ Participants s → claimSignature p = Some sig → signed_for s p sig.

(** The three invariants together. *)
Definition store_ok (s : Store) : Prop :=
  capacity_ok s ∧ embedded_empty s ∧ signatures_ok s.
End Writes.

(** ** A concrete deployment, for evaluating the handlers *)

Definition demo_eth : Ethers :=
  {| solidityPackedKeccak256 := λ taskId developerAddress rewardAmount,
       match taskId with
       | Some t => Returns (BigInt.toString t +:+ "/" +:+ developerAddress
                            +:+ "/" +:+ rewardAmount)
       | None => Throws "invalid BigNumberish value"
       end;
     wallet_signMessage := λ digest, Returns ("signed:" +:+ digest);
     encodeFunctionData_claimReward := λ taskId rewardAmount signature,
       match taskId with
       | Some t => Returns ("claimReward:" +:+ BigInt.toString t)
       | None => Throws "invalid BigNumberish value"
       end |}.

(** Lower case for the letters of ASCII, which is all that the
    addresses of this deployment are written in. *)
Definition demo_js : Engine :=
  {| toLowerCase := λ s,
       JsString.of_bytes
         ((λ b, if (65 <=? b)%nat && (b <=? 90)%nat then (b + 32)%nat else b)
            <$> JsString.bytes s) |}.

(** Sponsored gas switched off, and switched on. *)
Definition demo_env : Env :=
  {| CONTRACT_ADDRESS := Some "0xc0";
     ENABLE_SPONSORED_GAS := None;
     PAYMASTER_URL := None;
     ENTRY_POINT_ADDRESS := None |}.

Definition demo_env_sponsored : Env :=
  {| CONTRACT_ADDRESS := Some "0xc0";
     ENABLE_SPONSORED_GAS := Some "true";
     PAYMASTER_URL := Some "https://paymaster.example";
     ENTRY_POINT_ADDRESS := None |}.

(** Three Farcaster accounts: bob (fid 2) follows alice (fid 1), has
    liked and recast every cast and follows every channel.  The
    identity provider answers; the ledger, the escrow call, the
    channel-members endpoint and the paymaster answer as given. *)
Definition demo_accounts (username : string) : option FarcasterUser :=
  if String.eqb username "alice" then
    Some {| fc_fid := 1; follower_count := 10; fc_bio := Some "Bounty hunter" |}
  else if String.eqb username "bob" then
    Some {| fc_fid := 2; follower_count := 3; fc_bio := None |}
  else if String.eqb username "carol" then
    Some {| fc_fid := 3; follower_count := 0; fc_bio := None |}
  else None.

Definition demo_world_with (hasClaimed : Outcome bool)
    (escrow : Outcome ContractResult) (members : Outcome (option (list Z)))
    (paymaster : Outcome RpcReply) : World :=
  {| now := 100;
     api_user_by_username := λ username, Returns (demo_accounts username);
     api_user := λ f,
       Returns (if f =? 1 then demo_accounts "alice"
                else if f =? 2 then demo_accounts "bob"
                else if f =? 3 then demo_accounts "carol"
                else None);
     api_cast := λ _, Returns true;
     api_cast_likes := λ _, Returns (Some [Some 2]);
     api_cast_recasts := λ _, Returns (Some [Some 2]);
     api_user_following := λ f, Returns (Some (if f =? 2 then [1] else []));
     api_channel_members := λ _, members;
     api_channel_followers := λ _, Returns (Some [2]);
     chain_hasDevClaimed := λ _ _, hasClaimed;
     chain_createTaskOnChain := λ _ _, escrow;
     paymaster_post := λ _, paymaster |}.

Definition demo_receipt : ContractResult :=
  {| cr_taskId := 7; cr_transactionHash := "0xe5c" |}.

(** Nobody has been paid, escrow succeeds, the paymaster is unreachable. *)
Definition demo_world : World :=
  demo_world_with (Returns false) (Returns demo_receipt) (Returns (Some []))
                  (Throws "connect ECONNREFUSED").

(** The ledger already records a claim. *)
Definition demo_world_claimed_on_chain : World :=
  demo_world_with (Returns true) (Returns demo_receipt) (Returns (Some []))
                  (Throws "connect ECONNREFUSED").

(** The escrow transaction fails. *)
Definition demo_world_escrow_fails : World :=
  demo_world_with (Returns false) (Throws "Insufficient balance")
                  (Returns (Some [])) (Throws "connect ECONNREFUSED").

(** The channel-members endpoint is down, the channel-followers
    endpoint answers. *)
Definition demo_world_members_down : World :=
  demo_world_with (Returns false) (Returns demo_receipt) (Throws "timeout")
                  (Throws "connect ECONNREFUSED").

(** The paymaster answers [{ "jsonrpc": "2.0", "id": 1, "result": {} }]. *)
Definition demo_empty_result : RpcReply :=
  {| rpc_error := None;
     rpc_result := Some {| pm_callGasLimit := None;
                           pm_verificationGasLimit := None;
                           pm_preVerificationGas := None;
                           pm_maxFeePerGas := None;
                           pm_maxPriorityFeePerGas := None;
                           pm_paymasterAndData := None |} |}.

Definition demo_world_paymaster_empty_result : World :=
  demo_world_with (Returns false) (Returns demo_receipt) (Returns (Some []))
                  (Returns demo_empty_result).

(** The identity provider is down: every query is rejected. *)
Definition demo_world_provider_down : World :=
  {| now := 100;
     api_user_by_username := λ _, Throws "timeout";
     api_user := λ _, Throws "timeout";
     api_cast := λ _, Throws "timeout";
     api_cast_likes := λ _, Throws "timeout";
     api_cast_recasts := λ _, Throws "timeout";
     api_user_following := λ _, Throws "timeout";
     api_channel_members := λ _, Throws "timeout";
     api_channel_followers := λ _, Throws "timeout";
     chain_hasDevClaimed := λ _ _, Returns false;
     chain_createTaskOnChain := λ _ _, Returns demo_receipt;
     paymaster_post := λ _, Throws "connect ECONNREFUSED" |}.

Definition demo_register (username wallet mail : string) : Op :=
  OpRegister {| r_warpcastUsername := Some username; r_walletAddress := wallet;
                r_email := mail; r_bio := None; r_format_ok := true |}.

Definition demo_target (ty : TaskType) : TargetData :=
  match ty with
  | FOLLOW_USER =>
      {| userToFollow := Some "alice"; castHashToLike := None;
         castHashToRecast := None; channelToJoin := None |}
  | LIKE_CAST =>
      {| userToFollow := None; castHashToLike := Some "0xca57";
         castHashToRecast := None; channelToJoin := None |}
  | RECAST_CAST =>
      {| userToFollow := None; castHashToLike := None;
         castHashToRecast := Some "0xca57"; channelToJoin := None |}
  | JOIN_CHANNEL =>
      {| userToFollow := None; castHashToLike := None;
         castHashToRecast := None; channelToJoin := Some "rocq" |}
  end.

(** A creation request for [n] participants that also carries a
    [rewardPerParticipant] of the caller's choosing. *)
Definition demo_create (ty : TaskType) (n : Z) (reward : option string) : CreateReq :=
  {| c_title := Some "Bounty";
     c_description := Some "Do the thing";
     c_taskType := Some ty;
     c_targetData := Some (demo_target ty);
     c_maxParticipants := Some n;
     c_expiresAt := Some (Some 1000);
     c_tags := None;
     c_requirements := None;
     c_rewardPerParticipant := reward |}.

Definition demo_proof : ProofData :=
  {| screenshotUrl := None; pd_transactionHash := None;
     warpcastUrl := Some "https://warpcast.com/bob"; additionalNotes := None |}.

(** alice (user 0) and bob (user 1) register. *)
Definition demo_requests_registered : list (World * Op) :=
  [ (demo_world, demo_register "alice" "0xa11ce" "alice@example.org");
    (demo_world, demo_register "bob" "0xb0b" "bob@example.org") ].

Definition demo_registered : Store :=
  run demo_js demo_eth demo_env demo_requests_registered empty_store.

(** alice funds a one-slot task of the given type (task 0) and bob
    joins it (participant 0). *)
Definition demo_requests_joined (ty : TaskType) : list (World * Op) :=
  [ (demo_world, OpCreate 0%nat (demo_create ty 1 None));
    (demo_world, OpJoin 1%nat 0%nat) ].

Definition demo_joined_as (ty : TaskType) : Store :=
  run demo_js demo_eth demo_env (demo_requests_joined ty) demo_registered.

Definition demo_joined : Store := demo_joined_as FOLLOW_USER.

(** alice funds the task and nobody has joined yet. *)
Definition demo_funded : Store :=
  run demo_js demo_eth demo_env
    [ (demo_world, OpCreate 0%nat (demo_create FOLLOW_USER 1 None)) ]
    demo_registered.

(** bob submits his proof and is verified automatically; he requests
    the claim signature; he confirms the claim. *)
Definition demo_verified : Store :=
  run demo_js demo_eth demo_env
    [ (demo_world, OpSubmitProof 1%nat 0%nat (Some demo_proof)) ] demo_joined.

Definition demo_signed : Store :=
  run demo_js demo_eth demo_env [ (demo_world, OpClaim 1%nat 0%nat) ] demo_verified.

Definition demo_claimed : Store :=
  run demo_js demo_eth demo_env
    [ (demo_world, OpConfirmClaim 1%nat 0%nat (Some "0xabc")) ] demo_signed.

(** All the requests that lead to [demo_signed]. *)
Definition demo_requests_signed : list (World * Op) :=
  demo_requests_registered ++ demo_requests_joined FOLLOW_USER
  ++ [ (demo_world, OpSubmitProof 1%nat 0%nat (Some demo_proof));
       (demo_world, OpClaim 1%nat 0%nat) ].

(** The documents of these stores. *)
Definition demo_task (ty : TaskType) (joined : Z) : Task :=
  {| creator := 0%nat; title := "Bounty"; description := "Do the thing";
     taskType := ty; targetData := demo_target ty;
     rewardPerParticipant := "1000000000000000";
     maxParticipants := 1; currentParticipants := joined;
     totalFunding := "1000000000000000";
     contractTaskId := Some 7; t_status := ACTIVE; expiresAt := 1000;
     tags := [];
     requirements := {| minimumFollowers := 0; mustBeVerified := false |};
     participants := []; t_transactionHash := Some "0xe5c" |}.

Definition demo_bob : User :=
  {| warpcastUsername := "bob"; fid := 2; walletAddress := "0xb0b";
     email := "bob@example.org"; isVerified := false;
     totalTasksCreated := 0; totalTasksCompleted := 0;
     totalRewardsEarned := "0"; reputation := 0 |}.

Definition demo_pending : Participant := new_participant 0%nat 1%nat 0%nat.

Definition demo_auto_verified : Participant :=
  Participant_with_status VERIFIED "Auto-verified via Snapchain API"
    (Participant_with_proof demo_proof demo_pending).

(** ** Observing a participant over a run *)

Section Observation.
Variable js : Engine.
Variable eth : Ethers.
Variable env : Env.

(** The status of the participant of [(userId, taskId)] after each
    request of the run, from its creation on. *)
Fixpoint observe_status (userId taskId : ObjectId) (l : list (World * Op))
    (s : Store) : list ParticipantStatus :=
  match l with
  | [] => []
  | (w, op) :: l' =>
      let s' := (exec js eth env w op s).2 in
      match Participant_findOne userId taskId (Participants s') with
      | Some p => p_status p :: observe_status userId taskId l' s'
      | None => observe_status userId taskId l' s'
      end
  end.
End Observation.

(** One move along PENDING → {VERIFIED | REJECTED}, VERIFIED → CLAIMED,
    or no move. *)
Definition lifecycle_step (a b : ParticipantStatus) : bool :=
  match a, b with
  | PENDING, VERIFIED | PENDING, REJECTED | VERIFIED, CLAIMED => true
  | _, _ => bool_decide (a = b)
  end.

Fixpoint lifecycle_path (l : list ParticipantStatus) : bool :=
  match l with
  | a :: l' =>
      match l' with
      | b :: _ => lifecycle_step a b && lifecycle_path l'
      | [] => true
      end
  | [] => true
  end.

(** The observed statuses start at PENDING and only move along the
    lifecycle. *)
Definition lifecycle_prefix (l : list ParticipantStatus) : bool :=
  match l with
  | [] => true
  | a :: _ => bool_decide (a = PENDING) && lifecycle_path l
  end.

(** alice rejects bob's participation by hand, then has it re-verified;
    bob claims and confirms; alice has it re-verified once more. *)
Definition demo_requests_regress : list (World * Op) :=
  [ (demo_world, OpVerify 0%nat 0%nat false None);
    (demo_world, OpReVerify 0%nat 0%nat);
    (demo_world, OpClaim 1%nat 0%nat);
    (demo_world, OpConfirmClaim 1%nat 0%nat (Some "0xabc"));
    (demo_world, OpReVerify 0%nat 0%nat) ].

(** bob confirms a claim right after joining. *)
Definition demo_requests_skip : list (World * Op) :=
  [ (demo_world, OpConfirmClaim 1%nat 0%nat (Some "0xabc")) ].

(** ** Joining requirements *)

(** The requirements of [task] that [user] does not meet. *)
Definition requirement_unmet (w : World) (task : Task) (user : User) : Prop :=
  (mustBeVerified (requirements task) = true ∧ isVerified user = false)
  ∨ (0 < minimumFollowers (requirements task)
     ∧ ∀ farcasterUser, getUserByFid w (fid user) = Some farcasterUser →
         follower_count farcasterUser < minimumFollowers (requirements task)).

(** ** Provider failures *)

(** A query of the identity provider that is rejected or finds nothing. *)
Definition fails {A} (o : Outcome (option A)) : bool :=
  match o with
  | Returns (Some _) => false
  | Returns None => true
  | Throws _ => true
  end.

(** Some query made while verifying [task] for [user] fails. *)
Definition provider_failure (w : World) (task : Task) (user : User) : bool :=
  let td := targetData task in
  match taskType task with
  | FOLLOW_USER =>
      fails (api_user_by_username w (default "" (userToFollow td)))
      || fails (api_user_following w (fid user))
  | LIKE_CAST => fails (api_cast_likes w (default "" (castHashToLike td)))
  | RECAST_CAST => fails (api_cast_recasts w (default "" (castHashToRecast td)))
  | JOIN_CHANNEL =>
      fails (api_channel_members w (default "" (channelToJoin td)))
      || fails (api_channel_followers w (default "" (channelToJoin td)))
  end.

(** The failure leaves nothing to verify from: for a channel task, the
    other of the two lists does not name the user either. *)
Definition verification_unavailable (w : World) (task : Task) (user : User)
  : bool :=
  let td := targetData task in
  match taskType task with
  | JOIN_CHANNEL =>
      let channel := default "" (channelToJoin td) in
      (fails (api_channel_members w channel)
       && negb (existsb (λ f, f =? fid user) (getChannelFollowers w channel)))
      || (fails (api_channel_followers w channel)
          && negb (existsb (λ f, f =? fid user) (getChannelMembers w channel)))
  | _ => provider_failure w task user
  end.

(** A paymaster result that carries every field the user operation is
    completed with. *)
Definition well_formed (pd : PaymasterData) : bool :=
  bool_decide (is_Some (pm_callGasLimit pd))
  && bool_decide (is_Some (pm_verificationGasLimit pd))
  && bool_decide (is_Some (pm_preVerificationGas pd))
  && bool_decide (is_Some (pm_maxFeePerGas pd))
  && bool_decide (is_Some (pm_maxPriorityFeePerGas pd))
  && bool_decide (is_Some (pm_paymasterAndData pd)).

(** The paymaster answered, without an error, something that is not a
    well-formed result. *)
Definition malformed_response (o : Outcome RpcReply) : bool :=
  match o with
  | Returns data =>
      bool_decide (rpc_error data = None)
      && match rpc_result data with
         | Some pd => negb (well_formed pd)
         | None => true
         end
  | Throws _ => false
  end.

(** The paymaster is unreachable, answers an error, or answers without
    a result. *)
Definition paymaster_unavailable (o : Outcome RpcReply) : bool :=
  match o with
  | Returns data =>
      bool_decide (is_Some (rpc_error data)) || bool_decide (rpc_result data = None)
  | Throws _ => true
  end.

(** ** The target-validation endpoint of routes/tasks.js *)

(** [result.data] of [router.post('/validate-target')]; of a cast only
    its being found is kept. *)
Inductive TargetInfo :=
| UserInfo (f followerCount : Z)
| CastInfo
| ChannelInfo (channelId : string).

(** [router.post('/validate-target')].  The handler declares its
    validators but never reads [validationResult]: an unknown
    [taskType] falls through the [switch], a missing [targetData] is a
    [TypeError] whenever a [case] reads it.  [Returns (valid, data)] is
    the [200] answer, [Throws] the [500] one. *)
Definition validate_target (w : World) (taskType : option TaskType)
    (targetData : option TargetData) : Outcome (bool * option TargetInfo) :=
  match taskType with
  | None => Returns (false, None)
  | Some ty =>
      match targetData with
      | None =>
          Throws (TypeError match ty with
                            | FOLLOW_USER => "userToFollow"
                            | LIKE_CAST | RECAST_CAST => "castHashToLike"
                            | JOIN_CHANNEL => "channelToJoin"
                            end)
      | Some td =>
          match ty with
          | FOLLOW_USER =>
              if truthy (userToFollow td) then
                match getUserByUsername w (default "" (userToFollow td)) with
                | Some user => Returns (true, Some (UserInfo (fc_fid user) (follower_count user)))
                | None => Returns (false, None)
                end
              else Returns (false, None)
          | LIKE_CAST | RECAST_CAST =>
              let castHash := or_else (castHashToLike td) (castHashToRecast td) in
              if truthy castHash then
                if getCast w (default "" castHash) then Returns (true, Some CastInfo)
                else Returns (false, None)
              else Returns (false, None)
          | JOIN_CHANNEL =>
              if truthy (channelToJoin td) then
                Returns (true, Some (ChannelInfo (default "" (channelToJoin td))))
              else Returns (false, None)
          end
      end
  end.

(** ** What one request does to the store *)

(** The pair that the unique index of the participants collection is on. *)
Definition participant_key (p : Participant) : ObjectId * ObjectId :=
  (p_user p, p_task p).

(** How many participant documents refer to task [id]. *)
Definition joined_count (id : ObjectId) (l : list Participant) : Z :=
  Z.of_nat (length (filter (λ t, t = id) (p_task <$> l))).

(** Two user documents that [User.findOne({ $or: [...] })] of the
    registration route cannot tell apart. *)
Definition same_identity (u u' : User) : Prop :=
  email u = email u'
  ∨ warpcastUsername u = warpcastUsername u'
  ∨ walletAddress u = walletAddress u'
  ∨ fid u = fid u'.

(** A task as the creation route leaves it once escrow succeeded. *)
Definition task_funded (t : Task) : Prop :=
  (t_status t = ACTIVE ∨ t_status t = CANCELLED)
  ∧ is_Some (contractTaskId t)
  ∧ is_Some (t_transactionHash t)
  ∧ rewardPerParticipant t = "1000000000000000"
  ∧ 1 ≤ maxParticipants t ≤ 1000
  ∧ totalFunding t = BigInt.toString (1000000000000000 * maxParticipants t).

(** The changes that a request makes, with what the handler has
    checked before making them. *)
Inductive effect (s : Store) : Store → Prop :=
| effect_user_new id u :
    Users s !! id = None →
    (∀ j u', Users s !! j = Some u' → ¬ same_identity u' u) →
    isVerified u = false →
    effect s (with_Users (<[id := u]>) s)
| effect_user_stats id f :
    (∀ u, email (f u) = email u ∧ warpcastUsername (f u) = warpcastUsername u
          ∧ walletAddress (f u) = walletAddress u ∧ fid (f u) = fid u) →
    (∀ u, isVerified (f u) = isVerified u) →
    effect s (with_Users (alter f id) s)
| effect_task_new id t :
    Tasks s !! id = None →
    task_funded t →
    t_status t = ACTIVE →
    currentParticipants t = 0 →
    effect s (with_Tasks (<[id := t]>) s)
| effect_task_draft id t t' :
    Tasks s !! id = Some t →
    t_status t = DRAFT →
    effect s (with_Tasks (<[id := t']>) s)
| effect_task_cancelled id t :
    Tasks s !! id = Some t →
    effect s (with_Tasks (<[id := Task_with_status CANCELLED t]>) s)
| effect_joined id t u :
    Tasks s !! id = Some t →
    t_status t = ACTIVE →
    currentParticipants t < maxParticipants t →
    Participant_findOne u id (Participants s) = None →
    effect s
      (with_Tasks
         (<[id := Task_with_currentParticipants (currentParticipants t + 1) t]>)
         (with_Participants
            (λ l, l ++ [new_participant (fresh (p_id <$> Participants s)) u id]) s))
| effect_participant p p' :
    p ∈ Participants s →
    p_id p' = p_id p →
    p_user p' = p_user p →
    p_task p' = p_task p →
    (claimSignature p' = claimSignature p ∧ rewardAmount p' = rewardAmount p
     ∨ ∃ task, Tasks s !! p_task p = Some task
               ∧ is_Some (claimSignature p')
               ∧ rewardAmount p' = rewardPerParticipant task) →
    effect s (with_Participants (Participant_save p') s).

(** Every stored task is funded. *)
Definition tasks_funded (s : Store) : Prop :=
  ∀ id t, Tasks s !! id = Some t → task_funded t.

(** Participant ids are distinct, and so are the [(user, task)] pairs. *)
Definition participants_unique (s : Store) : Prop :=
  NoDup (p_id <$> Participants s) ∧ NoDup (participant_key <$> Participants s).

(** Every participant refers to a stored task, and the counter of every
    task is the number of participants that refer to it. *)
Definition counters_exact (s : Store) : Prop :=
  (∀ p, p ∈ Participants s → is_Some (Tasks s !! p_task p))
  ∧ ∀ id t, Tasks s !! id = Some t →
      currentParticipants t = joined_count id (Participants s).

(** No two user documents share an email, a username, a wallet address
    or a Farcaster id. *)
Definition users_unique (s : Store) : Prop :=
  ∀ i j u u', Users s !! i = Some u → Users s !! j = Some u' →
    same_identity u u' → i = j.

(** The reward amount of a participant is ["0"] until a claim signature
    is stored, and the reward of its task from then on. *)
Definition rewards_snapshot (s : Store) : Prop :=
  ∀ p, p ∈ Participants s →
    match claimSignature p with
    | None => rewardAmount p = "0"
    | Some _ => ∃ task, Tasks s !! p_task p = Some task
                        ∧ rewardAmount p = rewardPerParticipant task
    end.

(** No user document is marked verified. *)
Definition users_unverified (s : Store) : Prop :=
  ∀ i u, Users s !! i = Some u → isVerified u = false.

Definition store_wf (s : Store) : Prop :=
  tasks_funded s ∧ participants_unique s ∧ counters_exact s
  ∧ users_unique s ∧ rewards_snapshot s ∧ users_unverified s.

(** A like list whose third entry has no [user] object. *)
Definition demo_world_broken_like : World :=
  {| now := 100;
     api_user_by_username := λ username, Returns (demo_accounts username);
     api_user := λ _, Returns None;
     api_cast := λ _, Returns true;
     api_cast_likes := λ _, Returns (Some [Some 5; Some 3; None; Some 2]);
     api_cast_recasts := λ _, Returns (Some [Some 2]);
     api_user_following := λ _, Returns (Some []);
     api_channel_members := λ _, Returns (Some []);
     api_channel_followers := λ _, Returns (Some []);
     chain_hasDevClaimed := λ _ _, Returns false;
     chain_createTaskOnChain := λ _ _, Returns demo_receipt;
     paymaster_post := λ _, Throws "connect ECONNREFUSED" |}.

(** Whether the endpoint answered [valid: true]. *)
Definition reported_valid (o : Outcome (bool * option TargetInfo)) : bool :=
  match o with
  | Returns (valid, _) => valid
  | Throws _ => false
  end.

(** All the requests that lead to [demo_claimed]; alice then cancels
    the task. *)
Definition demo_requests_claimed : list (World * Op) :=
  demo_requests_signed
  ++ [ (demo_world, OpConfirmClaim 1%nat 0%nat (Some "0xabc")) ].


(** A token for user 5, who has no user document, joins the task. *)
Definition demo_ghost_joined : Store :=
  run demo_js demo_eth demo_env [ (demo_world, OpJoin 5%nat 0%nat) ] demo_funded.

(** Only the cast [0x600d] exists. *)
Definition demo_world_one_cast : World :=
  {| now := 100;
     api_user_by_username := λ username, Returns (demo_accounts username);
     api_user := λ _, Returns None;
     api_cast := λ hash, Returns (String.eqb hash "0x600d");
     api_cast_likes := λ _, Returns (Some []);
     api_cast_recasts := λ _, Returns (Some []);
     api_user_following := λ _, Returns (Some []);
     api_channel_members := λ _, Returns (Some []);
     api_channel_followers := λ _, Returns (Some []);
     chain_hasDevClaimed := λ _ _, Returns false;
     chain_createTaskOnChain := λ _ _, Returns demo_receipt;
     paymaster_post := λ _, Throws "connect ECONNREFUSED" |}.

(** A recast target that also names a cast to like. *)
Definition demo_target_two_hashes : TargetData :=
  {| userToFollow := None; castHashToLike := Some "0xbad";
     castHashToRecast := Some "0x600d"; channelToJoin := None |}.

(** alice funds a task that only verified users may join. *)
Definition demo_create_verified_only : CreateReq :=
  {| c_title := Some "Bounty";
     c_description := Some "Do the thing";
     c_taskType := Some FOLLOW_USER;
     c_targetData := Some (demo_target FOLLOW_USER);
     c_maxParticipants := Some 5;
     c_expiresAt := Some (Some 1000);
     c_tags := None;
     c_requirements := Some {| minimumFollowers := 0; mustBeVerified := true |};
     c_rewardPerParticipant := None |}.

Definition demo_requests_verified_only : list (World * Op) :=
  demo_requests_registered
  ++ [ (demo_world, OpCreate 0%nat demo_create_verified_only) ].

Definition demo_verified_only : Store :=
  run demo_js demo_eth demo_env demo_requests_verified_only empty_store.

Definition demo_task_verified_only : Task :=
  {| creator := 0%nat; title := "Bounty"; description := "Do the thing";
     taskType := FOLLOW_USER; targetData := demo_target FOLLOW_USER;
     rewardPerParticipant := "1000000000000000";
     maxParticipants := 5; currentParticipants := 0;
     totalFunding := "5000000000000000";
     contractTaskId := Some 7; t_status := ACTIVE; expiresAt := 1000;
     tags := [];
     requirements := {| minimumFollowers := 0; mustBeVerified := true |};
     participants := []; t_transactionHash := Some "0xe5c" |}.

(** Requests that set a title, tags and a date. *)
Definition demo_create_titled (title : string) (expiresAt : option Z) : CreateReq :=
  {| c_title := Some title;
     c_description := Some "Do the thing";
     c_taskType := Some FOLLOW_USER;
     c_targetData := Some (demo_target FOLLOW_USER);
     c_maxParticipants := Some 1;
     c_expiresAt := Some expiresAt;
     c_tags := Some [" farcaster "; "follow"];
     c_requirements := None;
     c_rewardPerParticipant := None |}.

(** A DRAFT record, as it is stored while the escrow call is awaited. *)
Definition demo_draft : Store :=
  with_Tasks (<[0%nat := Task_with_status DRAFT (demo_task FOLLOW_USER 0)]>)
             demo_registered.

Definition demo_update (title : option string) (expiresAt : option (option Z))
  : UpdateReq :=
  {| u_title := title; u_description := None; u_expiresAt := expiresAt;
     u_tags := None; u_requirements := None |}.

(** * Properties *)

(** ** Numbers and decimal amounts *)

(** [parseInt] keeps the task ids below [2^53] and rounds beyond. *)
Lemma parseInt_exact (n : Z) : Z.abs n < 2 ^ 53 → parseInt n = n.
Proof.
  intros Hn. unfold parseInt.
  destruct (decide (Z.abs n = 0)) as [H0|H0].
  - rewrite H0. reflexivity.
  - assert (Z.log2 (Z.abs n) < 53) by (apply Z.log2_lt_pow2; lia).
    destruct (Z.log2 (Z.abs n) - 52 <=? 0) eqn:E; [done|].
    apply Z.leb_gt in E. lia.
Qed.


Lemma to_int_digits (z : Z) :
  Z.to_int z ≠ Decimal.Pos Decimal.Nil ∧ Z.to_int z ≠ Decimal.Neg Decimal.Nil.
Proof.
  destruct z as [|p|p]; cbn; split; try discriminate;
    intros H; injection H as H;
    by apply (DecimalPos.Unsigned.to_uint_nonnil p).
Qed.

Lemma int_of_string_toString (z : Z) :
  NilZero.int_of_string (BigInt.toString z) = Some (Z.to_int z).
Proof.
  destruct (to_int_digits z). by apply NilZero.isi.
Qed.

Lemma BigInt_toString_nonempty (z : Z) : BigInt.toString z ≠ "".
Proof.
  intros H. pose proof (int_of_string_toString z) as Hz.
  rewrite H in Hz. discriminate.
Qed.

(** [BigInt(n.toString()) = n]: amounts survive being stored as
    decimal strings. *)
Lemma BigInt_parse_toString (z : Z) : BigInt.parse (BigInt.toString z) = Some z.
Proof.
  unfold BigInt.parse.
  destruct (String.eqb (BigInt.toString z) "") eqn:E.
  - apply String.eqb_eq in E. by apply BigInt_toString_nonempty in E.
  - rewrite int_of_string_toString. cbn. by rewrite DecimalZ.of_to.
Qed.

Lemma BigInt_toString_inj (a b : Z) : BigInt.toString a = BigInt.toString b → a = b.
Proof.
  intros H. pose proof (BigInt_parse_toString a) as Ha.
  rewrite H, BigInt_parse_toString in Ha. congruence.
Qed.

(** ** The participants collection *)

Lemma findOne_spec (u t : ObjectId) (l : list Participant) (p : Participant) :
  Participant_findOne u t l = Some p → p ∈ l ∧ p_user p = u ∧ p_task p = t.
Proof.
  unfold Participant_findOne. intros H.
  apply find_some in H as [Hin Hb].
  apply andb_true_iff in Hb as [Hu Ht].
  apply bool_decide_eq_true in Hu, Ht.
  by rewrite list_elem_of_In.
Qed.

Lemma findById_spec (i : ObjectId) (l : list Participant) (p : Participant) :
  Participant_findById i l = Some p → p ∈ l ∧ p_id p = i.
Proof.
  unfold Participant_findById. intros H.
  apply find_some in H as [Hin Hb].
  apply bool_decide_eq_true in Hb.
  by rewrite list_elem_of_In.
Qed.

Lemma elem_of_save (p' q : Participant) (l : list Participant) :
  q ∈ Participant_save p' l → q = p' ∨ q ∈ l.
Proof.
  unfold Participant_save. intros H.
  apply list_elem_of_fmap in H as (x & -> & Hx).
  case_bool_decide; auto.
Qed.

(** After saving a document read by [findOne], [findOne] reads the
    saved document. *)
Lemma findOne_save (u t : ObjectId) (l : list Participant) (p p' : Participant) :
  Participant_findOne u t l = Some p →
  p_id p' = p_id p → p_user p' = u → p_task p' = t →
  Participant_findOne u t (Participant_save p' l) = Some p'.
Proof.
  unfold Participant_findOne, Participant_save.
  intros Hfind Hid <- <-.
  assert (bool_decide (p_user p' = p_user p') && bool_decide (p_task p' = p_task p') = true)
    as Hp' by (by rewrite !bool_decide_eq_true_2).
  induction l as [|q l IH]; [discriminate|].
  rewrite fmap_cons. cbn [find] in *.
  destruct (bool_decide (p_user q = p_user p') && bool_decide (p_task q = p_task p')) eqn:Hq.
  - injection Hfind as ->. rewrite Hid.
    rewrite (bool_decide_eq_true_2 (p_id p = p_id p)) by done.
    by rewrite Hp'.
  - destruct (bool_decide (p_id q = p_id p')).
    + by rewrite Hp'.
    + rewrite Hq. by apply IH.
Qed.

Lemma elem_of_save_self (p p' : Participant) (l : list Participant) :
  p ∈ l → p_id p' = p_id p → p' ∈ Participant_save p' l.
Proof.
  intros Hin Hid. unfold Participant_save.
  apply list_elem_of_fmap. exists p. split; [|done].
  by rewrite Hid, bool_decide_eq_true_2.
Qed.

Lemma save_length (p' : Participant) (l : list Participant) :
  length (Participant_save p' l) = length l.
Proof. unfold Participant_save. by rewrite length_fmap. Qed.

Lemma store_eta (s : Store) :
  {| Tasks := Tasks s; Users := Users s; Participants := Participants s |} = s.
Proof. by destruct s. Qed.

(** Running a handler symbolically: unfold it to its tree of tests,
    then split on the innermost test, one at a time. *)
Ltac route_cbv :=
  cbv beta iota zeta delta
    [exec handle route mbind mret Route_bind Route_ret get reply reply_if throw
     await deref set_Tasks set_Users set_Participants modify try_catch json
     register create_task update_task cancel_task join submit_proof claim
     confirm_claim verify re_verify BigInt_mul_toString Task_validate
     User_validate].

Ltac case_inner :=
  match goal with
  | |- context [match ?x with _ => _ end] =>
      lazymatch x with
      | context [match _ with _ => _ end] => fail
      | _ => destruct x eqn:?
      end
  end.

Ltac route_run := route_cbv; repeat (case_inner; cbv beta iota zeta).

(** ** Store algebra *)

Lemma fresh_task_id (s : Store) : Tasks s !! fresh (dom (Tasks s)) = None.
Proof. apply not_elem_of_dom, is_fresh. Qed.

Lemma fresh_user_id (s : Store) : Users s !! fresh (dom (Users s)) = None.
Proof. apply not_elem_of_dom, is_fresh. Qed.

Lemma with_Tasks_insert_insert (id : nat) (a b : Task) (s : Store) :
  with_Tasks (<[id := a]>) (with_Tasks (<[id := b]>) s) = with_Tasks (<[id := a]>) s.
Proof. unfold with_Tasks; cbn. by rewrite insert_insert_eq. Qed.

Lemma with_Tasks_delete_insert (id : nat) (t : Task) (s : Store) :
  Tasks s !! id = None →
  with_Tasks (delete id) (with_Tasks (<[id := t]>) s) = s.
Proof.
  intros H. unfold with_Tasks; cbn. rewrite delete_insert_eq, delete_id by done.
  apply store_eta.
Qed.

Section Properties.
Variable js : Engine.
Variable eth : Ethers.
Variable env : Env.

(** ** Every handler is a sequence of writes *)

Lemma register_writes w req s :
  rtc (write eth) s (exec js eth env w (OpRegister req) s).2.
Proof.
  route_run; cbn [snd]; try reflexivity.
  apply rtc_once, write_user_new, fresh_user_id.
Qed.

Lemma create_writes w u req s :
  rtc (write eth) s (exec js eth env w (OpCreate u req) s).2.
Proof.
  unfold exec, route, create_task.
  destruct (create_validated req) as [[[[[ti de] ty] n] ex]|] eqn:Hv;
    [|route_run; reflexivity].
  assert (1 ≤ n) as Hn.
  { unfold create_validated in Hv. repeat case_match; simplify_eq. lia. }
  route_run; cbn [snd]; try reflexivity.
  - rewrite with_Tasks_insert_insert.
    eapply rtc_r; [|by apply write_user_stats].
    apply rtc_once, write_task_new; try done. apply fresh_task_id.
  - rewrite with_Tasks_delete_insert by apply fresh_task_id. reflexivity.
Qed.

Lemma update_writes w u id req s :
  rtc (write eth) s (exec js eth env w (OpUpdate u id req) s).2.
Proof.
  route_run; cbn [snd]; try reflexivity.
  all: apply rtc_once; eapply write_task_details; [done|]; by repeat split.
Qed.

Lemma cancel_writes w u id s :
  rtc (write eth) s (exec js eth env w (OpCancel u id) s).2.
Proof.
  route_run; cbn [snd]; try reflexivity.
  all: apply rtc_once; eapply write_task_details; [done|]; by repeat split.
Qed.

Lemma join_writes w u t s :
  rtc (write eth) s (exec js eth env w (OpJoin u t) s).2.
Proof.
  route_run; cbn [snd]; try reflexivity.
  all: eapply rtc_r; [|apply write_task_joined; [eassumption|lia]];
    by apply rtc_once, write_participant_new.
Qed.

Lemma submit_proof_writes w u t pd s :
  rtc (write eth) s (exec js eth env w (OpSubmitProof u t pd) s).2.
Proof.
  route_run; cbn [snd]; try reflexivity;
    match goal with
    | H : Participant_findOne _ _ _ = Some _ |- _ =>
        apply findOne_spec in H as (Hin & Hu & Ht)
    end.
  - eapply rtc_r;
      [|apply write_participant with (p := Participant_with_proof p p0); auto;
        by eapply elem_of_save_self].
    apply rtc_once. by apply write_participant with (p := p0); auto.
  - apply rtc_once. by apply write_participant with (p := p0); auto.
Qed.

Lemma claim_writes w u t s :
  rtc (write eth) s (exec js eth env w (OpClaim u t) s).2.
Proof.
  route_run; cbn [snd]; try reflexivity;
    match goal with
    | H : Participant_findOne _ _ _ = Some _ |- _ =>
        apply findOne_spec in H as (Hin & Hu & Ht)
    end.
  apply rtc_once. apply write_participant with (p := p); auto.
  right. eexists. split; [|done]. by eexists _, _.
Qed.

Lemma confirm_claim_writes w u t tx s :
  rtc (write eth) s (exec js eth env w (OpConfirmClaim u t tx) s).2.
Proof.
  route_run; cbn [snd]; try reflexivity;
    match goal with
    | H : Participant_findOne _ _ _ = Some _ |- _ =>
        apply findOne_spec in H as (Hin & Hu & Ht)
    end;
    try (apply rtc_once; by apply write_participant with (p := p); auto).
  eapply rtc_r; [|by apply write_user_stats].
  apply rtc_once. by apply write_participant with (p := p); auto.
Qed.

Lemma verify_writes w u pid approved notes s :
  rtc (write eth) s (exec js eth env w (OpVerify u pid approved notes) s).2.
Proof.
  route_run; cbn [snd]; try reflexivity;
    match goal with
    | H : Participant_findById _ _ = Some _ |- _ =>
        apply findById_spec in H as (Hin & Hid)
    end.
  all: apply rtc_once; by apply write_participant with (p := p); auto.
Qed.

Lemma re_verify_writes w u pid s :
  rtc (write eth) s (exec js eth env w (OpReVerify u pid) s).2.
Proof.
  route_run; cbn [snd]; try reflexivity;
    match goal with
    | H : Participant_findById _ _ = Some _ |- _ =>
        apply findById_spec in H as (Hin & Hid)
    end.
  all: apply rtc_once; by apply write_participant with (p := p); auto.
Qed.

Theorem exec_writes w op s : rtc (write eth) s (exec js eth env w op s).2.
Proof.
  destruct op.
  - apply register_writes.
  - apply create_writes.
  - apply update_writes.
  - apply cancel_writes.
  - apply join_writes.
  - apply submit_proof_writes.
  - apply claim_writes.
  - apply confirm_claim_writes.
  - apply verify_writes.
  - apply re_verify_writes.
Qed.

(** ** Invariants *)

Lemma write_capacity s s' : write eth s s' → capacity_ok s → capacity_ok s'.
Proof.
  unfold capacity_ok.
  intros Hw Hc; destruct Hw as [| | id t Hnew H0 H1 _ | id t t' Ht Hfr | id t Ht Hlt | |];
    cbn; try done; intros id' x.
  - rewrite lookup_insert. case_decide; [|by apply Hc].
    intros [= <-]. lia.
  - rewrite lookup_insert. case_decide; [|by apply Hc].
    intros [= <-]. destruct Hfr as (_ & _ & -> & -> & _). by eapply Hc.
  - rewrite lookup_insert. case_decide; [|by apply Hc].
    intros [= <-]. cbn. lia.
Qed.

Lemma write_embedded s s' : write eth s s' → embedded_empty s → embedded_empty s'.
Proof.
  unfold embedded_empty.
  intros Hw Hc; destruct Hw as [| | id t Hnew _ _ He | id t t' Ht Hfr | id t Ht Hlt | |];
    cbn; try done; intros id' x.
  - rewrite lookup_insert. case_decide; [|by apply Hc].
    by intros [= <-].
  - rewrite lookup_insert. case_decide; [|by apply Hc].
    intros [= <-]. destruct Hfr as (_ & _ & _ & _ & ->). by eapply Hc.
  - rewrite lookup_insert. case_decide; [|by apply Hc].
    intros [= <-]. cbn. by eapply Hc.
Qed.

(** A write keeps the triple of every stored participant. *)
Lemma write_signed_for s s' p sig :
  write eth s s' → signed_for eth s p sig → signed_for eth s' p sig.
Proof.
  intros Hw (task & user & Ht & Hu & Hsig).
  destruct Hw as [id u Hnew | id f Hf | id t Hnew _ _ _ | id t t' Ht' Hfr
                 | id t Ht' Hlt | |]; unfold signed_for; cbn.
  - exists task, user. rewrite lookup_insert_ne; [done|]. congruence.
  - destruct (decide (id = p_user p)) as [->|Hne].
    + exists task, (f user). rewrite lookup_alter_eq, Hu, Hf. done.
    + exists task, user. by rewrite lookup_alter_ne.
  - exists task, user. rewrite lookup_insert_ne; [done|]. congruence.
  - destruct Hfr as (Hc & Hr & _).
    destruct (decide (id = p_task p)) as [->|Hne].
    + exists t', user. rewrite lookup_insert_eq, Hc, Hr.
      rewrite Ht in Ht'. by injection Ht' as <-.
    + exists task, user. by rewrite lookup_insert_ne.
  - destruct (decide (id = p_task p)) as [->|Hne].
    + eexists _, user. rewrite lookup_insert_eq. split; [done|]. cbn.
      rewrite Ht in Ht'. by injection Ht' as <-.
    + exists task, user. by rewrite lookup_insert_ne.
  - by exists task, user.
  - by exists task, user.
Qed.

Lemma write_signatures s s' :
  write eth s s' → signatures_ok eth s → signatures_ok eth s'.
Proof.
  intros Hw Hs p sig Hin Hsig.
  assert (∃ q, q ∈ Participants s ∧ p_user q = p_user p ∧ p_task q = p_task p
               ∧ (claimSignature q = Some sig ∨ signed_for eth s q sig)) as Hq.
  { destruct Hw as [| | | | | q Hq | q q' Hq Hu Ht Hsg]; cbn in Hin; eauto 6.
    - apply elem_of_app in Hin as [Hin|Hin]; [eauto 6|].
      apply list_elem_of_singleton in Hin as ->. congruence.
    - apply elem_of_save in Hin as [->|Hin]; [|eauto 6].
      exists q. repeat split; try done.
      destruct Hsg as [Heq|(sig' & Hfor & Heq)].
      + left. congruence.
      + right. congruence. }
  destruct Hq as (q & Hq & Hu & Ht & Hor).
  assert (signed_for eth s q sig) as Hfor by (destruct Hor; auto).
  apply (write_signed_for _ _ _ _ Hw) in Hfor.
  unfold signed_for in *. by rewrite <- Hu, <- Ht.
Qed.

Lemma empty_store_ok : store_ok eth empty_store.
Proof.
  repeat split; intros ? ?; cbn; try by rewrite lookup_empty.
  by intros ?%elem_of_nil.
Qed.

Lemma writes_ok s s' : rtc (write eth) s s' → store_ok eth s → store_ok eth s'.
Proof.
  induction 1 as [|s s1 s2 Hw _ IH]; [done|].
  intros (Hc & He & Hs). apply IH. repeat split.
  - by eapply write_capacity.
  - by eapply write_embedded.
  - by eapply write_signatures.
Qed.

Theorem exec_ok w op s : store_ok eth s → store_ok eth (exec js eth env w op s).2.
Proof. apply writes_ok, exec_writes. Qed.

Theorem run_ok l s : store_ok eth s → store_ok eth (run js eth env l s).
Proof.
  revert s. induction l as [|[w op] l IH]; intros s Hs; [done|].
  cbn. by apply IH, exec_ok.
Qed.

Theorem reachable_ok s : reachable js eth env s → store_ok eth s.
Proof. intros [l ->]. apply run_ok, empty_store_ok. Qed.
End Properties.

(** Booleans of the handlers as propositions. *)
Ltac bool_norm :=
  repeat match goal with
    | H : negb _ = true |- _ => apply negb_true_iff in H
    | H : negb _ = false |- _ => apply negb_false_iff in H
    | H : bool_decide _ = true |- _ => apply bool_decide_eq_true in H
    | H : bool_decide _ = false |- _ => apply bool_decide_eq_false in H
    | H : (_ <=? _) = true |- _ => apply Z.leb_le in H
    | H : (_ <=? _) = false |- _ => apply Z.leb_gt in H
    | H : (_ <? _) = true |- _ => apply Z.ltb_lt in H
    | H : (_ <? _) = false |- _ => apply Z.ltb_ge in H
    end.

Section TaskLifecycle.
Variable js : Engine.
Variable eth : Ethers.
Variable env : Env.

(** ** Task creation *)

(** What a creation request that passes both validations stores first:
    the DRAFT record. *)
Lemma create_validated_bounds req ti de ty n ex :
  create_validated req = Some (ti, de, ty, n, ex) →
  c_maxParticipants req = Some n ∧ 1 ≤ n ≤ 1000.
Proof.
  unfold create_validated. intros H.
  repeat case_match; simplify_eq. split; [done|lia].
Qed.

(** The description that the validator chain lets through is not
    empty. *)
Lemma create_validated_description req ti de ty n ex :
  create_validated req = Some (ti, de, ty, n, ex) →
  String.eqb de "" = false.
Proof.
  unfold create_validated. intros H.
  destruct (truthy (c_title req) && truthy (c_description req)) eqn:E; [|done].
  apply andb_true_iff in E as [_ E].
  assert (de = default "" (c_description req)) as ->
    by (repeat case_match; by simplify_eq).
  unfold truthy in E. destruct (c_description req); [|done].
  cbn. by apply negb_true_iff.
Qed.

(** C10: every task that the creation route creates carries the fixed
    reward ["1000000000000000"], whatever reward the request body
    names, and a total funding that is the decimal string of the
    integer product [1000000000000000 * maxParticipants]. *)
Theorem create_task_reward_and_funding
    (w : World) (s : Store) (userId : ObjectId) (req : CreateReq) :
  code (exec js eth env w (OpCreate userId req) s).1 = 201%nat →
  ∃ id task n r,
    c_maxParticipants req = Some n
    ∧ 1 ≤ n ≤ 1000
    ∧ Tasks s !! id = None
    ∧ Tasks (exec js eth env w (OpCreate userId req) s).2 !! id = Some task
    ∧ body (exec js eth env w (OpCreate userId req) s).1
      = CreatedBody "Task created successfully on Base Sepolia" (Some task) r
    ∧ maxParticipants task = n
    ∧ rewardPerParticipant task = "1000000000000000"
    ∧ totalFunding task = BigInt.toString (1000000000000000 * n)
    ∧ BigInt.parse (totalFunding task) = Some (1000000000000000 * n).
Proof.
  unfold exec, route, create_task.
  destruct (create_validated req) as [[[[[ti de] ty] n] ex]|] eqn:Hv;
    [|route_run; cbn; discriminate].
  apply create_validated_bounds in Hv as [Hn Hb].
  route_run; cbn [fst snd code body]; try discriminate. intros _.
  assert (z = 1000000000000000) as -> by (vm_compute in Heqo1; congruence).
  eexists (fresh (dom (Tasks s))), _, n, _.
  cbn. rewrite !lookup_insert_eq.
  repeat split;
    first [ exact Hn | lia | apply fresh_task_id
          | apply BigInt_parse_toString | reflexivity ].
Qed.

(** C8: once the DRAFT record of a valid request is stored (the
    request passed the validator chain and the target validation, and
    the document passed the validators of the schema: a title that is
    not blank and of at most 100 code units once trimmed, a
    description of at most 500, a date that is a date), the outcome
    of the escrow call decides everything.  If the call fails, the
    record is deleted again and the failure reported: the store is
    what it was before the request.  If it succeeds, the record is
    kept with the contract's task id (as the Number that [parseInt]
    makes of it: the id itself below [2^53], the nearest Number
    beyond) and transaction hash, and with status ACTIVE. *)
Theorem create_task_escrow_atomic
    (w : World) (s : Store) (userId : ObjectId) (req : CreateReq)
    (ti de : string) (ty : TaskType) (n ex : Z) (td : TargetData) :
  create_validated req = Some (ti, de, ty, n, Some ex) →
  c_targetData req = Some td →
  target_validation w ty td = None →
  JsString.trim ti ≠ "" →
  (JsString.length (JsString.trim ti) ≤ 100)%nat →
  (JsString.length de ≤ 500)%nat →
  let id := fresh (dom (Tasks s)) in
  let funding := BigInt.toString (1000000000000000 * n) in
  match createTaskOnChain w n funding with
  | Throws _ =>
      exec js eth env w (OpCreate userId req) s
      = (json 500 (ErrorBody "Failed to create task on blockchain"), s)
  | Returns r =>
      ∃ task,
        exec js eth env w (OpCreate userId req) s
        = (json 201 (CreatedBody "Task created successfully on Base Sepolia"
                                 (Some task) r),
           with_Users (alter User_inc_created userId)
                      (with_Tasks (<[id := task]>) s))
        ∧ Tasks s !! id = None
        ∧ t_status task = ACTIVE
        ∧ contractTaskId task = Some (parseInt (cr_taskId r))
        ∧ (Z.abs (cr_taskId r) < 2 ^ 53 → contractTaskId task = Some (cr_taskId r))
        ∧ t_transactionHash task = Some (cr_transactionHash r)
        ∧ totalFunding task = funding
        ∧ title task = JsString.trim ti
  end.
Proof.
  intros Hv Htd Htv Hne Hti Hde id funding.
  pose proof (create_validated_description _ _ _ _ _ _ Hv) as Hde0.
  unfold exec, route, create_task. rewrite Hv.
  route_cbv. rewrite Htd. cbv beta iota zeta. rewrite Htv.
  change (BigInt.parse "1000000000000000") with (Some 1000000000000000).
  cbv beta iota zeta.
  apply String.eqb_neq in Hne. apply Nat.leb_le in Hti, Hde.
  rewrite Hne, Hti, Hde0, Hde. cbn [andb negb]. cbv beta iota zeta.
  fold id funding.
  destruct (createTaskOnChain w n funding) as [r|e]; cbv beta iota zeta.
  - eexists. rewrite with_Tasks_insert_insert.
    split.
    { cbn [Tasks with_Users with_Tasks]. by rewrite lookup_insert_eq. }
    repeat split; try done; [apply fresh_task_id|].
    intros Hsmall. cbn. by rewrite parseInt_exact.
  - by rewrite with_Tasks_delete_insert by apply fresh_task_id.
Qed.

(** ** Joining *)

Lemma writes_capacity s s' :
  rtc (write eth) s s' → capacity_ok s → capacity_ok s'.
Proof.
  induction 1 as [|s s1 s2 Hw _ IH]; [done|].
  intros Hc. by eapply IH, write_capacity.
Qed.

Lemma run_capacity l s : capacity_ok s → capacity_ok (run js eth env l s).
Proof.
  revert s. induction l as [|[w op] l IH]; intros s Hs; [done|].
  cbn. eapply IH, writes_capacity; [apply exec_writes|done].
Qed.

(** C7: joining is refused, with the store left as it was, when the
    task is not ACTIVE, when it is full, when it has expired, when the
    user already participates, or when the user does not meet the
    task's requirements.  A successful join appends exactly one
    PENDING participant and adds exactly one to
    [currentParticipants].  Hence [currentParticipants ≤
    maxParticipants] holds after the join and after every request
    served after it. *)
Theorem join_guards_capacity
    (w : World) (s : Store) (userId taskId : ObjectId) (task : Task) :
  Tasks s !! taskId = Some task →
  capacity_ok s →
  let r := exec js eth env w (OpJoin userId taskId) s in
  (t_status task ≠ ACTIVE
   ∨ maxParticipants task ≤ currentParticipants task
   ∨ expiresAt task < now w
   ∨ is_Some (Participant_findOne userId taskId (Participants s))
   ∨ (∃ user, Users s !! userId = Some user ∧ requirement_unmet w task user)
   → code r.1 = 400%nat ∧ r.2 = s)
  ∧ (code r.1 = 201%nat →
     ∃ p, Participants r.2 = Participants s ++ [p]
          ∧ p_user p = userId ∧ p_task p = taskId ∧ p_status p = PENDING
          ∧ Tasks r.2 = <[taskId := Task_with_currentParticipants
                                      (currentParticipants task + 1) task]> (Tasks s)
          ∧ Users r.2 = Users s)
  ∧ ∀ l, capacity_ok (run js eth env l r.2).
Proof.
  intros Ht Hc r. split; [|split].
  - intros Hrej. subst r. unfold exec, route, join. route_cbv. rewrite Ht.
    cbv beta iota zeta.
    repeat (case_inner; cbv beta iota zeta); cbn [fst snd code]; try done;
      exfalso; bool_norm;
      destruct Hrej as [H|[H|[H|[H|(user & Hu & [[H1 H2]|[H1 H2]])]]]];
      simplify_eq; try done; try lia; try congruence.
    all: match goal with
         | H : ∀ fu, getUserByFid _ _ = Some fu → _, E : getUserByFid _ _ = Some _ |- _ =>
             specialize (H _ E); lia
         end.
  - subst r. unfold exec, route, join. route_cbv. rewrite Ht.
    cbv beta iota zeta.
    repeat (case_inner; cbv beta iota zeta); cbn [fst snd code]; try done;
      intros _; eexists; by repeat split.
  - intros l. apply run_capacity.
    eapply writes_capacity; [apply exec_writes|done].
Qed.
End TaskLifecycle.

Section Cancel.
Variable js : Engine.
Variable eth : Ethers.
Variable env : Env.

(** The guard of the cancel route reads the array embedded in the
    task document. *)
Lemma cancel_refused_on_embedded_claimed w s userId id task :
  Tasks s !! id = Some task →
  creator task = userId →
  (∃ p, p ∈ participants task ∧ tp_status p = CLAIMED) →
  exec js eth env w (OpCancel userId id) s
  = (json 400 (ErrorBody "Cannot cancel task with claimed rewards"), s).
Proof.
  intros Ht Hcr (p & Hin & Hp).
  unfold exec, route, cancel_task. route_cbv. rewrite Ht. cbv beta iota zeta.
  rewrite bool_decide_eq_true_2 by done. cbn [negb].
  assert (existsb (λ p, bool_decide (tp_status p = CLAIMED)) (participants task) = true)
    as ->; [|done].
  apply existsb_exists. exists p. split; [by apply list_elem_of_In|].
  by apply bool_decide_eq_true.
Qed.

(** No handler ever writes to that array, so in every store that the
    handlers can produce the guard finds nothing and the creator's
    cancellation goes through, whatever the participants of the task
    have reached. *)
Theorem cancel_never_refused w s userId id task :
  reachable js eth env s →
  Tasks s !! id = Some task →
  creator task = userId →
  exec js eth env w (OpCancel userId id) s
  = (json 200 (MessageBody "Task cancelled successfully"),
     with_Tasks (<[id := Task_with_status CANCELLED task]>) s).
Proof.
  intros Hr Ht Hcr.
  apply reachable_ok in Hr as (_ & He & _). specialize (He _ _ Ht).
  unfold exec, route, cancel_task. route_cbv. rewrite Ht. cbv beta iota zeta.
  rewrite bool_decide_eq_true_2 by done. cbn [negb]. by rewrite He.
Qed.
End Cancel.

(** C2, on the code: bob's participation in task 0 is CLAIMED, alice
    cancels task 0, the request is answered 200 and the task is
    CANCELLED. *)
Theorem cancel_task_with_claimed_participant :
  Participant_findOne 1%nat 0%nat (Participants demo_claimed)
  = Some (Participant_with_claimed 100 (Some "0xabc")
            (Participant_with_signature "signed:7/0xb0b/1000000000000000"
               "1000000000000000" demo_auto_verified))
  ∧ Tasks demo_claimed !! 0%nat = Some (demo_task FOLLOW_USER 1)
  ∧ exec demo_js demo_eth demo_env demo_world (OpCancel 0%nat 0%nat) demo_claimed
    = (json 200 (MessageBody "Task cancelled successfully"),
       with_Tasks (<[0%nat := Task_with_status CANCELLED (demo_task FOLLOW_USER 1)]>)
                  demo_claimed).
Proof. vm_compute. done. Qed.

(** ** Participant lifecycle *)

Section Unguarded.
Variable js : Engine.
Variable eth : Ethers.
Variable env : Env.

(** The confirm-claim route reads neither the status nor the claim
    signature of the participant it marks CLAIMED. *)
Theorem confirm_claim_unguarded w s userId taskId tx p user earned amount :
  Participant_findOne userId taskId (Participants s) = Some p →
  Users s !! userId = Some user →
  BigInt.parse (or_default (Some (totalRewardsEarned user)) "0") = Some earned →
  BigInt.parse (rewardAmount p) = Some amount →
  exec js eth env w (OpConfirmClaim userId taskId tx) s
  = (json 200 (ParticipantBody "Claim confirmed successfully"
                 (Some (Participant_with_claimed (now w) tx p))),
     with_Users (alter (User_completed (BigInt.toString (earned + amount))) userId)
       (with_Participants
          (Participant_save (Participant_with_claimed (now w) tx p)) s)).
Proof.
  intros Hp Hu He Ha.
  unfold exec, route, confirm_claim. route_cbv. rewrite Hp. cbv beta iota zeta.
  rewrite Hu. cbv beta iota zeta. rewrite He. cbn [rewardAmount Participant_with_claimed].
  by rewrite Ha.
Qed.
(** Nor does the re-verify route read the status of the participant it
    marks VERIFIED. *)
Theorem re_verify_unguarded w s userId participantId p task :
  Participant_findById participantId (Participants s) = Some p →
  Tasks s !! p_task p = Some task →
  creator task = userId →
  autoVerifyTask w s p = true →
  let p' := Participant_with_status VERIFIED "Re-verified via Snapchain API" p in
  exec js eth env w (OpReVerify userId participantId) s
  = (json 200 (ReVerifyBody "Re-verification completed" true p'),
     with_Participants (Participant_save p') s).
Proof.
  intros Hp Ht Hcr Hv p'.
  unfold exec, route, re_verify. route_cbv. rewrite Hp. cbv beta iota zeta.
  rewrite Ht. cbv beta iota zeta.
  rewrite bool_decide_eq_true_2 by done. cbn [negb]. by rewrite Hv.
Qed.
End Unguarded.

(** C1, on the code: bob has joined task 0 and holds no claim
    signature.  His confirm-claim request is answered 200, marks him
    CLAIMED at the current date and credits his counters; a second
    confirm-claim request is answered 200 as well and credits the
    counters again. *)
Theorem confirm_claim_without_signature :
  let r1 := exec demo_js demo_eth demo_env demo_world
              (OpConfirmClaim 1%nat 0%nat (Some "0xabc")) demo_joined in
  let r2 := exec demo_js demo_eth demo_env demo_world
              (OpConfirmClaim 1%nat 0%nat (Some "0xdef")) r1.2 in
  Participant_findOne 1%nat 0%nat (Participants demo_joined) = Some demo_pending
  ∧ claimSignature demo_pending = None
  ∧ p_status demo_pending = PENDING
  ∧ Users demo_joined !! 1%nat = Some demo_bob
  ∧ code r1.1 = 200%nat
  ∧ Participant_findOne 1%nat 0%nat (Participants r1.2)
    = Some (Participant_with_claimed 100 (Some "0xabc") demo_pending)
  ∧ Users r1.2 !! 1%nat = Some (User_completed "0" demo_bob)
  ∧ code r2.1 = 200%nat
  ∧ Users r2.2 !! 1%nat = Some (User_completed "0" (User_completed "0" demo_bob)).
Proof. vm_compute. done. Qed.

(** C3, on the code: the statuses of bob's participation observed
    after each request.  A rejected participant becomes VERIFIED by
    re-verification and a CLAIMED one goes back to VERIFIED; a PENDING
    one becomes CLAIMED by a bare confirmation. *)
Theorem participant_status_leaves_lifecycle :
  observe_status demo_js demo_eth demo_env 1%nat 0%nat
    (demo_requests_joined FOLLOW_USER ++ demo_requests_regress) demo_registered
  = [PENDING; REJECTED; VERIFIED; VERIFIED; CLAIMED; VERIFIED]
  ∧ lifecycle_prefix [PENDING; REJECTED; VERIFIED; VERIFIED; CLAIMED; VERIFIED] = false
  ∧ observe_status demo_js demo_eth demo_env 1%nat 0%nat
      (demo_requests_joined FOLLOW_USER ++ demo_requests_skip) demo_registered
    = [PENDING; CLAIMED]
  ∧ lifecycle_prefix [PENDING; CLAIMED] = false.
Proof. vm_compute. done. Qed.

(** ** Auto-verification *)

(** A list query that fails is read as the empty list. *)
Lemma or_empty_fails {A} (o : Outcome (option (list A))) :
  fails o = true → or_empty o = [].
Proof. by destruct o as [[l|]|]. Qed.

Lemma getUserByUsername_fails w username :
  fails (api_user_by_username w username) = true →
  getUserByUsername w username = None.
Proof. unfold getUserByUsername. by destruct (api_user_by_username _ _) as [[u|]|]. Qed.

(** Saving the proof changes nothing that auto-verification reads. *)
Lemma autoVerifyTask_after_proof w s f pd p :
  autoVerifyTask w (with_Participants f s) (Participant_with_proof pd p)
  = autoVerifyTask w s p.
Proof. reflexivity. Qed.

Section AutoVerification.
Variable js : Engine.
Variable eth : Ethers.
Variable env : Env.

(** C6, amended: a rejected or empty provider answer is never
    propagated, it is read as an empty answer.  Verification then
    answers unverified, for a channel task provided the other of the
    two channel lists does not name the user either; and a proof
    submission whose auto-verification answers unverified stores the
    proof and leaves the participant PENDING. *)
Theorem auto_verification_conservative
    (w : World) (s : Store) (userId taskId : ObjectId) (p : Participant)
    (task : Task) (user : User) (pd : ProofData) :
  Participant_findOne userId taskId (Participants s) = Some p →
  p_status p = PENDING →
  Tasks s !! p_task p = Some task →
  Users s !! p_user p = Some user →
  let p' := Participant_with_proof pd p in
  (verification_unavailable w task user = true → autoVerifyTask w s p = false)
  ∧ (autoVerifyTask w s p = false →
     exec js eth env w (OpSubmitProof userId taskId (Some pd)) s
     = (json 200 (ProofBody "Proof submitted successfully" p' false),
        with_Participants (Participant_save p') s)
     ∧ Participant_findOne userId taskId
         (Participants (exec js eth env w (OpSubmitProof userId taskId (Some pd)) s).2)
       = Some p'
     ∧ p_status p' = PENDING
     ∧ proofSubmitted p' = true
     ∧ proofData p' = Some pd).
Proof.
  intros Hp Hst Ht Hu p'. split.
  - unfold autoVerifyTask, autoVerifyTask_try, verification_unavailable,
      provider_failure. rewrite Ht, Hu.
    destruct (taskType task); intros Hf.
    + destruct (truthy _); [|done]. cbn.
      unfold verifyUserFollowsUser, getUserFollowing.
      apply orb_true_iff in Hf as [Hf|Hf].
      * by rewrite getUserByUsername_fails.
      * rewrite (or_empty_fails _ Hf). by destruct (getUserByUsername _ _).
    + destruct (truthy _); [|done]. cbn.
      unfold verifyCastLike, getCastLikes. by rewrite (or_empty_fails _ Hf).
    + destruct (truthy _); [|done]. cbn.
      unfold verifyCastRecast, getCastRecasts. by rewrite (or_empty_fails _ Hf).
    + destruct (truthy _); [|done]. cbn.
      unfold verifyChannelMembership. cbn.
      apply orb_true_iff in Hf as [Hf|Hf];
        apply andb_true_iff in Hf as [Hf Hn];
        apply negb_true_iff in Hn; rewrite Hn.
      * unfold getChannelMembers. by rewrite (or_empty_fails _ Hf).
      * unfold getChannelFollowers. rewrite (or_empty_fails _ Hf).
        by rewrite orb_false_r.
  - intros Hv.
    assert (exec js eth env w (OpSubmitProof userId taskId (Some pd)) s
            = (json 200 (ProofBody "Proof submitted successfully" p' false),
               with_Participants (Participant_save p') s)) as Hexec.
    { unfold exec, route, submit_proof. route_cbv. rewrite Hp.
      cbv beta iota zeta. rewrite Hst.
      rewrite bool_decide_eq_true_2 by done. cbn [negb].
      fold p'. unfold p'. by rewrite autoVerifyTask_after_proof, Hv. }
    rewrite Hexec. repeat split; try done.
    cbn [snd with_Participants Participants].
    apply findOne_spec in Hp as Hp'. destruct Hp' as (_ & Hu' & Ht').
    by eapply findOne_save.
Qed.
End AutoVerification.

(** C6 as stated fails on a channel task: the channel-members query is
    rejected, the channel-followers query names bob, and bob is
    verified; his proof submission makes him VERIFIED. *)
Lemma auto_verified_despite_provider_failure :
  Tasks (demo_joined_as JOIN_CHANNEL) !! p_task demo_pending
  = Some (demo_task JOIN_CHANNEL 1)
  ∧ Users (demo_joined_as JOIN_CHANNEL) !! p_user demo_pending = Some demo_bob
  ∧ api_channel_members demo_world_members_down "rocq" = Throws "timeout"
  ∧ provider_failure demo_world_members_down (demo_task JOIN_CHANNEL 1) demo_bob = true
  ∧ autoVerifyTask demo_world_members_down (demo_joined_as JOIN_CHANNEL) demo_pending
    = true
  ∧ (exec demo_js demo_eth demo_env demo_world_members_down
       (OpSubmitProof 1%nat 0%nat (Some demo_proof)) (demo_joined_as JOIN_CHANNEL)).1
    = json 200 (ProofBody "Proof submitted successfully" demo_auto_verified true).
Proof. vm_compute. done. Qed.

Lemma auto_verification_conservative_witness :
  autoVerifyTask demo_world_provider_down demo_joined demo_pending = false
  ∧ exec demo_js demo_eth demo_env demo_world_provider_down
      (OpSubmitProof 1%nat 0%nat (Some demo_proof)) demo_joined
    = (json 200 (ProofBody "Proof submitted successfully"
                   (Participant_with_proof demo_proof demo_pending) false),
       with_Participants
         (Participant_save (Participant_with_proof demo_proof demo_pending))
         demo_joined).
Proof.
  destruct (auto_verification_conservative demo_js demo_eth demo_env
              demo_world_provider_down demo_joined 1%nat 0%nat demo_pending
              (demo_task FOLLOW_USER 1) demo_bob demo_proof)
    as [Hunverified Hsubmit]; try (vm_compute; reflexivity).
  split.
  - apply Hunverified. vm_compute. reflexivity.
  - apply Hsubmit, Hunverified. vm_compute. reflexivity.
Defined.

(** ** The claim-authorization protocol *)

Section ClaimProtocol.
Variable js : Engine.
Variable eth : Ethers.
Variable env : Env.

(** What the claim route answers to a verified, unclaimed participant
    whom the ledger has not paid. *)
Lemma claim_issues_signature w s userId taskId p task user sig :
  Participant_findOne userId taskId (Participants s) = Some p →
  p_status p = VERIFIED →
  claimedAt p = None →
  Tasks s !! p_task p = Some task →
  Users s !! p_user p = Some user →
  hasUserClaimed w (contractTaskId task) (walletAddress user) = Returns false →
  generateClaimSignature eth (contractTaskId task) (walletAddress user)
    (rewardPerParticipant task) = Returns sig →
  exec js eth env w (OpClaim userId taskId) s
  = (json 200
       (ClaimBody "Claim signature generated" sig (contractTaskId task)
          (rewardPerParticipant task) (CONTRACT_ADDRESS env)
          (sponsoredGas_of
             (prepareSponsoredClaim eth env w (CONTRACT_ADDRESS env)
                (contractTaskId task) (rewardPerParticipant task) sig
                (walletAddress user)))),
     with_Participants
       (Participant_save
          (Participant_with_signature sig (rewardPerParticipant task) p)) s).
Proof.
  intros Hp Hst Hat Ht Hu Hc Hsig.
  unfold exec, route, claim. route_cbv. rewrite Hp. cbv beta iota zeta.
  rewrite Hst, Hat. cbn [bool_decide decide_rel negb].
  rewrite bool_decide_eq_true_2 by done.
  rewrite bool_decide_eq_false_2 by (by intros [? ?]).
  cbn [negb]. rewrite Ht, Hu. cbv beta iota zeta. rewrite Hc.
  cbv beta iota zeta. by rewrite Hsig.
Qed.

(** C5: when the ledger already records a claim for the pair, the
    claim request of a verified participant is answered with the
    already-claimed-on-chain error before any signature is computed
    or stored: the response carries no signature and the store, hence
    the participant's status, signature and reward amount, is what it
    was.  This holds whatever the signing library [eth] would do, also
    where it throws: the handler does not get to it. *)
Theorem claim_rejected_when_claimed_on_chain
    (w : World) (s : Store) (userId taskId : ObjectId)
    (p : Participant) (task : Task) (user : User) :
  Participant_findOne userId taskId (Participants s) = Some p →
  p_status p = VERIFIED →
  claimedAt p = None →
  Tasks s !! p_task p = Some task →
  Users s !! p_user p = Some user →
  hasUserClaimed w (contractTaskId task) (walletAddress user) = Returns true →
  exec js eth env w (OpClaim userId taskId) s
  = (json 400 (ErrorBody "Reward already claimed on blockchain"), s).
Proof.
  intros Hp Hst Hat Ht Hu Hc.
  unfold exec, route, claim. route_cbv. rewrite Hp. cbv beta iota zeta.
  rewrite Hst, Hat.
  rewrite bool_decide_eq_true_2 by done.
  rewrite bool_decide_eq_false_2 by (by intros [? ?]).
  cbn [negb]. rewrite Ht, Hu. cbv beta iota zeta. by rewrite Hc.
Qed.

(** C4: a participant that holds a claim signature never gets a
    different one.  In every store that the handlers can produce, a
    further claim request either fails and leaves the store as it
    was, or answers the very signature that is stored and stores it
    again; no request changes the task id, the wallet address or the
    reward that the signature was computed from. *)
Theorem claim_signature_issued_once
    (w : World) (s : Store) (userId taskId : ObjectId) (p : Participant)
    (sig : string) :
  reachable js eth env s →
  Participant_findOne userId taskId (Participants s) = Some p →
  claimSignature p = Some sig →
  let r := exec js eth env w (OpClaim userId taskId) s in
  (400 ≤ code r.1 ∧ r.2 = s)%nat
  ∨ (∃ task msg id amount address gas p',
       Tasks s !! p_task p = Some task
       ∧ r.1 = json 200 (ClaimBody msg sig id amount address gas)
       ∧ id = contractTaskId task
       ∧ amount = rewardPerParticipant task
       ∧ Participant_findOne userId taskId (Participants r.2) = Some p'
       ∧ claimSignature p' = Some sig
       ∧ Tasks r.2 = Tasks s
       ∧ Users r.2 = Users s).
Proof.
  intros Hr Hp Hsig r.
  apply reachable_ok in Hr as (_ & _ & Hs).
  apply findOne_spec in Hp as Hp'. destruct Hp' as (Hin & Hu & Ht).
  destruct (Hs p sig Hin Hsig) as (task & user & Htask & Huser & Hgen).
  subst r. unfold exec, route, claim. route_cbv. rewrite Hp.
  cbv beta iota zeta. rewrite Htask, Huser. cbv beta iota zeta. rewrite Hgen.
  repeat (case_inner; cbv beta iota zeta); cbn [fst snd code];
    try (left; split; [lia|done]).
  right.
  eexists task, _, _, _, _, _,
    (Participant_with_signature sig (rewardPerParticipant task) p).
  repeat split; try done.
  cbn [Participants with_Participants].
  by eapply findOne_save.
Qed.

(** C9, amended: the sponsorship negotiation never stands in the way
    of the signature.  Whatever the paymaster does, an eligible claim
    request is answered 200 with the signature; and when sponsorship
    is switched off, the call data cannot be encoded, or the paymaster
    is unreachable, answers an error or answers without a result, the
    negotiation yields [sponsored: false] and the response carries
    the non-sponsored fallback. *)
Theorem sponsorship_is_additive
    (w : World) (s : Store) (userId taskId : ObjectId) (p : Participant)
    (task : Task) (user : User) (sig : string) :
  Participant_findOne userId taskId (Participants s) = Some p →
  p_status p = VERIFIED →
  claimedAt p = None →
  Tasks s !! p_task p = Some task →
  Users s !! p_user p = Some user →
  hasUserClaimed w (contractTaskId task) (walletAddress user) = Returns false →
  generateClaimSignature eth (contractTaskId task) (walletAddress user)
    (rewardPerParticipant task) = Returns sig →
  let sponsoredData :=
    prepareSponsoredClaim eth env w (CONTRACT_ADDRESS env) (contractTaskId task)
      (rewardPerParticipant task) sig (walletAddress user) in
  (exec js eth env w (OpClaim userId taskId) s).1
  = json 200
      (ClaimBody "Claim signature generated" sig (contractTaskId task)
         (rewardPerParticipant task) (CONTRACT_ADDRESS env)
         (sponsoredGas_of sponsoredData))
  ∧ (enabled env = false
     ∨ (∃ e, encodeFunctionData_claimReward eth (contractTaskId task)
               (rewardPerParticipant task) sig = Throws e)
     ∨ (∃ callData,
          encodeFunctionData_claimReward eth (contractTaskId task)
            (rewardPerParticipant task) sig = Returns callData
          ∧ paymaster_unavailable
              (paymaster_post w
                 (createUserOperation (walletAddress user) callData)) = true)
     → sponsored sponsoredData = false
       ∧ ∃ message,
           sponsoredGas_of sponsoredData
           = GasDisabled message "You will need ETH for gas fees").
Proof.
  intros Hp Hst Hat Ht Hu Hc Hsig sponsoredData. split.
  - by erewrite claim_issues_signature.
  - intros Hun.
    assert (sponsored sponsoredData = false) as Hno.
    { subst sponsoredData. unfold prepareSponsoredClaim, getPaymasterAndData.
      destruct (enabled env) eqn:Hen; [|done]. cbn [negb].
      destruct (encodeFunctionData_claimReward _ _ _ _) as [callData|e]; [|done].
      destruct Hun as [H|[[e H]|(callData' & [= <-] & H)]]; [done..|].
      unfold paymaster_unavailable in H.
      destruct (paymaster_post _ _) as [data|]; [|done].
      apply orb_true_iff in H as [H|H].
      - by rewrite H.
      - apply bool_decide_eq_true in H. rewrite H. by destruct (bool_decide _). }
    split; [done|].
    unfold sponsoredGas_of. rewrite Hno. by eexists.
Qed.
End ClaimProtocol.

(** C9 as stated fails on a malformed response: the paymaster answers
    a result without any of the expected fields, the negotiation yields
    [sponsored: true] and the claim response announces sponsored gas
    with a user operation whose gas fields are undefined. *)
Lemma sponsored_on_malformed_response :
  let userOp := createUserOperation "0xb0b" "claimReward:7" in
  let sig := "signed:7/0xb0b/1000000000000000" in
  malformed_response (paymaster_post demo_world_paymaster_empty_result userOp) = true
  ∧ sponsored
      (prepareSponsoredClaim demo_eth demo_env_sponsored
         demo_world_paymaster_empty_result (Some "0xc0") (Some 7)
         "1000000000000000" sig "0xb0b") = true
  ∧ ∃ userOperation,
      (exec demo_js demo_eth demo_env_sponsored demo_world_paymaster_empty_result
         (OpClaim 1%nat 0%nat) demo_verified).1
      = json 200
          (ClaimBody "Claim signature generated" sig (Some 7) "1000000000000000"
             (Some "0xc0")
             (GasEnabled (Some userOperation)
                (Some "0x5ff137d4b0fdcd49dca30c7cf57e578a026d2789")
                "Gas fees sponsored! No ETH needed for this transaction."))
      ∧ callGasLimit userOperation = None
      ∧ paymasterAndData userOperation = None.
Proof. vm_compute. repeat split. eexists. repeat split. Qed.

(** ** The theorems at work on the demo deployment *)

Lemma demo_signed_reachable : reachable demo_js demo_eth demo_env demo_signed.
Proof.
  exists demo_requests_signed.
  vm_compute. reflexivity.
Defined.

Lemma claim_signature_issued_once_witness :
  let r := exec demo_js demo_eth demo_env demo_world (OpClaim 1%nat 0%nat) demo_signed in
  r.1 = json 200
          (ClaimBody "Claim signature generated" "signed:7/0xb0b/1000000000000000"
             (Some 7) "1000000000000000" (Some "0xc0")
             (GasDisabled "Sponsored gas not enabled" "You will need ETH for gas fees"))
  ∧ ((400 ≤ code r.1 ∧ r.2 = demo_signed)%nat
     ∨ ∃ task msg id amount address gas p',
         Tasks demo_signed !! 0%nat = Some task
         ∧ r.1 = json 200 (ClaimBody msg "signed:7/0xb0b/1000000000000000"
                             id amount address gas)
         ∧ id = contractTaskId task
         ∧ amount = rewardPerParticipant task
         ∧ Participant_findOne 1%nat 0%nat (Participants r.2) = Some p'
         ∧ claimSignature p' = Some "signed:7/0xb0b/1000000000000000"
         ∧ Tasks r.2 = Tasks demo_signed
         ∧ Users r.2 = Users demo_signed).
Proof.
  split; [vm_compute; reflexivity|].
  apply (claim_signature_issued_once demo_js demo_eth demo_env demo_world demo_signed
           1%nat 0%nat
           (Participant_with_signature "signed:7/0xb0b/1000000000000000"
              "1000000000000000" demo_auto_verified)
           "signed:7/0xb0b/1000000000000000").
  - apply demo_signed_reachable.
  - vm_compute. reflexivity.
  - vm_compute. reflexivity.
Defined.

Lemma claim_rejected_when_claimed_on_chain_witness :
  exec demo_js demo_eth demo_env demo_world_claimed_on_chain (OpClaim 1%nat 0%nat)
    demo_verified
  = (json 400 (ErrorBody "Reward already claimed on blockchain"), demo_verified).
Proof.
  apply (claim_rejected_when_claimed_on_chain demo_js demo_eth demo_env
           demo_world_claimed_on_chain demo_verified 1%nat 0%nat
           demo_auto_verified (demo_task FOLLOW_USER 1) demo_bob);
    vm_compute; reflexivity.
Defined.

Lemma demo_funded_capacity : capacity_ok demo_funded.
Proof.
  apply (run_capacity demo_js demo_eth demo_env
           (demo_requests_registered
            ++ [(demo_world, OpCreate 0%nat (demo_create FOLLOW_USER 1 None))])
           empty_store).
  apply (empty_store_ok demo_eth).
Defined.

Lemma demo_joined_capacity : capacity_ok demo_joined.
Proof.
  apply (run_capacity demo_js demo_eth demo_env
           (demo_requests_registered ++ demo_requests_joined FOLLOW_USER)
           empty_store).
  apply (empty_store_ok demo_eth).
Defined.

Lemma join_guards_capacity_witness :
  (* the task is full: carol is refused *)
  (let r := exec demo_js demo_eth demo_env demo_world (OpJoin 2%nat 0%nat) demo_joined in
   code r.1 = 400%nat ∧ r.2 = demo_joined)
  (* a slot is free: bob joins *)
  ∧ (let r := exec demo_js demo_eth demo_env demo_world (OpJoin 1%nat 0%nat) demo_funded in
     (∃ p, Participants r.2 = Participants demo_funded ++ [p]
           ∧ p_user p = 1%nat ∧ p_task p = 0%nat ∧ p_status p = PENDING
           ∧ Tasks r.2 = <[0%nat := Task_with_currentParticipants (0 + 1)
                                       (demo_task FOLLOW_USER 0)]> (Tasks demo_funded)
           ∧ Users r.2 = Users demo_funded)
     ∧ ∀ l, capacity_ok (run demo_js demo_eth demo_env l r.2)).
Proof.
  split.
  - apply (join_guards_capacity demo_js demo_eth demo_env demo_world demo_joined
             2%nat 0%nat (demo_task FOLLOW_USER 1)).
    + vm_compute. reflexivity.
    + apply demo_joined_capacity.
    + right. left. vm_compute. discriminate.
  - destruct (join_guards_capacity demo_js demo_eth demo_env demo_world demo_funded
                1%nat 0%nat (demo_task FOLLOW_USER 0))
      as (_ & Hjoined & Hcapacity).
    + vm_compute. reflexivity.
    + apply demo_funded_capacity.
    + split; [|exact Hcapacity].
      apply Hjoined. vm_compute. reflexivity.
Defined.

Lemma create_task_escrow_atomic_witness :
  exec demo_js demo_eth demo_env demo_world_escrow_fails
    (OpCreate 0%nat (demo_create LIKE_CAST 3 None)) demo_registered
  = (json 500 (ErrorBody "Failed to create task on blockchain"), demo_registered).
Proof.
  apply (create_task_escrow_atomic demo_js demo_eth demo_env demo_world_escrow_fails
           demo_registered 0%nat (demo_create LIKE_CAST 3 None)
           "Bounty" "Do the thing" LIKE_CAST 3 1000 (demo_target LIKE_CAST)).
  - vm_compute. reflexivity.
  - vm_compute. reflexivity.
  - vm_compute. reflexivity.
  - vm_compute. discriminate.
  - vm_compute. lia.
  - vm_compute. lia.
Defined.

Lemma create_task_reward_and_funding_witness :
  ∃ id task n r,
    c_maxParticipants (demo_create RECAST_CAST 3 (Some "5")) = Some n
    ∧ 1 ≤ n ≤ 1000
    ∧ Tasks demo_registered !! id = None
    ∧ Tasks (exec demo_js demo_eth demo_env demo_world
               (OpCreate 0%nat (demo_create RECAST_CAST 3 (Some "5")))
               demo_registered).2 !! id = Some task
    ∧ body (exec demo_js demo_eth demo_env demo_world
              (OpCreate 0%nat (demo_create RECAST_CAST 3 (Some "5")))
              demo_registered).1
      = CreatedBody "Task created successfully on Base Sepolia" (Some task) r
    ∧ maxParticipants task = n
    ∧ rewardPerParticipant task = "1000000000000000"
    ∧ totalFunding task = BigInt.toString (1000000000000000 * n)
    ∧ BigInt.parse (totalFunding task) = Some (1000000000000000 * n).
Proof.
  apply (create_task_reward_and_funding demo_js demo_eth demo_env demo_world
           demo_registered 0%nat (demo_create RECAST_CAST 3 (Some "5"))).
  vm_compute. reflexivity.
Defined.

(** The funding of three participants, as it is stored. *)
Example create_task_funding_of_three :
  totalFunding <$>
    Tasks (exec demo_js demo_eth demo_env demo_world
             (OpCreate 0%nat (demo_create RECAST_CAST 3 (Some "5")))
             demo_registered).2 !! 0%nat
  = Some "3000000000000000".
Proof. vm_compute. reflexivity. Qed.

Lemma sponsorship_is_additive_witness :
  (exec demo_js demo_eth demo_env_sponsored demo_world (OpClaim 1%nat 0%nat) demo_verified).1
  = json 200
      (ClaimBody "Claim signature generated" "signed:7/0xb0b/1000000000000000"
         (Some 7) "1000000000000000" (Some "0xc0")
         (sponsoredGas_of
            (prepareSponsoredClaim demo_eth demo_env_sponsored demo_world
               (Some "0xc0") (Some 7) "1000000000000000"
               "signed:7/0xb0b/1000000000000000" "0xb0b")))
  ∧ sponsored
      (prepareSponsoredClaim demo_eth demo_env_sponsored demo_world
         (Some "0xc0") (Some 7) "1000000000000000"
         "signed:7/0xb0b/1000000000000000" "0xb0b") = false
  ∧ ∃ message,
      sponsoredGas_of
        (prepareSponsoredClaim demo_eth demo_env_sponsored demo_world
           (Some "0xc0") (Some 7) "1000000000000000"
           "signed:7/0xb0b/1000000000000000" "0xb0b")
      = GasDisabled message "You will need ETH for gas fees".
Proof.
  destruct (sponsorship_is_additive demo_js demo_eth demo_env_sponsored demo_world
              demo_verified 1%nat 0%nat demo_auto_verified
              (demo_task FOLLOW_USER 1) demo_bob
              "signed:7/0xb0b/1000000000000000")
    as [Hclaim Hfallback]; try (vm_compute; reflexivity).
  split; [exact Hclaim|].
  apply Hfallback. right. right. exists "claimReward:7".
  split; vm_compute; reflexivity.
Defined.

(** * Beyond the claims *)

(** ** Every handler as a sequence of effects *)

Lemma existsb_false_elem {A} (f : A → bool) (l : list A) (x : A) :
  existsb f l = false → x ∈ l → f x = false.
Proof.
  intros H Hin. destruct (f x) eqn:E; [|done].
  assert (existsb f l = true) as H'; [|congruence].
  apply existsb_exists. exists x. by rewrite <- list_elem_of_In.
Qed.

Lemma findOne_None (u t : ObjectId) (l : list Participant) (p : Participant) :
  Participant_findOne u t l = None → p ∈ l → participant_key p ≠ (u, t).
Proof.
  unfold Participant_findOne, participant_key. intros H Hin [= Hu Ht].
  apply list_elem_of_In in Hin.
  pose proof (find_none _ _ H _ Hin) as Hf. cbn in Hf.
  by rewrite Hu, Ht, !bool_decide_eq_true_2 in Hf.
Qed.

Lemma not_is_Some_findOne (u t : ObjectId) (l : list Participant) :
  bool_decide (is_Some (Participant_findOne u t l)) = false →
  Participant_findOne u t l = None.
Proof.
  intros H. apply bool_decide_eq_false in H.
  destruct (Participant_findOne u t l); [|done]. by destruct H.
Qed.

Section Effects.
Variable js : Engine.
Variable eth : Ethers.
Variable env : Env.

Lemma register_effects w req s :
  rtc effect s (exec js eth env w (OpRegister req) s).2.
Proof.
  route_run; cbn [snd]; try reflexivity.
  apply rtc_once, effect_user_new; [apply fresh_user_id| |reflexivity].
  intros j u' Hj Hsame.
  match goal with H : existsb _ _ = false |- _ =>
    apply (existsb_false_elem _ _ (j, u')) in H; [|by apply elem_of_map_to_list]
  end.
  cbn in *. repeat (apply orb_false_iff in Heqb0 as [Heqb0 ?]).
  bool_norm. apply Z.eqb_neq in H. unfold same_identity in Hsame. cbn in Hsame.
  destruct Hsame as [?|[?|[?|?]]]; congruence.
Qed.

Lemma create_effects w u req s :
  rtc effect s (exec js eth env w (OpCreate u req) s).2.
Proof.
  unfold exec, route, create_task.
  destruct (create_validated req) as [[[[[ti de] ty] n] ex]|] eqn:Hv;
    [|route_run; reflexivity].
  apply create_validated_bounds in Hv as [_ Hn].
  route_run; cbn [snd]; try reflexivity.
  - rewrite with_Tasks_insert_insert.
    assert (z = 1000000000000000) as -> by (vm_compute in Heqo1; congruence).
    eapply rtc_r; [|apply effect_user_stats; intros; repeat split; reflexivity].
    apply rtc_once, effect_task_new;
      [apply fresh_task_id| |reflexivity|reflexivity].
    split; [by left|]. split; [by eexists|]. split; [by eexists|].
    split; [reflexivity|]. split; [cbn; lia|reflexivity].
  - rewrite with_Tasks_delete_insert by apply fresh_task_id. reflexivity.
Qed.

Lemma update_effects w u id req s :
  rtc effect s (exec js eth env w (OpUpdate u id req) s).2.
Proof.
  route_run; cbn [snd]; try reflexivity.
  all: bool_norm; apply rtc_once; by eapply effect_task_draft.
Qed.

Lemma cancel_effects w u id s :
  rtc effect s (exec js eth env w (OpCancel u id) s).2.
Proof.
  route_run; cbn [snd]; try reflexivity.
  apply rtc_once. by apply effect_task_cancelled.
Qed.

Lemma join_effects w u t s :
  rtc effect s (exec js eth env w (OpJoin u t) s).2.
Proof.
  route_run; cbn [snd]; try reflexivity.
  all: apply rtc_once, effect_joined;
    [done | by bool_norm | bool_norm; lia | by apply not_is_Some_findOne].
Qed.

Lemma submit_proof_effects w u t pd s :
  rtc effect s (exec js eth env w (OpSubmitProof u t pd) s).2.
Proof.
  route_run; cbn [snd]; try reflexivity;
    match goal with
    | H : Participant_findOne _ _ _ = Some _ |- _ =>
        apply findOne_spec in H as (Hin & Hu & Ht)
    end.
  - eapply rtc_r;
      [|apply effect_participant with (p := Participant_with_proof p p0); auto;
        by eapply elem_of_save_self].
    apply rtc_once. by apply effect_participant with (p := p0); auto.
  - apply rtc_once. by apply effect_participant with (p := p0); auto.
Qed.

Lemma claim_effects w u t s :
  rtc effect s (exec js eth env w (OpClaim u t) s).2.
Proof.
  route_run; cbn [snd]; try reflexivity;
    match goal with
    | H : Participant_findOne _ _ _ = Some _ |- _ =>
        apply findOne_spec in H as (Hin & Hu & Ht)
    end.
  apply rtc_once. apply effect_participant with (p := p); auto.
  right. eexists. by repeat split.
Qed.

Lemma confirm_claim_effects w u t tx s :
  rtc effect s (exec js eth env w (OpConfirmClaim u t tx) s).2.
Proof.
  route_run; cbn [snd]; try reflexivity;
    match goal with
    | H : Participant_findOne _ _ _ = Some _ |- _ =>
        apply findOne_spec in H as (Hin & Hu & Ht)
    end;
    try (apply rtc_once; by apply effect_participant with (p := p); auto).
  eapply rtc_r; [|apply effect_user_stats; intros; repeat split; reflexivity].
  apply rtc_once. by apply effect_participant with (p := p); auto.
Qed.

Lemma verify_effects w u pid approved notes s :
  rtc effect s (exec js eth env w (OpVerify u pid approved notes) s).2.
Proof.
  route_run; cbn [snd]; try reflexivity;
    match goal with
    | H : Participant_findById _ _ = Some _ |- _ =>
        apply findById_spec in H as (Hin & Hid)
    end.
  all: apply rtc_once; by apply effect_participant with (p := p); auto.
Qed.

Lemma re_verify_effects w u pid s :
  rtc effect s (exec js eth env w (OpReVerify u pid) s).2.
Proof.
  route_run; cbn [snd]; try reflexivity;
    match goal with
    | H : Participant_findById _ _ = Some _ |- _ =>
        apply findById_spec in H as (Hin & Hid)
    end.
  all: apply rtc_once; by apply effect_participant with (p := p); auto.
Qed.

Lemma exec_effects w op s : rtc effect s (exec js eth env w op s).2.
Proof.
  destruct op.
  - apply register_effects.
  - apply create_effects.
  - apply update_effects.
  - apply cancel_effects.
  - apply join_effects.
  - apply submit_proof_effects.
  - apply claim_effects.
  - apply confirm_claim_effects.
  - apply verify_effects.
  - apply re_verify_effects.
Qed.
End Effects.

(** ** Invariants of the effects *)

Lemma NoDup_fmap_elem_inj {A B} (f : A → B) (l : list A) (x y : A) :
  NoDup (f <$> l) → x ∈ l → y ∈ l → f x = f y → x = y.
Proof.
  induction l as [|a l IH]; [by intros _ ?%elem_of_nil|].
  rewrite fmap_cons, NoDup_cons.
  intros [Hnotin Hnd] Hx Hy Hf.
  apply elem_of_cons in Hx as [->|Hx], Hy as [->|Hy]; auto.
  - exfalso. apply Hnotin. rewrite Hf. by apply list_elem_of_fmap_2.
  - exfalso. apply Hnotin. rewrite <- Hf. by apply list_elem_of_fmap_2.
Qed.

(** With distinct ids, saving a document touches nothing that the
    document itself keeps. *)
Lemma save_fmap {K} (f : Participant → K) (l : list Participant)
    (p p' : Participant) :
  NoDup (p_id <$> l) → p ∈ l → p_id p' = p_id p → f p' = f p →
  f <$> Participant_save p' l = f <$> l.
Proof.
  intros Hnd Hin Hid Hf. unfold Participant_save.
  rewrite <- list_fmap_compose. apply list_fmap_ext.
  intros i q Hq. cbn. case_bool_decide as Hq'; [|done].
  assert (q = p) as ->; [|done].
  eapply NoDup_fmap_elem_inj; [done| |done|congruence].
  by eapply list_elem_of_lookup_2.
Qed.

Lemma joined_count_app (id : ObjectId) (l : list Participant) (p : Participant) :
  joined_count id (l ++ [p])
  = joined_count id l + (if bool_decide (p_task p = id) then 1 else 0).
Proof.
  unfold joined_count. rewrite fmap_app, filter_app, length_app.
  change (p_task <$> [p]) with [p_task p].
  rewrite filter_cons, filter_nil.
  case_decide; case_bool_decide; try done; cbn [length]; lia.
Qed.

Lemma joined_count_none (id : ObjectId) (l : list Participant) :
  (∀ p, p ∈ l → p_task p ≠ id) → joined_count id l = 0.
Proof.
  intros H. unfold joined_count.
  induction l as [|q l IH]; [done|].
  rewrite fmap_cons, filter_cons. case_decide as Hq.
  - exfalso. eapply H; [|done]. apply elem_of_cons. by left.
  - apply IH. intros p Hp. apply H, elem_of_cons. by right.
Qed.

Lemma task_funded_not_draft (t : Task) : task_funded t → t_status t ≠ DRAFT.
Proof. intros ([H|H] & _); congruence. Qed.

Lemma effect_tasks_funded s s' : effect s s' → tasks_funded s → tasks_funded s'.
Proof.
  unfold tasks_funded.
  intros He Hf; destruct He as [| | id t Hnew Ht _ _ | id t t' Ht Hd | id t Ht
                                | id t u Ht _ _ _ |]; cbn; try done; intros id' x.
  - rewrite lookup_insert. case_decide; [|by apply Hf]. by intros [= <-].
  - by apply Hf, task_funded_not_draft in Ht.
  - rewrite lookup_insert. case_decide; [|by apply Hf]. intros [= <-].
    destruct (Hf _ _ Ht) as (_ & ? & ? & ? & ? & ?).
    split; [by right|]. repeat split; cbn; auto; lia.
  - rewrite lookup_insert. case_decide; [|by apply Hf]. intros [= <-].
    by apply (Hf _ _ Ht).
Qed.

Lemma effect_participants_unique s s' :
  effect s s' → participants_unique s → participants_unique s'.
Proof.
  unfold participants_unique.
  intros He [Hid Hkey];
    destruct He as [| | | | | id t u _ _ _ Hnone | p p' Hin Hi Hu Ht _];
    cbn; try done.
  - rewrite !fmap_app. cbn. split; apply NoDup_app; repeat split; try done.
    + intros x Hx ->%list_elem_of_singleton. by apply infinite_is_fresh in Hx.
    + apply NoDup_singleton.
    + intros k Hk ->%list_elem_of_singleton.
      apply list_elem_of_fmap in Hk as (q & Hq & Hin).
      by eapply findOne_None.
    + apply NoDup_singleton.
  - rewrite !(save_fmap _ _ p p'); try done.
    unfold participant_key. by rewrite Hu, Ht.
Qed.

Lemma effect_counters_exact s s' :
  effect s s' → tasks_funded s → participants_unique s →
  counters_exact s → counters_exact s'.
Proof.
  unfold counters_exact.
  intros He Hf [Hid _] [Href Hcount];
    destruct He as [| | id t Hnew _ _ H0 | id t t' Ht Hd | id t Ht
                   | id t u Ht _ _ _ | p p' Hin Hi Hu Hpt _];
    cbn; try done.
  - split.
    + intros p Hp. rewrite lookup_insert_is_Some. right.
      split; [|by apply Href]. intros ->. destruct (Href _ Hp). congruence.
    + intros id' x. rewrite lookup_insert. case_decide as Hd; [|by apply Hcount].
      intros [= <-]. subst id'. rewrite H0. symmetry. apply joined_count_none.
      intros p Hp Hp'. destruct (Href _ Hp). congruence.
  - by apply Hf, task_funded_not_draft in Ht.
  - split.
    + intros p Hp. rewrite lookup_insert_is_Some'. right. by apply Href.
    + intros id' x. rewrite lookup_insert. case_decide as Hd; [|by apply Hcount].
      intros [= <-]. subst id'. exact (Hcount _ _ Ht).
  - split.
    + intros p [Hp| ->%list_elem_of_singleton]%elem_of_app.
      * rewrite lookup_insert_is_Some'. right. by apply Href.
      * cbn. rewrite lookup_insert_eq. by eexists.
    + intros id' x. rewrite joined_count_app. cbn.
      rewrite lookup_insert. case_decide as Hd.
      * intros [= <-]. subst id'. cbn.
        rewrite bool_decide_eq_true_2 by done. by rewrite (Hcount _ _ Ht).
      * intros Hx. rewrite bool_decide_eq_false_2 by done.
        rewrite (Hcount _ _ Hx). lia.
  - split.
    + intros q [->|Hq]%elem_of_save; [|by apply Href].
      rewrite Hpt. by apply Href.
    + intros id' x Hx. unfold joined_count.
      rewrite (save_fmap _ _ p p'); try done. by apply Hcount.
Qed.

Lemma same_identity_fields (u1 u2 v1 v2 : User) :
  email u1 = email u2 → warpcastUsername u1 = warpcastUsername u2 →
  walletAddress u1 = walletAddress u2 → fid u1 = fid u2 →
  email v1 = email v2 → warpcastUsername v1 = warpcastUsername v2 →
  walletAddress v1 = walletAddress v2 → fid v1 = fid v2 →
  same_identity u1 v1 → same_identity u2 v2.
Proof.
  unfold same_identity. intros ? ? ? ? ? ? ? ? [?|[?|[?|?]]].
  - left. congruence.
  - right. left. congruence.
  - right. right. left. congruence.
  - right. right. right. congruence.
Qed.

Lemma same_identity_sym (u v : User) : same_identity u v → same_identity v u.
Proof.
  unfold same_identity. intros [?|[?|[?|?]]]; auto.
Qed.

Lemma lookup_alter_identity (f : User → User) (id i : nat) (m : gmap nat User)
    (x : User) :
  (∀ u, email (f u) = email u ∧ warpcastUsername (f u) = warpcastUsername u
        ∧ walletAddress (f u) = walletAddress u ∧ fid (f u) = fid u) →
  alter f id m !! i = Some x →
  ∃ x0, m !! i = Some x0
        ∧ email x = email x0 ∧ warpcastUsername x = warpcastUsername x0
        ∧ walletAddress x = walletAddress x0 ∧ fid x = fid x0.
Proof.
  intros Hf. rewrite lookup_alter. destruct (decide (id = i)) as [->|_].
  - destruct (m !! i) as [x0|]; [|done]. intros [= <-].
    exists x0. split; [done|]. apply Hf.
  - intros Hx. exists x. by repeat split.
Qed.

Lemma effect_users_unique s s' : effect s s' → users_unique s → users_unique s'.
Proof.
  unfold users_unique.
  intros He Hu; destruct He as [id u Hnew Hfresh _ | id f Hf _ | | | | |];
    cbn; try done; intros i j x y.
  - rewrite !lookup_insert.
    destruct (decide (id = i)) as [Hi|Hi], (decide (id = j)) as [Hj|Hj];
      [congruence| | |by apply Hu].
    + intros [= <-] Hy Hs. exfalso. by apply (Hfresh _ _ Hy), same_identity_sym.
    + intros Hx [= <-] Hs. exfalso. by apply (Hfresh _ _ Hx).
  - intros (x0 & Hx0 & ? & ? & ? & ?)%(lookup_alter_identity _ _ _ _ _ Hf).
    intros (y0 & Hy0 & ? & ? & ? & ?)%(lookup_alter_identity _ _ _ _ _ Hf).
    intros Hs. apply (Hu _ _ _ _ Hx0 Hy0). by eapply same_identity_fields.
Qed.

Lemma effect_rewards_snapshot s s' :
  effect s s' → tasks_funded s → counters_exact s →
  rewards_snapshot s → rewards_snapshot s'.
Proof.
  unfold rewards_snapshot.
  intros He Hf [Href _] Hr;
    destruct He as [| | id t Hnew _ _ _ | id t t' Ht Hd | id t Ht
                   | id t u Ht _ _ _ | p p' Hin Hi Hu Hpt Hsig];
    cbn; try done.
  - intros p Hp. specialize (Hr _ Hp). destruct (claimSignature p); [|done].
    destruct Hr as (task & Htask & ?). exists task.
    rewrite lookup_insert_ne; [done|]. congruence.
  - by apply Hf, task_funded_not_draft in Ht.
  - intros p Hp. specialize (Hr _ Hp). destruct (claimSignature p); [|done].
    destruct Hr as (task & Htask & ?).
    destruct (decide (id = p_task p)) as [->|Hne].
    + eexists. rewrite lookup_insert_eq. split; [done|]. cbn. congruence.
    + exists task. by rewrite lookup_insert_ne.
  - intros p [Hp| ->%list_elem_of_singleton]%elem_of_app; [|done].
    specialize (Hr _ Hp). destruct (claimSignature p); [|done].
    destruct Hr as (task & Htask & ?).
    destruct (decide (id = p_task p)) as [->|Hne].
    + eexists. rewrite lookup_insert_eq. split; [done|]. cbn. congruence.
    + exists task. by rewrite lookup_insert_ne.
  - intros q [->|Hq]%elem_of_save; [|by apply Hr].
    specialize (Hr _ Hin).
    destruct Hsig as [[Hs Ha]|(task & Htask & [sig Hs] & Ha)].
    + rewrite Hs, Ha, Hpt. done.
    + rewrite Hs, Hpt. by exists task.
Qed.

Lemma effect_users_unverified s s' :
  effect s s' → users_unverified s → users_unverified s'.
Proof.
  unfold users_unverified.
  intros He Hu; destruct He as [id u Hnew _ Hv | id f _ Hf | | | | |];
    cbn; try done; intros i x.
  - rewrite lookup_insert. case_decide; [|by apply Hu]. by intros [= <-].
  - rewrite lookup_alter. case_decide; [|by apply Hu].
    intros Hx. destruct (Users s !! id) as [x0|] eqn:E; cbn in Hx; [|done].
    injection Hx as <-. rewrite Hf. by eapply Hu.
Qed.

Lemma empty_store_wf : store_wf empty_store.
Proof.
  repeat split; cbn; try apply NoDup_nil_2; try done;
    try (by intros ? ? ?%lookup_empty_Some);
    try (by intros ? ?%elem_of_nil).
Qed.

Lemma effects_wf s s' : rtc effect s s' → store_wf s → store_wf s'.
Proof.
  induction 1 as [|s s1 s2 He _ IH]; [done|].
  intros (Hf & Hp & Hc & Hu & Hr & Hv). apply IH.
  split; [|split; [|split; [|split; [|split]]]].
  - by eapply effect_tasks_funded.
  - by eapply effect_participants_unique.
  - by eapply effect_counters_exact.
  - by eapply effect_users_unique.
  - by eapply effect_rewards_snapshot.
  - by eapply effect_users_unverified.
Qed.

Lemma run_effects js eth env l s : rtc effect s (run js eth env l s).
Proof.
  revert s. induction l as [|[w op] l IH]; intros s; [done|].
  cbn. etrans; [apply exec_effects|apply IH].
Qed.

Lemma reachable_wf js eth env s : reachable js eth env s → store_wf s.
Proof. intros [l ->]. eapply effects_wf; [apply run_effects|apply empty_store_wf]. Qed.

(** ** What the stores that the handlers produce look like *)

Section Reachable.
Variable js : Engine.
Variable eth : Ethers.
Variable env : Env.

(** X1: a task that is open to participants has its escrow on
    record: no stored task is COMPLETED, and every stored task that is
    ACTIVE carries the task id and the transaction hash of its
    escrow.  (ACTIVE is written by the creation route alone, together
    with the two, and no route clears them.) *)
Theorem reachable_task_escrowed (s : Store) (id : ObjectId) (t : Task) :
  reachable js eth env s →
  Tasks s !! id = Some t →
  t_status t ≠ COMPLETED
  ∧ (t_status t = ACTIVE →
     is_Some (contractTaskId t) ∧ is_Some (t_transactionHash t)).
Proof.
  intros Hr Ht. apply reachable_wf in Hr as (Hf & _).
  destruct (Hf _ _ Ht) as (Hst & ? & ? & _).
  split; [|done]. destruct Hst; congruence.
Qed.

(** X2: the funding of a task is never recomputed: whatever requests
    were served since its creation, the stored reward is the fixed
    reward, the participant limit is between 1 and 1000, and the
    stored total funding reads back as their integer product. *)
Theorem reachable_task_funding (s : Store) (id : ObjectId) (t : Task) :
  reachable js eth env s →
  Tasks s !! id = Some t →
  BigInt.parse (rewardPerParticipant t) = Some 1000000000000000
  ∧ 1 ≤ maxParticipants t ≤ 1000
  ∧ BigInt.parse (totalFunding t) = Some (1000000000000000 * maxParticipants t).
Proof.
  intros Hr Ht. apply reachable_wf in Hr as (Hf & _).
  destruct (Hf _ _ Ht) as (_ & _ & _ & -> & Hb & ->).
  split; [done|]. split; [done|]. apply BigInt_parse_toString.
Qed.

(** X4: the counter of a task never runs ahead of the participant
    documents: every participant document refers to a stored task whose
    escrow is on record, and [currentParticipants] of a task is at
    least 0 and at most the number of participant documents that
    refer to it.  (A join stores its document before it writes the
    counter, and no route deletes a document or a task that was
    ACTIVE.) *)
Theorem reachable_counter_bounded (s : Store) :
  reachable js eth env s →
  (∀ p, p ∈ Participants s →
     ∃ t, Tasks s !! p_task p = Some t
          ∧ t_status t ≠ DRAFT
          ∧ is_Some (contractTaskId t))
  ∧ (∀ id t, Tasks s !! id = Some t →
       0 ≤ currentParticipants t ≤ joined_count id (Participants s)).
Proof.
  intros Hr. apply reachable_wf in Hr as (Hf & _ & [Href Hc] & _).
  split.
  - intros p Hp. destruct (Href _ Hp) as [t Ht]. exists t.
    split; [done|]. pose proof (Hf _ _ Ht) as Hfunded.
    split; [by apply task_funded_not_draft|]. by destruct Hfunded as (_ & ? & _).
  - intros id t Ht. rewrite (Hc _ _ Ht). unfold joined_count. lia.
Qed.

(** X5: one participation per user and task: two participant
    documents of the same user in the same task, or with the same id,
    are one document. *)
Theorem reachable_participant_unique (s : Store) (p q : Participant) :
  reachable js eth env s →
  p ∈ Participants s →
  q ∈ Participants s →
  (p_user p = p_user q ∧ p_task p = p_task q) ∨ p_id p = p_id q →
  p = q.
Proof.
  intros Hr Hp Hq Hsame. apply reachable_wf in Hr as (_ & [Hid Hkey] & _).
  destruct Hsame as [[Hu Ht]|Hi].
  - eapply (NoDup_fmap_elem_inj participant_key); try done.
    unfold participant_key. by rewrite Hu, Ht.
  - by eapply (NoDup_fmap_elem_inj p_id).
Qed.

(** X6: one account per identity: two user documents that share an
    email, a username, a wallet address or a Farcaster id are one
    document. *)
Theorem reachable_user_unique (s : Store) (i j : ObjectId) (u u' : User) :
  reachable js eth env s →
  Users s !! i = Some u →
  Users s !! j = Some u' →
  same_identity u u' →
  i = j.
Proof.
  intros Hr. apply reachable_wf in Hr as (_ & _ & _ & Hu & _). apply Hu.
Qed.

(** X7: the reward amount of a participant is a snapshot taken with
    the claim signature: it is ["0"] as long as no signature is stored
    and the fixed reward from then on. *)
Theorem reachable_reward_snapshot (s : Store) (p : Participant) :
  reachable js eth env s →
  p ∈ Participants s →
  rewardAmount p
  = match claimSignature p with
    | Some _ => "1000000000000000"
    | None => "0"
    end.
Proof.
  intros Hr Hp. apply reachable_wf in Hr as (Hf & _ & _ & _ & Hs & _).
  specialize (Hs _ Hp). destruct (claimSignature p); [|done].
  destruct Hs as (task & Htask & ->).
  by destruct (Hf _ _ Htask) as (_ & _ & _ & -> & _).
Qed.


End Reachable.

(** ** What single requests do *)

Lemma findOne_app_new (u t : ObjectId) (l : list Participant) (id : ObjectId) :
  Participant_findOne u t l = None →
  Participant_findOne u t (l ++ [new_participant id u t])
  = Some (new_participant id u t).
Proof.
  unfold Participant_findOne. induction l as [|q l IH]; cbn [find app].
  - intros _. cbn [p_user p_task new_participant].
    by rewrite !bool_decide_eq_true_2.
  - destruct (bool_decide (p_user q = u) && bool_decide (p_task q = t)); [done|].
    apply IH.
Qed.

Lemma findById_save (i : ObjectId) (l : list Participant) (p p' : Participant) :
  Participant_findById i l = Some p →
  p_id p' = p_id p →
  Participant_findById i (Participant_save p' l) = Some p'.
Proof.
  intros Hp Hid. apply findById_spec in Hp as Hp'. destruct Hp' as (_ & Hi).
  unfold Participant_findById, Participant_save in *.
  induction l as [|q l IH]; [done|].
  rewrite fmap_cons. cbn [find] in *.
  destruct (bool_decide (p_id q = i)) eqn:Hq.
  - injection Hp as ->. rewrite Hid.
    rewrite (bool_decide_eq_true_2 (p_id p = p_id p)) by done.
    by rewrite Hid, Hq.
  - destruct (bool_decide (p_id q = p_id p')) eqn:Hq'.
    + apply bool_decide_eq_true in Hq'. apply bool_decide_eq_false in Hq.
      congruence.
    + rewrite Hq. by apply IH.
Qed.

Section Requests.
Variable js : Engine.
Variable eth : Ethers.
Variable env : Env.

(** X9: a request that is not answered 200 or 201 changes nothing,
    with one exception: a confirm-claim request answered 500. *)
Theorem failed_request_changes_nothing (w : World) (op : Op) (s : Store) :
  code (exec js eth env w op s).1 ≠ 200%nat →
  code (exec js eth env w op s).1 ≠ 201%nat →
  (exec js eth env w op s).2 = s
  ∨ (∃ userId taskId tx, op = OpConfirmClaim userId taskId tx)
    ∧ code (exec js eth env w op s).1 = 500%nat.
Proof.
  destruct op; unfold exec, route.
  2: { unfold create_task.
       destruct (create_validated req) as [[[[[ti de] ty] n] ex]|] eqn:Hv;
         route_run; cbn [fst snd code]; intros; try done; auto.
       left. by rewrite with_Tasks_delete_insert by apply fresh_task_id. }
  all: route_run; cbn [fst snd code]; intros; try done; auto.
  all: right; split; [by eexists _, _, _|done].
Qed.

(** X3: the update route changes nothing but the details of a DRAFT
    task of the requester.  Users and participants are never touched.
    When the request is answered 200, the task was a DRAFT of the
    requester; its status, type, target, funding, counter and escrow
    are as before; and the details have passed the validators of the
    schema: a title that the request sets is stored trimmed and has at
    most 100 code units, a description that it sets has at most 500,
    and neither is empty. *)
Theorem update_changes_details_only (w : World) (s : Store)
    (userId id : ObjectId) (req : UpdateReq) :
  let r := exec js eth env w (OpUpdate userId id req) s in
  Users r.2 = Users s
  ∧ Participants r.2 = Participants s
  ∧ (code r.1 = 200%nat →
     ∃ t t',
       Tasks s !! id = Some t
       ∧ creator t = userId
       ∧ t_status t = DRAFT
       ∧ Tasks r.2 = <[id := t']> (Tasks s)
       ∧ body r.1 = TaskBody t'
       ∧ creator t' = creator t
       ∧ t_status t' = t_status t
       ∧ taskType t' = taskType t
       ∧ targetData t' = targetData t
       ∧ totalFunding t' = totalFunding t
       ∧ t_transactionHash t' = t_transactionHash t
       ∧ task_frozen t t'
       ∧ title t'
         = (if truthy (u_title req) then JsString.trim (default "" (u_title req))
            else title t)
       ∧ description t'
         = (if truthy (u_description req) then default "" (u_description req)
            else description t)
       ∧ title t' ≠ ""
       ∧ description t' ≠ ""
       ∧ (truthy (u_title req) = true → (JsString.length (title t') ≤ 100)%nat)
       ∧ (truthy (u_description req) = true →
          (JsString.length (description t') ≤ 500)%nat)).
Proof.
  intros r. subst r. unfold exec, route.
  route_run; cbn [fst snd code body with_Tasks Users Participants Tasks];
    (split; [reflexivity|]); (split; [reflexivity|]); try discriminate.
  all: intros _; bool_norm.
  all: repeat match goal with
         | H : _ && _ = true |- _ => apply andb_true_iff in H as [? ?]
         end; bool_norm.
  all: eexists t, _; split; [reflexivity|]; split; [done|]; split; [done|];
    split; [reflexivity|]; split; [reflexivity|]; cbn;
    repeat split; try done;
    try (by apply String.eqb_neq); try (intros _; by apply Nat.leb_le).
Qed.

(** X10: joining twice.  After a join answered 201, a second join of
    the same user to the same task is answered 400, in whatever world,
    and changes nothing. *)
Theorem join_twice_refused (w w' : World) (s : Store) (userId taskId : ObjectId) :
  code (exec js eth env w (OpJoin userId taskId) s).1 = 201%nat →
  let s' := (exec js eth env w (OpJoin userId taskId) s).2 in
  code (exec js eth env w' (OpJoin userId taskId) s').1 = 400%nat
  ∧ (exec js eth env w' (OpJoin userId taskId) s').2 = s'.
Proof.
  intros H201 s'.
  assert (∃ task p, Tasks s' !! taskId = Some task
                    ∧ Participant_findOne userId taskId (Participants s') = Some p)
    as (task & p & Ht & Hp).
  { subst s'. revert H201. route_run; cbn [fst snd code]; try done; intros _.
    all: cbn [Tasks Participants with_Tasks with_Participants];
      rewrite lookup_insert_eq; eexists _, _; split; [done|].
    all: by apply findOne_app_new, not_is_Some_findOne. }
  clearbody s'. unfold exec, route, join. route_cbv. rewrite Ht.
  cbv beta iota zeta. rewrite Hp.
  rewrite (bool_decide_eq_true_2 (is_Some (Some p))) by by eexists.
  repeat (case_inner; cbv beta iota zeta); cbn [fst snd code]; done.
Qed.

(** X11: a proof that the provider confirms.  The proof is stored, the
    participant becomes VERIFIED with the note of the automatic check,
    and the answer reports [autoVerified: true]. *)
Theorem submit_proof_auto_verified (w : World) (s : Store)
    (userId taskId : ObjectId) (p : Participant) (pd : ProofData) :
  Participant_findOne userId taskId (Participants s) = Some p →
  p_status p = PENDING →
  autoVerifyTask w s p = true →
  let p' := Participant_with_status VERIFIED "Auto-verified via Snapchain API"
              (Participant_with_proof pd p) in
  let r := exec js eth env w (OpSubmitProof userId taskId (Some pd)) s in
  r.1 = json 200 (ProofBody "Proof submitted successfully" p' true)
  ∧ Participant_findOne userId taskId (Participants r.2) = Some p'
  ∧ p_status p' = VERIFIED
  ∧ proofData p' = Some pd
  ∧ claimSignature p' = claimSignature p
  ∧ Tasks r.2 = Tasks s
  ∧ Users r.2 = Users s.
Proof.
  intros Hp Hst Hv p' r.
  assert (r = (json 200 (ProofBody "Proof submitted successfully" p' true),
               with_Participants (Participant_save p')
                 (with_Participants
                    (Participant_save (Participant_with_proof pd p)) s))) as ->.
  { subst r. unfold exec, route, submit_proof. route_cbv. rewrite Hp.
    cbv beta iota zeta. rewrite Hst.
    rewrite bool_decide_eq_true_2 by done. cbn [negb].
    by rewrite autoVerifyTask_after_proof, Hv. }
  apply findOne_spec in Hp as Hp'. destruct Hp' as (_ & Hu & Ht).
  repeat split; try done.
  cbn [snd with_Participants Participants].
  apply (findOne_save _ _ _ (Participant_with_proof pd p)); [|done..].
  by apply (findOne_save _ _ _ p).
Qed.

(** X12: the creator's decision.  Somebody else is answered 403 and a
    participant that is not PENDING 400, both without any change; the
    creator's decision on a PENDING participant makes it VERIFIED or
    REJECTED as decided and stores the notes, the empty string when
    there are none. *)
Theorem verify_decides (w : World) (s : Store) (userId participantId : ObjectId)
    (approved : bool) (notes : option string) (p : Participant) (task : Task) :
  Participant_findById participantId (Participants s) = Some p →
  Tasks s !! p_task p = Some task →
  let r := exec js eth env w (OpVerify userId participantId approved notes) s in
  if bool_decide (creator task = userId) then
    if bool_decide (p_status p = PENDING) then
      ∃ p', Participant_findById participantId (Participants r.2) = Some p'
            ∧ code r.1 = 200%nat
            ∧ p_status p' = (if approved then VERIFIED else REJECTED)
            ∧ verificationNotes p' = Some (or_default notes "")
            ∧ claimSignature p' = claimSignature p
            ∧ proofData p' = proofData p
    else r = (json 400 (ErrorBody "Participant not in pending status"), s)
  else r = (json 403 (ErrorBody "Not authorized"), s).
Proof.
  intros Hp Ht r. subst r.
  unfold exec, route, verify. route_cbv. rewrite Hp. cbv beta iota zeta.
  rewrite Ht. cbv beta iota zeta.
  destruct (bool_decide (creator task = userId)); cbn [negb]; [|done].
  destruct (bool_decide (p_status p = PENDING)); cbn [negb]; [|done].
  exists (Participant_with_status (if approved then VERIFIED else REJECTED)
            (or_default notes "") p).
  split; [|by repeat split].
  cbn [snd with_Participants Participants]. by eapply findById_save.
Qed.

(** X13: the claim route answers only verified, unclaimed
    participants: any other status is answered 400 "Task not verified
    yet", a participant with a claim date 400 "Reward already claimed",
    and neither request changes anything. *)
Theorem claim_requires_verified_unclaimed (w : World) (s : Store)
    (userId taskId : ObjectId) (p : Participant) :
  Participant_findOne userId taskId (Participants s) = Some p →
  p_status p ≠ VERIFIED ∨ is_Some (claimedAt p) →
  exec js eth env w (OpClaim userId taskId) s
  = (json 400 (ErrorBody (if bool_decide (p_status p = VERIFIED)
                          then "Reward already claimed"
                          else "Task not verified yet")), s).
Proof.
  intros Hp Hor.
  unfold exec, route, claim. route_cbv. rewrite Hp. cbv beta iota zeta.
  destruct (bool_decide (p_status p = VERIFIED)) eqn:Hv; cbn [negb]; [|done].
  apply bool_decide_eq_true in Hv. destruct Hor as [?|Hc]; [done|].
  by rewrite bool_decide_eq_true_2.
Qed.

(** X14: claim, then confirm.  A verified participant requests the
    claim signature and confirms the claim: the participant ends
    CLAIMED, with the signature, the claim date and the transaction
    hash, and the user's total of rewards earned grows by exactly the
    task's reward, as integers, with one more task completed and ten
    more points of reputation. *)
Theorem claim_then_confirm_credits_reward (w1 w2 : World) (s : Store)
    (userId taskId : ObjectId) (p : Participant) (task : Task) (user : User)
    (sig : string) (tx : option string) (earned reward : Z) :
  Participant_findOne userId taskId (Participants s) = Some p →
  p_status p = VERIFIED →
  claimedAt p = None →
  Tasks s !! p_task p = Some task →
  Users s !! userId = Some user →
  hasUserClaimed w1 (contractTaskId task) (walletAddress user) = Returns false →
  generateClaimSignature eth (contractTaskId task) (walletAddress user)
    (rewardPerParticipant task) = Returns sig →
  BigInt.parse (totalRewardsEarned user) = Some earned →
  BigInt.parse (rewardPerParticipant task) = Some reward →
  let s1 := (exec js eth env w1 (OpClaim userId taskId) s).2 in
  let r := exec js eth env w2 (OpConfirmClaim userId taskId tx) s1 in
  code r.1 = 200%nat
  ∧ (∃ p', Participant_findOne userId taskId (Participants r.2) = Some p'
           ∧ p_status p' = CLAIMED
           ∧ claimSignature p' = Some sig
           ∧ claimedAt p' = Some (now w2)
           ∧ p_transactionHash p' = tx)
  ∧ (∃ user', Users r.2 !! userId = Some user'
              ∧ BigInt.parse (totalRewardsEarned user') = Some (earned + reward)
              ∧ totalTasksCompleted user' = totalTasksCompleted user + 1
              ∧ reputation user' = reputation user + 10
              ∧ walletAddress user' = walletAddress user).
Proof.
  intros Hp Hst Hat Ht Hu Hc Hsig He Hr s1 r.
  apply findOne_spec in Hp as Hp'. destruct Hp' as (_ & Hpu & Hpt).
  set (p1 := Participant_with_signature sig (rewardPerParticipant task) p).
  assert (s1 = with_Participants (Participant_save p1) s) as Hs1.
  { subst s1. rewrite <- Hpu in Hu.
    by erewrite claim_issues_signature. }
  assert (Participant_findOne userId taskId (Participants s1) = Some p1) as Hp1.
  { rewrite Hs1. by eapply findOne_save. }
  assert (BigInt.parse (or_default (Some (totalRewardsEarned user)) "0")
          = Some earned) as He'.
  { unfold or_default, truthy.
    destruct (String.eqb (totalRewardsEarned user) "") eqn:E; cbn; [|done].
    apply String.eqb_eq in E. by rewrite E in He. }
  subst r.
  erewrite confirm_claim_unguarded; [|exact Hp1|by rewrite Hs1|exact He'|exact Hr].
  split; [done|]. split.
  - exists (Participant_with_claimed (now w2) tx p1). split; [|by repeat split].
    cbn [snd with_Users with_Participants Participants].
    by apply (findOne_save _ _ _ p1).
  - exists (User_completed (BigInt.toString (earned + reward)) user).
    cbn [snd with_Users Users]. rewrite lookup_alter_eq.
    rewrite Hs1. cbn [Users with_Participants]. rewrite Hu.
    split; [done|]. cbn [totalRewardsEarned User_completed].
    by rewrite BigInt_parse_toString.
Qed.

(** X15: a confirm-claim request may fail half-way.  When the user
    document is gone, the request is answered 500, yet the participant
    has already been saved as CLAIMED; no counter is touched. *)
Theorem confirm_claim_partial_write (w : World) (s : Store)
    (userId taskId : ObjectId) (tx : option string) (p : Participant) :
  Participant_findOne userId taskId (Participants s) = Some p →
  Users s !! userId = None →
  let r := exec js eth env w (OpConfirmClaim userId taskId tx) s in
  code r.1 = 500%nat
  ∧ Participant_findOne userId taskId (Participants r.2)
    = Some (Participant_with_claimed (now w) tx p)
  ∧ Users r.2 = Users s
  ∧ Tasks r.2 = Tasks s.
Proof.
  intros Hp Hu r. subst r.
  unfold exec, route, confirm_claim. route_cbv. rewrite Hp. cbv beta iota zeta.
  rewrite Hu. cbv beta iota zeta. cbn [fst snd code].
  apply findOne_spec in Hp as Hp'. destruct Hp' as (_ & Hpu & Hpt).
  repeat split; try done.
  cbn [with_Participants Participants]. by eapply findOne_save.
Qed.
End Requests.

(** ** The identity client *)

(** [some_user_fid] finds the user exactly when the user's entry comes
    before every entry without a [user] object. *)
Lemma some_user_fid_true (userFid : Z) (l : list (option Z)) :
  some_user_fid userFid l = Returns true
  ↔ ∃ before after,
      l = (Some <$> before) ++ Some userFid :: after ∧ userFid ∉ before.
Proof.
  induction l as [|[f|] l IH]; cbn [some_user_fid].
  - split; [done|]. intros (before & after & H & _). by destruct before.
  - destruct (f =? userFid) eqn:E.
    + apply Z.eqb_eq in E as ->. split; [|done]. intros _.
      exists [], l. split; [done|]. apply not_elem_of_nil.
    + apply Z.eqb_neq in E. rewrite IH. split.
      * intros (before & after & -> & Hn). exists (f :: before), after.
        split; [done|]. rewrite not_elem_of_cons. split; [congruence|done].
      * intros (before & after & H & Hn). destruct before as [|b before].
        -- cbn in H. congruence.
        -- rewrite fmap_cons in H. cbn in H. injection H as -> ->.
           apply not_elem_of_cons in Hn as [_ Hn]. by exists before, after.
  - split; [done|]. intros (before & after & H & _). by destruct before.
Qed.

(** X16: a like counts when, and only when, it is listed before every
    like entry that lacks its [user] object: such an entry makes the
    check throw and the check then answers false, even for a user
    whose like follows it. *)
Theorem verifyCastLike_true_iff (w : World) (userFid : Z) (castHash : string) :
  verifyCastLike w userFid castHash = true
  ↔ ∃ before after,
      getCastLikes w castHash = (Some <$> before) ++ Some userFid :: after
      ∧ userFid ∉ before.
Proof.
  unfold verifyCastLike. rewrite <- some_user_fid_true.
  by destruct (some_user_fid userFid (getCastLikes w castHash)) as [[|]|].
Qed.

(** X17: auto-verification has no false positives.  A participant is
    verified automatically only if its task and user documents exist,
    the target of the task's type is set, and the provider's own
    answer names the user: the target account is found and is in the
    user's following list, the user's like or recast is listed, or the
    user is among the channel's members or followers. *)
Theorem auto_verified_sound (w : World) (s : Store) (p : Participant) :
  autoVerifyTask w s p = true →
  ∃ task user,
    Tasks s !! p_task p = Some task
    ∧ Users s !! p_user p = Some user
    ∧ match taskType task with
      | FOLLOW_USER =>
          ∃ target farcasterUser,
            userToFollow (targetData task) = Some target ∧ target ≠ ""
            ∧ api_user_by_username w target = Returns (Some farcasterUser)
            ∧ ∃ following, api_user_following w (fid user) = Returns (Some following)
                           ∧ fc_fid farcasterUser ∈ following
      | LIKE_CAST =>
          ∃ hash likes,
            castHashToLike (targetData task) = Some hash ∧ hash ≠ ""
            ∧ api_cast_likes w hash = Returns (Some likes)
            ∧ Some (fid user) ∈ likes
      | RECAST_CAST =>
          ∃ hash recasts,
            castHashToRecast (targetData task) = Some hash ∧ hash ≠ ""
            ∧ api_cast_recasts w hash = Returns (Some recasts)
            ∧ Some (fid user) ∈ recasts
      | JOIN_CHANNEL =>
          ∃ channel,
            channelToJoin (targetData task) = Some channel ∧ channel ≠ ""
            ∧ ((∃ members, api_channel_members w channel = Returns (Some members)
                           ∧ fid user ∈ members)
               ∨ (∃ followers, api_channel_followers w channel = Returns (Some followers)
                               ∧ fid user ∈ followers))
      end.
Proof.
  unfold autoVerifyTask, autoVerifyTask_try.
  destruct (Tasks s !! p_task p) as [task|]; [|done].
  destruct (Users s !! p_user p) as [user|].
  2: { by destruct (taskType task); destruct (truthy _). }
  intros H. exists task, user. split; [done|]. split; [done|].
  assert (∀ o : option string, truthy o = true → ∃ x, o = Some x ∧ x ≠ "") as Htruthy.
  { intros [x|] Hx; [|done]. exists x. split; [done|].
    intros ->. done. }
  assert (∀ (l : list Z) (x : Z), existsb (λ f, f =? x) l = true → x ∈ l) as Hex.
  { intros l x (y & Hy & ->%Z.eqb_eq)%existsb_exists. by apply list_elem_of_In. }
  assert (∀ {A} (o : Outcome (option (list A))) (x : A), x ∈ or_empty o →
            ∃ l, o = Returns (Some l) ∧ x ∈ l) as Hor.
  { intros A [[l|]|] x Hx; [by eauto|by apply elem_of_nil in Hx..]. }
  destruct (taskType task).
  - destruct (truthy (userToFollow (targetData task))) eqn:Ht; [|done].
    apply Htruthy in Ht as (target & Ht & Hne). rewrite Ht in *. cbn in H.
    unfold verifyUserFollowsUser, getUserByUsername in H.
    destruct (api_user_by_username w target) as [[fu|]|] eqn:Hfu; try done.
    cbn in H. apply Hex, Hor in H as (following & ? & ?).
    exists target, fu. eauto 10.
  - destruct (truthy (castHashToLike (targetData task))) eqn:Ht; [|done].
    apply Htruthy in Ht as (hash & Ht & Hne). rewrite Ht in *. cbn in H.
    unfold verifyCastLike in H.
    destruct (some_user_fid _ _) as [[|]|] eqn:Hs; try done.
    apply some_user_fid_true in Hs as (before & after & Hl & _).
    assert (Some (fid user) ∈ getCastLikes w hash) as Hin.
    { rewrite Hl. apply elem_of_app. right. apply elem_of_cons. by left. }
    apply Hor in Hin as (likes & ? & ?). exists hash, likes. eauto.
  - destruct (truthy (castHashToRecast (targetData task))) eqn:Ht; [|done].
    apply Htruthy in Ht as (hash & Ht & Hne). rewrite Ht in *. cbn in H.
    unfold verifyCastRecast in H.
    destruct (some_user_fid _ _) as [[|]|] eqn:Hs; try done.
    apply some_user_fid_true in Hs as (before & after & Hl & _).
    assert (Some (fid user) ∈ getCastRecasts w hash) as Hin.
    { rewrite Hl. apply elem_of_app. right. apply elem_of_cons. by left. }
    apply Hor in Hin as (recasts & ? & ?). exists hash, recasts. eauto.
  - destruct (truthy (channelToJoin (targetData task))) eqn:Ht; [|done].
    apply Htruthy in Ht as (channel & Ht & Hne). rewrite Ht in *. cbn in H.
    unfold verifyChannelMembership in H. cbn in H.
    exists channel. split; [done|]. split; [done|].
    apply orb_true_iff in H as [H|H]; apply Hex, Hor in H as (l & ? & ?); eauto.
Qed.

(** ** The target-validation endpoint *)

(** X18: the target-validation endpoint against the creation route,
    in the same world.  For follow and channel tasks the endpoint
    reports valid exactly what creation accepts.  For a like task
    creation accepts what the endpoint reports valid, provided the
    hash to like is given.  For a recast task the two agree when no
    hash to like is given; when one is given the endpoint looks that
    one up instead of the hash to recast. *)
Theorem validate_target_against_create (w : World) (ty : TaskType)
    (td : TargetData) :
  let valid := reported_valid (validate_target w (Some ty) (Some td)) in
  let accepted := bool_decide (target_validation w ty td = None) in
  match ty with
  | FOLLOW_USER | JOIN_CHANNEL => valid = accepted
  | LIKE_CAST => accepted = truthy (castHashToLike td) && valid
  | RECAST_CAST =>
      valid = if truthy (castHashToLike td)
              then getCast w (default "" (castHashToLike td))
              else accepted
  end.
Proof.
  destruct ty; cbn [target_validation validate_target reported_valid]; unfold or_else.
  - destruct (truthy (userToFollow td)); cbn [negb]; [|done].
    by destruct (getUserByUsername w _).
  - destruct (truthy (castHashToLike td)) eqn:E; cbn [negb andb]; [|done].
    rewrite E. by destruct (getCast w _).
  - destruct (truthy (castHashToLike td)) eqn:E; cbn [negb].
    + rewrite E. by destruct (getCast w _).
    + destruct (truthy (castHashToRecast td)); cbn [negb]; [|done].
      by destruct (getCast w _).
  - by destruct (truthy (channelToJoin td)).
Qed.

(** The two disagree on a recast task that names both hashes: creation
    accepts the target, the endpoint reports it invalid. *)
Example validate_target_rejects_accepted_recast :
  target_validation demo_world_one_cast RECAST_CAST demo_target_two_hashes = None
  ∧ validate_target demo_world_one_cast (Some RECAST_CAST)
      (Some demo_target_two_hashes) = Returns (false, None).
Proof. vm_compute. done. Qed.

(** The edge of X16: bob's like comes after an entry without [user],
    carol's before it. *)
Example verifyCastLike_broken_entry :
  getCastLikes demo_world_broken_like "0xca57" = [Some 5; Some 3; None; Some 2]
  ∧ verifyCastLike demo_world_broken_like 2 "0xca57" = false
  ∧ verifyCastLike demo_world_broken_like 3 "0xca57" = true.
Proof. vm_compute. done. Qed.

(** ** These theorems at work on the demo deployment *)

Lemma demo_claimed_reachable : reachable demo_js demo_eth demo_env demo_claimed.
Proof. exists demo_requests_claimed. vm_compute. reflexivity. Defined.

Lemma demo_joined_reachable : reachable demo_js demo_eth demo_env demo_joined.
Proof.
  exists (demo_requests_registered ++ demo_requests_joined FOLLOW_USER).
  vm_compute. reflexivity.
Defined.

Lemma reachable_task_escrowed_witness :
  t_status (demo_task FOLLOW_USER 1) ≠ COMPLETED
  ∧ (t_status (demo_task FOLLOW_USER 1) = ACTIVE →
     is_Some (contractTaskId (demo_task FOLLOW_USER 1))
     ∧ is_Some (t_transactionHash (demo_task FOLLOW_USER 1))).
Proof.
  apply (reachable_task_escrowed demo_js demo_eth demo_env demo_claimed 0%nat).
  - apply demo_claimed_reachable.
  - vm_compute. reflexivity.
Defined.

Lemma reachable_task_funding_witness :
  BigInt.parse (rewardPerParticipant (demo_task FOLLOW_USER 1))
  = Some 1000000000000000
  ∧ 1 ≤ maxParticipants (demo_task FOLLOW_USER 1) ≤ 1000
  ∧ BigInt.parse (totalFunding (demo_task FOLLOW_USER 1))
    = Some (1000000000000000 * maxParticipants (demo_task FOLLOW_USER 1)).
Proof.
  apply (reachable_task_funding demo_js demo_eth demo_env demo_claimed 0%nat).
  - apply demo_claimed_reachable.
  - vm_compute. reflexivity.
Defined.

Lemma reachable_counter_bounded_witness :
  (∀ p, p ∈ Participants demo_claimed →
     ∃ t, Tasks demo_claimed !! p_task p = Some t
          ∧ t_status t ≠ DRAFT
          ∧ is_Some (contractTaskId t))
  ∧ (∀ id t, Tasks demo_claimed !! id = Some t →
       0 ≤ currentParticipants t ≤ joined_count id (Participants demo_claimed)).
Proof.
  apply (reachable_counter_bounded demo_js demo_eth demo_env demo_claimed).
  apply demo_claimed_reachable.
Defined.

Lemma reachable_participant_unique_witness :
  demo_pending ∈ Participants demo_joined
  ∧ new_participant 0%nat 1%nat 0%nat ∈ Participants demo_joined
  ∧ ((p_user demo_pending = p_user (new_participant 0%nat 1%nat 0%nat)
      ∧ p_task demo_pending = p_task (new_participant 0%nat 1%nat 0%nat))
     ∨ p_id demo_pending = p_id (new_participant 0%nat 1%nat 0%nat))
  ∧ demo_pending = new_participant 0%nat 1%nat 0%nat.
Proof.
  assert (Hin : demo_pending ∈ Participants demo_joined)
    by (vm_compute; apply list_elem_of_here).
  assert (Hsame : (p_user demo_pending = p_user (new_participant 0%nat 1%nat 0%nat)
                   ∧ p_task demo_pending = p_task (new_participant 0%nat 1%nat 0%nat))
                  ∨ p_id demo_pending = p_id (new_participant 0%nat 1%nat 0%nat))
    by (left; split; reflexivity).
  split; [exact Hin|]. split; [exact Hin|]. split; [exact Hsame|].
  exact (reachable_participant_unique demo_js demo_eth demo_env demo_joined demo_pending
           (new_participant 0%nat 1%nat 0%nat) demo_joined_reachable Hin Hin Hsame).
Defined.

Lemma reachable_user_unique_witness :
  Users demo_joined !! 1%nat = Some demo_bob
  ∧ Users demo_joined !! 1%nat = Some demo_bob
  ∧ same_identity demo_bob demo_bob
  ∧ 1%nat = 1%nat.
Proof.
  assert (Hu : Users demo_joined !! 1%nat = Some demo_bob)
    by (vm_compute; reflexivity).
  assert (Hsame : same_identity demo_bob demo_bob) by (left; reflexivity).
  split; [exact Hu|]. split; [exact Hu|]. split; [exact Hsame|].
  exact (reachable_user_unique demo_js demo_eth demo_env demo_joined 1%nat 1%nat
           demo_bob demo_bob demo_joined_reachable Hu Hu Hsame).
Defined.

Lemma reachable_reward_snapshot_witness :
  rewardAmount demo_pending = "0"
  ∧ rewardAmount
      (Participant_with_claimed 100 (Some "0xabc")
         (Participant_with_signature "signed:7/0xb0b/1000000000000000"
            "1000000000000000" demo_auto_verified))
    = "1000000000000000".
Proof.
  split.
  - apply (reachable_reward_snapshot demo_js demo_eth demo_env demo_joined demo_pending).
    + apply demo_joined_reachable.
    + vm_compute. apply list_elem_of_here.
  - apply (reachable_reward_snapshot demo_js demo_eth demo_env demo_claimed
             (Participant_with_claimed 100 (Some "0xabc")
                (Participant_with_signature "signed:7/0xb0b/1000000000000000"
                   "1000000000000000" demo_auto_verified))).
    + apply demo_claimed_reachable.
    + vm_compute. apply list_elem_of_here.
Defined.


Lemma failed_request_changes_nothing_witness :
  (exec demo_js demo_eth demo_env demo_world_claimed_on_chain (OpClaim 1%nat 0%nat)
     demo_verified).2 = demo_verified
  ∨ (∃ userId taskId tx, OpClaim 1%nat 0%nat = OpConfirmClaim userId taskId tx)
    ∧ code (exec demo_js demo_eth demo_env demo_world_claimed_on_chain (OpClaim 1%nat 0%nat)
              demo_verified).1 = 500%nat.
Proof.
  apply (failed_request_changes_nothing demo_js demo_eth demo_env
           demo_world_claimed_on_chain (OpClaim 1%nat 0%nat) demo_verified);
    vm_compute; discriminate.
Defined.

Lemma join_twice_refused_witness :
  let s' := (exec demo_js demo_eth demo_env demo_world (OpJoin 1%nat 0%nat) demo_funded).2 in
  code (exec demo_js demo_eth demo_env demo_world (OpJoin 1%nat 0%nat) s').1 = 400%nat
  ∧ (exec demo_js demo_eth demo_env demo_world (OpJoin 1%nat 0%nat) s').2 = s'.
Proof.
  apply (join_twice_refused demo_js demo_eth demo_env demo_world demo_world demo_funded
           1%nat 0%nat).
  vm_compute. reflexivity.
Defined.

Lemma submit_proof_auto_verified_witness :
  let r := exec demo_js demo_eth demo_env demo_world
             (OpSubmitProof 1%nat 0%nat (Some demo_proof)) demo_joined in
  r.1 = json 200 (ProofBody "Proof submitted successfully" demo_auto_verified true)
  ∧ Participant_findOne 1%nat 0%nat (Participants r.2) = Some demo_auto_verified
  ∧ p_status demo_auto_verified = VERIFIED
  ∧ proofData demo_auto_verified = Some demo_proof
  ∧ claimSignature demo_auto_verified = claimSignature demo_pending
  ∧ Tasks r.2 = Tasks demo_joined
  ∧ Users r.2 = Users demo_joined.
Proof.
  apply (submit_proof_auto_verified demo_js demo_eth demo_env demo_world demo_joined
           1%nat 0%nat demo_pending demo_proof);
    vm_compute; reflexivity.
Defined.

Lemma verify_decides_witness :
  let r := exec demo_js demo_eth demo_env demo_world
             (OpVerify 0%nat 0%nat false (Some "no such follow")) demo_joined in
  ∃ p', Participant_findById 0%nat (Participants r.2) = Some p'
        ∧ code r.1 = 200%nat
        ∧ p_status p' = REJECTED
        ∧ verificationNotes p' = Some (or_default (Some "no such follow") "")
        ∧ claimSignature p' = claimSignature demo_pending
        ∧ proofData p' = proofData demo_pending.
Proof.
  apply (verify_decides demo_js demo_eth demo_env demo_world demo_joined 0%nat 0%nat
           false (Some "no such follow") demo_pending (demo_task FOLLOW_USER 1));
    vm_compute; reflexivity.
Defined.

Lemma claim_requires_verified_unclaimed_witness :
  exec demo_js demo_eth demo_env demo_world (OpClaim 1%nat 0%nat) demo_joined
  = (json 400 (ErrorBody "Task not verified yet"), demo_joined).
Proof.
  apply (claim_requires_verified_unclaimed demo_js demo_eth demo_env demo_world
           demo_joined 1%nat 0%nat demo_pending).
  - vm_compute. reflexivity.
  - left. vm_compute. discriminate.
Defined.

Lemma claim_then_confirm_credits_reward_witness :
  let s1 := (exec demo_js demo_eth demo_env demo_world (OpClaim 1%nat 0%nat) demo_verified).2 in
  let r := exec demo_js demo_eth demo_env demo_world
             (OpConfirmClaim 1%nat 0%nat (Some "0xabc")) s1 in
  code r.1 = 200%nat
  ∧ (∃ p', Participant_findOne 1%nat 0%nat (Participants r.2) = Some p'
           ∧ p_status p' = CLAIMED
           ∧ claimSignature p' = Some "signed:7/0xb0b/1000000000000000"
           ∧ claimedAt p' = Some (now demo_world)
           ∧ p_transactionHash p' = Some "0xabc")
  ∧ (∃ user', Users r.2 !! 1%nat = Some user'
              ∧ BigInt.parse (totalRewardsEarned user')
                = Some (0 + 1000000000000000)
              ∧ totalTasksCompleted user' = totalTasksCompleted demo_bob + 1
              ∧ reputation user' = reputation demo_bob + 10
              ∧ walletAddress user' = walletAddress demo_bob).
Proof.
  apply (claim_then_confirm_credits_reward demo_js demo_eth demo_env demo_world demo_world
           demo_verified 1%nat 0%nat demo_auto_verified (demo_task FOLLOW_USER 1)
           demo_bob "signed:7/0xb0b/1000000000000000" (Some "0xabc")
           0 1000000000000000);
    vm_compute; reflexivity.
Defined.

Lemma confirm_claim_partial_write_witness :
  let r := exec demo_js demo_eth demo_env demo_world
             (OpConfirmClaim 5%nat 0%nat (Some "0xabc")) demo_ghost_joined in
  code r.1 = 500%nat
  ∧ Participant_findOne 5%nat 0%nat (Participants r.2)
    = Some (Participant_with_claimed (now demo_world) (Some "0xabc")
              (new_participant 0%nat 5%nat 0%nat))
  ∧ Users r.2 = Users demo_ghost_joined
  ∧ Tasks r.2 = Tasks demo_ghost_joined.
Proof.
  apply (confirm_claim_partial_write demo_js demo_eth demo_env demo_world
           demo_ghost_joined 5%nat 0%nat (Some "0xabc")
           (new_participant 0%nat 5%nat 0%nat));
    vm_compute; reflexivity.
Defined.

Lemma auto_verified_sound_witness :
  ∃ task user,
    Tasks demo_joined !! p_task demo_pending = Some task
    ∧ Users demo_joined !! p_user demo_pending = Some user
    ∧ match taskType task with
      | FOLLOW_USER =>
          ∃ target farcasterUser,
            userToFollow (targetData task) = Some target ∧ target ≠ ""
            ∧ api_user_by_username demo_world target = Returns (Some farcasterUser)
            ∧ ∃ following,
                api_user_following demo_world (fid user) = Returns (Some following)
                ∧ fc_fid farcasterUser ∈ following
      | LIKE_CAST =>
          ∃ hash likes,
            castHashToLike (targetData task) = Some hash ∧ hash ≠ ""
            ∧ api_cast_likes demo_world hash = Returns (Some likes)
            ∧ Some (fid user) ∈ likes
      | RECAST_CAST =>
          ∃ hash recasts,
            castHashToRecast (targetData task) = Some hash ∧ hash ≠ ""
            ∧ api_cast_recasts demo_world hash = Returns (Some recasts)
            ∧ Some (fid user) ∈ recasts
      | JOIN_CHANNEL =>
          ∃ channel,
            channelToJoin (targetData task) = Some channel ∧ channel ≠ ""
            ∧ ((∃ members,
                  api_channel_members demo_world channel = Returns (Some members)
                  ∧ fid user ∈ members)
               ∨ (∃ followers,
                    api_channel_followers demo_world channel
                    = Returns (Some followers)
                    ∧ fid user ∈ followers))
      end.
Proof.
  apply (auto_verified_sound demo_world demo_joined demo_pending).
  vm_compute. reflexivity.
Defined.

(** ** More on single requests *)

Section MoreRequests.
Variable js : Engine.
Variable eth : Ethers.
Variable env : Env.

(** X19: sponsorship decides nothing but the [sponsoredGas] part of
    the answer.  Under two configurations and two paymasters, with the
    same ledger answers, a claim request gets the same status code and
    leaves the same store. *)
Theorem sponsorship_does_not_interfere (env' : Env) (w w' : World) (s : Store)
    (userId taskId : ObjectId) :
  chain_hasDevClaimed w = chain_hasDevClaimed w' →
  code (exec js eth env w (OpClaim userId taskId) s).1
  = code (exec js eth env' w' (OpClaim userId taskId) s).1
  ∧ (exec js eth env w (OpClaim userId taskId) s).2
    = (exec js eth env' w' (OpClaim userId taskId) s).2.
Proof.
  intros Hw. unfold exec, route, claim, hasUserClaimed. rewrite Hw.
  route_cbv. repeat (case_inner; cbv beta iota zeta); cbn [fst snd code]; try done.
Qed.

(** X20: cancelling a task does not take the reward from those who
    earned it: after a cancellation answered 200, a verified, unclaimed
    participant of the task is still issued the claim signature. *)
Theorem cancel_does_not_block_claim (w w' : World) (s : Store)
    (creatorId userId : ObjectId) (p : Participant) (task : Task) (user : User)
    (sig : string) :
  Participant_findOne userId (p_task p) (Participants s) = Some p →
  p_status p = VERIFIED →
  claimedAt p = None →
  Tasks s !! p_task p = Some task →
  Users s !! p_user p = Some user →
  code (exec js eth env w (OpCancel creatorId (p_task p)) s).1 = 200%nat →
  hasUserClaimed w' (contractTaskId task) (walletAddress user) = Returns false →
  generateClaimSignature eth (contractTaskId task) (walletAddress user)
    (rewardPerParticipant task) = Returns sig →
  let s' := (exec js eth env w (OpCancel creatorId (p_task p)) s).2 in
  (t_status <$> Tasks s' !! p_task p) = Some CANCELLED
  ∧ ∃ gas, (exec js eth env w' (OpClaim userId (p_task p)) s').1
           = json 200 (ClaimBody "Claim signature generated" sig
                         (contractTaskId task) (rewardPerParticipant task)
                         (CONTRACT_ADDRESS env) gas).
Proof.
  intros Hp Hst Hat Ht Hu H200 Hc Hsig s'.
  assert (s' = with_Tasks (<[p_task p := Task_with_status CANCELLED task]>) s) as ->.
  { subst s'. revert H200. unfold exec, route, cancel_task. route_cbv. rewrite Ht.
    cbv beta iota zeta.
    repeat (case_inner; cbv beta iota zeta); cbn [fst snd code]; try done. }
  split.
  { cbn [Tasks with_Tasks]. rewrite lookup_insert_eq. reflexivity. }
  eexists.
  erewrite (claim_issues_signature js eth env w' _ userId (p_task p) p
              (Task_with_status CANCELLED task) user sig);
    [reflexivity|exact Hp|exact Hst|exact Hat| |exact Hu|exact Hc|exact Hsig].
  cbn [Tasks with_Tasks]. apply lookup_insert_eq.
Qed.

(** X21: no handler ever marks a user verified, so a task that requires
    verified users is never joined. *)
Theorem verified_only_task_never_joined (w : World) (s : Store)
    (userId taskId : ObjectId) (task : Task) :
  reachable js eth env s →
  Tasks s !! taskId = Some task →
  mustBeVerified (requirements task) = true →
  code (exec js eth env w (OpJoin userId taskId) s).1 ≠ 201%nat
  ∧ (exec js eth env w (OpJoin userId taskId) s).2 = s.
Proof.
  intros Hr Ht Hm. apply reachable_wf in Hr as (_ & _ & _ & _ & _ & Hv).
  unfold exec, route, join. route_cbv. rewrite Ht. cbv beta iota zeta.
  rewrite Hm.
  repeat (case_inner; cbv beta iota zeta); cbn [fst snd code]; try done.
  all: match goal with
       | H : Users _ !! _ = Some _ |- _ => apply Hv in H
       end; bool_norm; congruence.
Qed.

(** X22: registering twice.  After a registration answered 201, a
    second registration with the same body is answered 400, in whatever
    world, and adds no account. *)
Theorem register_twice_refused (w w' : World) (s : Store) (req : RegisterReq) :
  code (exec js eth env w (OpRegister req) s).1 = 201%nat →
  let s' := (exec js eth env w (OpRegister req) s).2 in
  code (exec js eth env w' (OpRegister req) s').1 = 400%nat
  ∧ (exec js eth env w' (OpRegister req) s').2 = s'.
Proof.
  intros H201 s'.
  assert (∃ id u, Users s' !! id = Some u
                  ∧ email u = toLowerCase js (JsString.trim (r_email req)))
    as (id & u & Hid & Hmail).
  { subst s'. revert H201. route_run; cbn [fst snd code]; try done; intros _.
    eexists _, _. cbn [Users with_Users]. by rewrite lookup_insert_eq. }
  clearbody s'. route_run; cbn [fst snd code]; try done.
  all: exfalso;
    match goal with H : existsb _ _ = false |- _ =>
      apply (existsb_false_elem _ _ (id, u)) in H; [|by apply elem_of_map_to_list];
      cbn [snd] in H;
      apply orb_false_iff in H as [H _]; apply orb_false_iff in H as [H _];
      apply orb_false_iff in H as [H _]; apply bool_decide_eq_false in H
    end; done.
Qed.
End MoreRequests.

Lemma sponsorship_does_not_interfere_witness :
  code (exec demo_js demo_eth demo_env demo_world (OpClaim 1%nat 0%nat) demo_verified).1
  = code (exec demo_js demo_eth demo_env_sponsored demo_world_paymaster_empty_result
            (OpClaim 1%nat 0%nat) demo_verified).1
  ∧ (exec demo_js demo_eth demo_env demo_world (OpClaim 1%nat 0%nat) demo_verified).2
    = (exec demo_js demo_eth demo_env_sponsored demo_world_paymaster_empty_result
         (OpClaim 1%nat 0%nat) demo_verified).2.
Proof.
  apply (sponsorship_does_not_interfere demo_js demo_eth demo_env demo_env_sponsored
           demo_world demo_world_paymaster_empty_result demo_verified 1%nat 0%nat).
  reflexivity.
Defined.

Lemma cancel_does_not_block_claim_witness :
  let s' := (exec demo_js demo_eth demo_env demo_world (OpCancel 0%nat 0%nat) demo_verified).2 in
  (t_status <$> Tasks s' !! 0%nat) = Some CANCELLED
  ∧ ∃ gas, (exec demo_js demo_eth demo_env demo_world (OpClaim 1%nat 0%nat) s').1
           = json 200 (ClaimBody "Claim signature generated"
                         "signed:7/0xb0b/1000000000000000" (Some 7)
                         "1000000000000000" (Some "0xc0") gas).
Proof.
  apply (cancel_does_not_block_claim demo_js demo_eth demo_env demo_world demo_world
           demo_verified 0%nat 1%nat demo_auto_verified (demo_task FOLLOW_USER 1)
           demo_bob "signed:7/0xb0b/1000000000000000");
    vm_compute; reflexivity.
Defined.

Lemma register_twice_refused_witness :
  let req := {| r_warpcastUsername := Some "carol"; r_walletAddress := "0xca401";
                r_email := "carol@example.org"; r_bio := None;
                r_format_ok := true |} in
  let s' := (exec demo_js demo_eth demo_env demo_world (OpRegister req) demo_joined).2 in
  code (exec demo_js demo_eth demo_env demo_world (OpRegister req) s').1 = 400%nat
  ∧ (exec demo_js demo_eth demo_env demo_world (OpRegister req) s').2 = s'.
Proof.
  intros req.
  apply (register_twice_refused demo_js demo_eth demo_env demo_world demo_world
           demo_joined req).
  vm_compute. reflexivity.
Defined.

Lemma demo_verified_only_reachable : reachable demo_js demo_eth demo_env demo_verified_only.
Proof. by exists demo_requests_verified_only. Defined.

Lemma verified_only_task_never_joined_witness :
  code (exec demo_js demo_eth demo_env demo_world (OpJoin 1%nat 0%nat) demo_verified_only).1
  ≠ 201%nat
  ∧ (exec demo_js demo_eth demo_env demo_world (OpJoin 1%nat 0%nat) demo_verified_only).2
    = demo_verified_only.
Proof.
  apply (verified_only_task_never_joined demo_js demo_eth demo_env demo_world
           demo_verified_only 1%nat 0%nat demo_task_verified_only).
  - apply demo_verified_only_reachable.
  - vm_compute. reflexivity.
  - reflexivity.
Defined.

(** ** The fields that a request sets, on the demo deployment *)

Example parseInt_rounds_to_even :
  parseInt 7 = 7
  ∧ parseInt (2 ^ 53) = 2 ^ 53
  ∧ parseInt (2 ^ 53 + 1) = 2 ^ 53
  ∧ parseInt (2 ^ 53 + 2) = 2 ^ 53 + 2
  ∧ parseInt (2 ^ 53 + 3) = 2 ^ 53 + 4
  ∧ parseInt (2 ^ 256 - 1) = 2 ^ 256.
Proof. vm_compute. done. Qed.

Example trim_strips_white_space :
  JsString.trim "  Bounty  " = "Bounty"
  ∧ JsString.trim "   " = ""
  ∧ JsString.trim "two words" = "two words"
  ∧ JsString.trim (JsString.of_bytes [9; 194; 160; 66; 32; 226; 128; 169; 10]%nat) = "B".
Proof. vm_compute. done. Qed.

(** A title of sixty accented letters takes 120 bytes and 60 code
    units; a title of sixty emoji takes 240 bytes and 120 code units. *)
Example length_counts_code_units :
  JsString.length "Bounty" = 6%nat
  ∧ JsString.length (JsString.of_bytes (mjoin (replicate 60 [195; 169])))%nat = 60%nat
  ∧ JsString.length (JsString.of_bytes (mjoin (replicate 60 [240; 159; 152; 128])))%nat
    = 120%nat.
Proof. vm_compute. done. Qed.

(** A blank title passes [notEmpty()], is emptied by the schema's
    [trim] and fails [required]: the first [save] throws, the request
    is answered 500 and nothing is stored; so for a date that
    [isISO8601] accepts and [new Date] does not read. *)
Example create_task_blank_title :
  exec demo_js demo_eth demo_env demo_world
    (OpCreate 0%nat (demo_create_titled "   " (Some 1000))) demo_registered
  = (json 500 (ErrorMessage (ValidationError "Task")), demo_registered)
  ∧ exec demo_js demo_eth demo_env demo_world
      (OpCreate 0%nat (demo_create_titled "Bounty" None)) demo_registered
    = (json 500 (ErrorMessage (ValidationError "Task")), demo_registered).
Proof. vm_compute. done. Qed.

(** A padded title and padded tags are stored trimmed. *)
Example create_task_trims :
  let r := exec demo_js demo_eth demo_env demo_world
             (OpCreate 0%nat (demo_create_titled "  Bounty " (Some 1000)))
             demo_registered in
  code r.1 = 201%nat
  ∧ (title <$> Tasks r.2 !! 0%nat) = Some "Bounty"
  ∧ (tags <$> Tasks r.2 !! 0%nat) = Some ["farcaster"; "follow"].
Proof. vm_compute. done. Qed.

Example update_task_validates :
  (* a padded title is stored trimmed *)
  (title <$> Tasks (exec demo_js demo_eth demo_env demo_world
                      (OpUpdate 0%nat 0%nat (demo_update (Some " New title ") None))
                      demo_draft).2 !! 0%nat) = Some "New title"
  (* a blank title and an Invalid Date are refused by [save] *)
  ∧ exec demo_js demo_eth demo_env demo_world
      (OpUpdate 0%nat 0%nat (demo_update (Some "   ") None)) demo_draft
    = (json 500 (ErrorMessage (ValidationError "Task")), demo_draft)
  ∧ exec demo_js demo_eth demo_env demo_world
      (OpUpdate 0%nat 0%nat (demo_update None (Some None))) demo_draft
    = (json 500 (ErrorMessage (ValidationError "Task")), demo_draft).
Proof. vm_compute. done. Qed.

(** An address is stored in lower case and looked up in lower case:
    carol cannot register under alice's address in capitals. *)
Example register_email_in_capitals :
  let s := (exec demo_js demo_eth demo_env demo_world
              (demo_register "alice" "0xa11ce" "Alice@Example.org") empty_store).2 in
  (email <$> Users s !! 0%nat) = Some "alice@example.org"
  ∧ exec demo_js demo_eth demo_env demo_world
      (demo_register "carol" "0xca401" "ALICE@example.org") s
    = (json 400 (ErrorBody "User already exists"), s).
Proof. vm_compute. done. Qed.
